(** * JobScheduling executor: a shallow embedding and its properties

    The development follows
    [WorkloadManagementSystem/Executor/JobScheduling.py].  Python values are
    embedded as follows:

    - [str] as [string], [int] as [Z], [list] as [list];
    - a [dict] as an association list whose order is the iteration order of
      the dictionary (keys are pairwise distinct in a well-formed dict);
    - a [set] as a duplicate-free list; the iteration order of a Python set is
      unspecified, the embedding keeps first occurrences in their order and
      the theorems about set-valued results do not depend on that order;
    - the [S_OK]/[S_ERROR] envelope as the type [Result];
    - an uncaught Python exception as the outcome [Raised];
    - the collaborators (JobState, JobDB, Operations, StorageElement, the
      stager, the optimizer framework) as a record of oracles [Env], the calls
      that write something being logged in an event trace. *)

From Stdlib Require Import List String Ascii ZArith Bool Lia Permutation.
From Stdlib Require Import DecimalString.
Import ListNotations.
Open Scope string_scope.
Open Scope Z_scope.

(** ** Python primitives *)

Module Py.

Definition in_list (x : string) (l : list string) : bool :=
  existsb (String.eqb x) l.

(** [list(set(l))]: the distinct elements of [l]. *)
Fixpoint set_list (l : list string) : list string :=
  match l with
  | [] => []
  | x :: r => x :: filter (fun y => negb (String.eqb x y)) (set_list r)
  end.

(** [set(a) & set(b)], as a duplicate-free list. *)
Definition set_inter (a b : list string) : list string :=
  filter (fun x => in_list x b) (set_list a).

(** [s -= set(b)] on a set [s]. *)
Definition set_diff (s b : list string) : list string :=
  filter (fun x => negb (in_list x b)) s.

(** [sep.join(l)]. *)
Definition join (sep : string) (l : list string) : string :=
  String.concat sep l.

(** [len(l)] as a Python integer. *)
Definition len {A} (l : list A) : Z := Z.of_nat (List.length l).

(** [str(n)] and ['%s' % n] for an integer [n]. *)
Definition str_of_int (n : Z) : string :=
  NilZero.string_of_int (Z.to_int n).

(** [l[i]] for a list: negative indices count from the end, an index out
    of range raises IndexError (here [None]). *)
Definition index {A} (l : list A) (i : Z) : option A :=
  if (0 <=? i) && (i <? len l) then nth_error l (Z.to_nat i)
  else if (i <? 0) && (0 <=? i + len l) then nth_error l (Z.to_nat (i + len l))
  else None.

(** [l.remove(x)]: drops the first occurrence of [x]. *)
Fixpoint remove_first (x : string) (l : list string) : list string :=
  match l with
  | [] => []
  | y :: r => if String.eqb x y then r else y :: remove_first x r
  end.

(** The characters [str.strip()] removes. *)
Definition is_space (c : ascii) : bool :=
  let n := nat_of_ascii c in
  (Nat.eqb n 32 || (Nat.leb 9 n && Nat.leb n 13))%bool.

Fixpoint lstrip (s : string) : string :=
  match s with
  | EmptyString => EmptyString
  | String c r => if is_space c then lstrip r else s
  end.

Fixpoint rstrip (s : string) : string :=
  match s with
  | EmptyString => EmptyString
  | String c r =>
      match rstrip r with
      | EmptyString => if is_space c then EmptyString else String c EmptyString
      | r' => String c r'
      end
  end.

Definition strip (s : string) : string := rstrip (lstrip s).

Definition lower_char (c : ascii) : ascii :=
  let n := nat_of_ascii c in
  if (Nat.leb 65 n && Nat.leb n 90)%bool then ascii_of_nat (n + 32) else c.

Fixpoint lower (s : string) : string :=
  match s with
  | EmptyString => EmptyString
  | String c r => String (lower_char c) (lower r)
  end.

(** [s.split(sep)] for a one-character separator. *)
Fixpoint split (sep : ascii) (s : string) : list string :=
  match s with
  | EmptyString => [EmptyString]
  | String c r =>
      if Ascii.eqb c sep then EmptyString :: split sep r
      else match split sep r with
           | [] => [String c EmptyString]
           | w :: ws => String c w :: ws
           end
  end.

Definition digit_val (c : ascii) : option Z :=
  let n := nat_of_ascii c in
  if (Nat.leb 48 n && Nat.leb n 57)%bool then Some (Z.of_nat (n - 48)) else None.

Fixpoint digits (acc : Z) (s : string) : option Z :=
  match s with
  | EmptyString => Some acc
  | String c r =>
      match digit_val c with
      | Some d => digits (10 * acc + d) r
      | None => None
      end
  end.

(** [int(s)] for a string: surrounding white space, an optional sign and
    at least one decimal digit; anything else raises ValueError ([None]). *)
Definition int (s : string) : option Z :=
  match strip s with
  | EmptyString => None
  | String "-"%char EmptyString => None
  | String "+"%char EmptyString => None
  | String "-"%char r => option_map Z.opp (digits 0 r)
  | String "+"%char r => digits 0 r
  | r => digits 0 r
  end.

End Py.

(** ** Result envelopes, exceptions and dictionaries *)

Inductive Result (A : Type) : Type :=
| S_OK (value : A)
| S_ERROR (message : string).
Arguments S_OK {A} value.
Arguments S_ERROR {A} message.

Definition isOK {A} (r : Result A) : bool :=
  match r with S_OK _ => true | S_ERROR _ => false end.

Inductive PyExn : Type :=
| IndexError
| KeyError (key : string)
| TypeError.

Inductive Outcome (A : Type) : Type :=
| Done (a : A)
| Raised (e : PyExn).
Arguments Done {A} a.
Arguments Raised {A} e.

Definition dict (V : Type) : Type := list (string * V).

Module Dict.

Definition keys {V} (d : dict V) : list string := map fst d.

Fixpoint get {V} (d : dict V) (k : string) : option V :=
  match d with
  | [] => None
  | (k', v) :: r => if String.eqb k k' then Some v else get r k
  end.

Definition mem {V} (k : string) (d : dict V) : bool :=
  match get d k with Some _ => true | None => false end.

(** [d[k] = v]. *)
Fixpoint set {V} (d : dict V) (k : string) (v : V) : dict V :=
  match d with
  | [] => [(k, v)]
  | (k', v') :: r =>
      if String.eqb k k' then (k, v) :: r else (k', v') :: set r k v
  end.

(** [d.pop(k)] for a key that is present. *)
Fixpoint pop {V} (d : dict V) (k : string) : dict V :=
  match d with
  | [] => []
  | (k', v') :: r => if String.eqb k k' then r else (k', v') :: pop r k
  end.

End Dict.

(** ** The site filter *)

(** The values the [banned] argument of [_applySiteFilter] can take. *)
Inductive Banned : Type :=
| BannedFalse                        (* the default [False], or [None] *)
| BannedColl (items : list string)   (* a list, a set, or the keys of a dict *)
| BannedOther (items : list string). (* another enumerable, e.g. a tuple *)

(** [bool(banned)]. *)
Definition truthy (b : Banned) : bool :=
  match b with
  | BannedFalse => false
  | BannedColl l | BannedOther l => negb (Nat.eqb (List.length l) 0)
  end.

(** [isinstance(banned, (list, set, dict))]. *)
Definition isCollection (b : Banned) : bool :=
  match b with BannedColl _ => true | _ => false end.

Definition bannedItems (b : Banned) : list string :=
  match b with
  | BannedFalse => []
  | BannedColl l | BannedOther l => l
  end.

Definition _applySiteFilter (sites : list string) (banned : Banned) : list string :=
  match sites with
  | [] => sites
  | _ =>
      let filtered := Py.set_list sites in
      let filtered :=
        if truthy banned && isCollection banned
        then Py.set_diff filtered (bannedItems banned)
        else filtered in
      filtered
  end.

(** ** Data model *)

(** A site's replica record, the dictionary [{'disk': n, 'tape': m}]. *)
Record SiteReplicaRecord : Type := mkRec { disk : Z; tape : Z }.

(** The optimizer record of the InputData optimizer: the entry
    ['SiteCandidates'] and the replica catalog reply
    [opData['Value']['Value']['Successful']]; either may be missing. *)
Record OpData : Type := mkOpData {
  SiteCandidates : option (dict SiteReplicaRecord);
  Successful : option (dict (list string))
}.

(** The status dictionary of a storage element. *)
Record SEStatus : Type := mkSEStatus {
  Read : bool; Write : bool; DiskSE : bool; TapeSE : bool
}.

(** A stage request: storage element name -> LFNs. *)
Definition StageRequest : Type := dict (list string).

(** The job manifest: the options read as lists, the option
    [VirtualOrganization], and the sections with the options set in them. *)
Record Manifest : Type := mkManifest {
  options : dict (list string);
  VirtualOrganization : option string;
  sections : dict (dict string)
}.

(** The options of the executor that are set in the configuration. *)
Record Config : Type := mkConfig {
  RescheduleDelays : option (list Z);
  ExcludedOnHoldJobTypes : option (list string);
  HoldTime : option Z;
  StagingStatus : option string;
  StagingMinorStatus : option string;
  InputDataAgent : option string;
  RestrictDataStage : option bool
}.

Definition ex_getOption {A} (value : option A) (default : A) : A :=
  match value with Some v => v | None => default end.

(** The calls that write to a collaborator. *)
Inductive Event : Type :=
| FreezeTask (delay : Z)
| SetAppStatus (msg : string)
| SetStatus (major minor appStatus : string)
| SetRequest (stageLFNs : StageRequest) (jobId : Z)
| SetParameter (key value : string)
| SetAttribute (key value : string)
| StoreOptimizerParam (name : string) (opData : OpData)
| SetNextOptimizer.

(** The replies of the collaborators. *)
Record Env : Type := mkEnv {
  config : Config;
  jid : Z;
  (* toEpoch() and toEpoch(fromString(s)) *)
  now : Z;
  epochOf : string -> Z;
  (* JobState *)
  getAttributes : Result (dict string);
  getAttribute : string -> Result string;
  manifestError : option string;
  getInputData : Result (list string);
  setStatus : string -> string -> Result unit;
  setAppStatus : string -> Result unit;
  setAttribute : string -> string -> Result unit;
  (* JobDB.getSiteMask('Banned') *)
  getSiteMask : Result (list string);
  (* Operations().getValue('Transformations/DataProcessing', []) *)
  dataProcessing : list string;
  getFilesToStage : list string -> string -> string -> Result StageRequest;
  (* Properties.STAGE_ALLOWED in Registry.getPropertiesForGroup(group) *)
  stageAllowed : string -> bool;
  retrieveOptimizerParam : string -> Result OpData;
  storeOptimizerParam : string -> OpData -> Result unit;
  setNextOptimizer : Result unit;
  getSEsForSite : string -> Result (list string);
  (* StorageElement(seName, vo = vo).getStatus() *)
  getStatus : string -> option string -> Result SEStatus;
  getSiteTier : string -> Result Z;
  (* StorageManagerClient().setRequest(stageLFNs, ..., jobId) *)
  setRequest : StageRequest -> Z -> Result Z
}.

(** What a call changes: the trace of writes, the manifest object of the
    job state, and the random draws left for [random.shuffle]. *)
Record State : Type := mkState {
  trace : list Event;
  manifest : Manifest;
  draws : list nat
}.

Definition M (A : Type) : Type := State -> Outcome A * State.

Definition ret {A} (a : A) : M A := fun st => (Done a, st).

Definition raise {A} (e : PyExn) : M A := fun st => (Raised e, st).

Definition bind {A B} (c : M A) (k : A -> M B) : M B :=
  fun st =>
    match c st with
    | (Done a, st') => k a st'
    | (Raised e, st') => (Raised e, st')
    end.

Notation "x <- c ;; k" := (bind c (fun x => k))
  (at level 61, c at next level, right associativity).
Notation "c ;;; k" := (bind c (fun _ => k))
  (at level 61, right associativity).

Definition emit (e : Event) : M unit :=
  fun st => (Done tt, mkState (trace st ++ [e])%list (manifest st) (draws st)).

Definition getManifest (env : Env) (st : State) : Result Manifest :=
  match manifestError env with
  | Some msg => S_ERROR msg
  | None => S_OK (manifest st)
  end.

Definition readManifest (env : Env) : M (Result Manifest) :=
  fun st => (Done (getManifest env st), st).

(** Forwarding a failed envelope, [return result]. *)
Definition failWith {A} (msg : string) : M (Result A) := ret (S_ERROR msg).

(** ** __holdJob *)

Definition holdJob (env : Env) (holdMsg : string) (delay : Z) : M (Result unit) :=
  (if negb (delay =? 0)
   then emit (FreezeTask delay)
   else emit (FreezeTask (ex_getOption (HoldTime (config env)) 300))) ;;;
  emit (SetAppStatus holdMsg) ;;;
  ret (setAppStatus env holdMsg).

(** ** __getSitesRequired *)

Definition manifestOption (m : Manifest) (name : string) (default : list string)
  : list string :=
  match Dict.get (options m) name with Some v => v | None => default end.

Definition isNil {A} (l : list A) : bool :=
  match l with [] => true | _ => false end.

Definition getSitesRequired (env : Env)
  : M (Result (list string * list string)) :=
  result <- readManifest env ;;
  match result with
  | S_ERROR msg => failWith ("Could not retrieve manifest: " ++ msg)
  | S_OK manifest =>
      let bannedSites := manifestOption manifest "BannedSites" [] in
      let bannedSites :=
        if isNil bannedSites then manifestOption manifest "BannedSite" []
        else bannedSites in
      let sites := manifestOption manifest "Site" [] in
      let sites :=
        filter (fun site =>
                  negb (Py.in_list (Py.lower (Py.strip site)) ["any"; ""]))
               sites in
      if negb (isNil sites) then
        let sites := _applySiteFilter sites (BannedColl bannedSites) in
        if isNil sites then failWith "Impossible site requirement"
        else ret (S_OK (sites, bannedSites))
      else ret (S_OK (sites, bannedSites))
  end.

(** ** __setJobSite *)

(** The loop over the sites: [acc] is [(tierLevel, tierSite)]. *)
Definition tierStep (env : Env) (acc : Z * list string) (siteName : string)
  : Z * list string :=
  let '(tierLevel, tierSite) := acc in
  match getSiteTier env siteName with
  | S_ERROR _ => (tierLevel, tierSite)
  | S_OK siteTier =>
      let siteTier := if siteTier =? 0 then 1 else siteTier in
      let '(tierLevel, tierSite) :=
        if (tierLevel =? -1) || (tierLevel >? siteTier)
        then (siteTier, [])
        else (tierLevel, tierSite) in
      if tierLevel =? siteTier
      then (tierLevel, (tierSite ++ [siteName])%list)
      else (tierLevel, tierSite)
  end.

(** [".".join( site.split( "." )[1:] )]. *)
Definition stripFirstToken (site : string) : string :=
  Py.join "." (tl (Py.split "."%char site)).

Definition jobSiteName (env : Env) (siteList : list string) : string :=
  match siteList with
  | [] => "ANY"
  | [site] => site
  | _ =>
      let '(_, tierSite) := fold_left (tierStep env) siteList (-1, []) in
      match tierSite with
      | [site] => "Group." ++ stripFirstToken site
      | _ => "Multiple"
      end
  end.

Definition setJobSite (env : Env) (siteList : list string) : M (Result unit) :=
  let siteName := jobSiteName env siteList in
  emit (SetAttribute "Site" siteName) ;;;
  ret (setAttribute env "Site" siteName).

(** ** __sendToTQ *)

(** [name in manifest]: an option or a section of that name exists. *)
Definition inManifest (m : Manifest) (name : string) : bool :=
  Dict.mem name (options m) || Dict.mem name (sections m).

(** [manifest.getSection(name)]: fails when there is no such section. *)
Definition getSection (m : Manifest) (name : string) : Result unit :=
  if Dict.mem name (sections m) then S_OK tt
  else S_ERROR ("Section " ++ name ++ " does not exist").

(** [manifest.createSection(name)], called for a name not in the manifest. *)
Definition createSection (name : string) : M (Result unit) :=
  fun st =>
    let m := manifest st in
    (Done (S_OK tt),
     mkState (trace st)
             (mkManifest (options m) (VirtualOrganization m)
                         (Dict.set (sections m) name []))
             (draws st)).

(** [reqCfg.setOption(name, value)] on the section object [section] of the
    manifest. *)
Definition setOption (section name value : string) : M unit :=
  fun st =>
    let m := manifest st in
    let cfg := match Dict.get (sections m) section with
               | Some c => c
               | None => []
               end in
    (Done tt,
     mkState (trace st)
             (mkManifest (options m) (VirtualOrganization m)
                         (Dict.set (sections m) section (Dict.set cfg name value)))
             (draws st)).

Definition requirementKeys : list string :=
  ["SubmitPools"; "SubmitPool"; "GridMiddleware"; "PilotTypes"; "PilotType";
   "JobType"; "GridRequiredCEs"; "GridCE"; "Tags"].

Definition reqKeyOf (key : string) : string :=
  if String.eqb key "JobType" then "JobTypes"
  else if String.eqb key "GridRequiredCEs" || String.eqb key "GridCE" then "GridCEs"
  else if String.eqb key "SubmitPools" || String.eqb key "SubmitPool" then "SubmitPools"
  else if String.eqb key "PilotTypes" || String.eqb key "PilotType" then "PilotTypes"
  else key.

Fixpoint forEach {A} (l : list A) (body : A -> M unit) : M unit :=
  match l with
  | [] => ret tt
  | x :: r => body x ;;; forEach r body
  end.

Definition sendToTQ (env : Env) (sites bannedSites : list string)
  : M (Result unit) :=
  result <- readManifest env ;;
  match result with
  | S_ERROR msg => failWith ("Could not retrieve manifest: " ++ msg)
  | S_OK manifest =>
      let reqSection := "JobRequirements" in
      result <- (if inManifest manifest reqSection
                 then ret (getSection manifest reqSection)
                 else createSection reqSection) ;;
      match result with
      | S_ERROR _ =>
          (* the format string of the error log has two places and gets one
             argument *)
          raise TypeError
      | S_OK _ =>
          (if negb (isNil sites)
           then setOption reqSection "Sites" (Py.join ", " sites)
           else ret tt) ;;;
          (if negb (isNil bannedSites)
           then setOption reqSection "BannedSites" (Py.join ", " bannedSites)
           else ret tt) ;;;
          (* the options at the top of the manifest are not touched by the
             writes to the section, [manifest] still tells them *)
          forEach requirementKeys
            (fun key =>
               if inManifest manifest key
               then setOption reqSection (reqKeyOf key)
                      (Py.join ", " (manifestOption manifest key []))
               else ret tt) ;;;
          result <- setJobSite env sites ;;
          match result with
          | S_ERROR msg => failWith msg
          | S_OK _ => emit SetNextOptimizer ;;; ret (setNextOptimizer env)
          end
      end
  end.

(** ** __resolveStaging *)

(** [random.shuffle], as draws without replacement: each draw selects one
    of the elements that are left. *)
Fixpoint pick {A} (i : nat) (l : list A) {struct l} : option (A * list A) :=
  match l with
  | [] => None
  | x :: r =>
      match i with
      | O => Some (x, r)
      | S i' =>
          match pick i' r with
          | Some (y, r') => Some (y, x :: r')
          | None => None
          end
      end
  end.

Fixpoint shuffleWith {A} (fuel : nat) (ds : list nat) (l : list A)
  : list A * list nat :=
  match fuel with
  | O => (l, ds)
  | S fuel' =>
      match l with
      | [] | [_] => (l, ds)
      | _ =>
          match pick (Nat.modulo (hd O ds) (List.length l)) l with
          | Some (y, r) =>
              let '(out, ds') := shuffleWith fuel' (tl ds) r in
              (y :: out, ds')
          | None => (l, ds)
          end
      end
  end.

Definition shuffle (l : list string) : M (list string) :=
  fun st =>
    let '(out, ds) := shuffleWith (List.length l) (draws st) l in
    (Done out, mkState (trace st) (manifest st) ds).

(** The loop over [idSites]: [acc] is [(diskSites, maxOnDisk, bestSites)]. *)
Definition resolveStep (numData : Z) (acc : list string * Z * list string)
  (entry : string * SiteReplicaRecord) : list string * Z * list string :=
  let '(diskSites, maxOnDisk, bestSites) := acc in
  let '(site, siteData) := entry in
  let nDisk := disk siteData in
  let diskSites :=
    if (nDisk >? 0) && (nDisk =? numData)
    then (diskSites ++ [site])%list else diskSites in
  if nDisk >? maxOnDisk then (diskSites, nDisk, [site])
  else if nDisk =? maxOnDisk then (diskSites, maxOnDisk, (bestSites ++ [site])%list)
  else (diskSites, maxOnDisk, bestSites).

Definition resolveStaging (inputData : list string)
  (idSites : dict SiteReplicaRecord) : M (bool * list string) :=
  let '(diskSites, _, bestSites) :=
    fold_left (resolveStep (Py.len inputData)) idSites ([], 0, []) in
  if negb (isNil diskSites) then ret (false, diskSites)
  else if Py.len bestSites >? 1
       then bestSites <- shuffle bestSites ;; ret (true, bestSites)
       else ret (true, bestSites).

(** ** __checkStageAllowed *)

Definition checkStageAllowed (env : Env) : Result bool :=
  match getAttribute env "OwnerGroup" with
  | S_ERROR _ => S_ERROR "Cannot get OwnerGroup"
  | S_OK group => S_OK (stageAllowed env group)
  end.

(** ** __requestStaging *)

Definition requestStaging (env : Env) (stageLFNs : StageRequest)
  : M (Result StageRequest) :=
  let major := ex_getOption (StagingStatus (config env)) "Staging" in
  let minor := ex_getOption (StagingMinorStatus (config env)) "Request To Be Sent" in
  emit (SetStatus major minor "") ;;;
  match setStatus env major minor with
  | S_ERROR msg => failWith msg
  | S_OK _ =>
      emit (SetRequest stageLFNs (jid env)) ;;;
      match setRequest env stageLFNs (jid env) with
      | S_ERROR _ => failWith "Problem sending staging request"
      | S_OK value =>
          let rid := Py.str_of_int value in
          emit (SetParameter "StageRequest" rid) ;;;
          let major := ex_getOption (StagingStatus (config env)) "Staging" in
          let minor := ex_getOption (StagingMinorStatus (config env)) "Request Sent" in
          emit (SetStatus major minor "") ;;;
          match setStatus env major minor with
          | S_ERROR msg => failWith msg
          | S_OK _ => ret (S_OK stageLFNs)
          end
      end
  end.

(** ** __preRequestStaging *)

(** The loop over the SEs of the stage site; [None] when a status query
    fails. *)
Fixpoint classifySEs (env : Env) (vo : option string) (siteSEs : list string)
  (tapeSEs diskSEs : list string) : option (list string * list string) :=
  match siteSEs with
  | [] => Some (tapeSEs, diskSEs)
  | seName :: rest =>
      match getStatus env seName vo with
      | S_ERROR _ => None
      | S_OK seStatus =>
          let tapeSEs :=
            if Read seStatus && TapeSE seStatus
            then (tapeSEs ++ [seName])%list else tapeSEs in
          let diskSEs :=
            if Read seStatus && DiskSE seStatus
            then (diskSEs ++ [seName])%list else diskSEs in
          classifySEs env vo rest tapeSEs diskSEs
      end
  end.

(** The loop over the replicas of one LFN, with its [break] and [continue]. *)
Fixpoint scanReplicas (diskSEs tapeSEs replicas seStage : list string)
  : list string :=
  match replicas with
  | [] => seStage
  | seName :: rest =>
      if Py.in_list seName diskSEs then []
      else if negb (Py.in_list seName tapeSEs)
           then scanReplicas diskSEs tapeSEs rest seStage
           else scanReplicas diskSEs tapeSEs rest (seStage ++ [seName])%list
  end.

Definition addToStage (lfn : string) (acc : StageRequest * list string)
  (seName : string) : StageRequest * list string :=
  let '(stageLFNs, lfnToStage) := acc in
  let stageLFNs :=
    if negb (Dict.mem seName stageLFNs) then Dict.set stageLFNs seName []
    else stageLFNs in
  let stageLFNs :=
    match Dict.get stageLFNs seName with
    | Some lfns => Dict.set stageLFNs seName (lfns ++ [lfn])%list
    | None => stageLFNs
    end in
  let lfnToStage :=
    if negb (Py.in_list lfn lfnToStage) then (lfnToStage ++ [lfn])%list
    else lfnToStage in
  (stageLFNs, lfnToStage).

Definition collectStep (diskSEs tapeSEs : list string)
  (acc : StageRequest * list string) (entry : string * list string)
  : StageRequest * list string :=
  let '(lfn, replicas) := entry in
  let seStage := scanReplicas diskSEs tapeSEs replicas [] in
  fold_left (addToStage lfn) seStage acc.

(** [sorted] on the tuples [(count, seName)]. *)
Definition tupleLeb (a b : Z * string) : bool :=
  (fst a <? fst b) || ((fst a =? fst b) && String.leb (snd a) (snd b)).

Fixpoint insertSorted (x : Z * string) (l : list (Z * string))
  : list (Z * string) :=
  match l with
  | [] => [x]
  | y :: r => if tupleLeb x y then x :: l else y :: insertSorted x r
  end.

Definition sorted (l : list (Z * string)) : list (Z * string) :=
  fold_right insertSorted [] l.

(** The inner loop of the minimization for one LFN, over the items the
    iterator [sortedSEs] still holds. *)
Fixpoint traverseSEs (lfn : string) (items : list (Z * string)) (found : bool)
  (stageLFNs : StageRequest) : Outcome StageRequest :=
  match items with
  | [] => Done stageLFNs
  | (_, seName) :: rest =>
      match Dict.get stageLFNs seName with
      | None => Raised (KeyError seName)
      | Some lfns =>
          let '(found, lfns, stageLFNs) :=
            if Py.in_list lfn lfns then
              if found
              then let lfns := Py.remove_first lfn lfns in
                   (found, lfns, Dict.set stageLFNs seName lfns)
              else (true, lfns, stageLFNs)
            else (found, lfns, stageLFNs) in
          let stageLFNs :=
            if Py.len lfns =? 0 then Dict.pop stageLFNs seName else stageLFNs in
          traverseSEs lfn rest found stageLFNs
      end
  end.

(** The outer loop.  [sortedSEs] is the iterator that [reversed] returns:
    the inner loop of the first LFN runs it to its end, and it yields
    nothing to the inner loops of the LFNs after it. *)
Fixpoint minimize (lfnToStage : list string) (sortedSEs : list (Z * string))
  (stageLFNs : StageRequest) : Outcome StageRequest :=
  match lfnToStage with
  | [] => Done stageLFNs
  | lfn :: rest =>
      match traverseSEs lfn sortedSEs false stageLFNs with
      | Raised e => Raised e
      | Done stageLFNs => minimize rest [] stageLFNs
      end
  end.

Definition preRequestStaging (env : Env) (manifestReply : Result Manifest)
  (stageSite : string) (opData : OpData) : Outcome (Result StageRequest) :=
  match getSEsForSite env stageSite with
  | S_ERROR _ => Done (S_ERROR ("Could not determine SEs for site " ++ stageSite))
  | S_OK siteSEs =>
      match manifestReply with
      | S_ERROR msg => Done (S_ERROR msg)
      | S_OK manifest =>
          let vo := VirtualOrganization manifest in
          match classifySEs env vo siteSEs [] [] with
          | None => Done (S_ERROR "Cannot retrieve SE status")
          | Some (tapeSEs, diskSEs) =>
              if isNil tapeSEs
              then Done (S_ERROR ("No Local SEs for site " ++ stageSite))
              else
                match Successful opData with
                | None => Raised (KeyError "Value")
                | Some inputData =>
                    let '(stageLFNs, lfnToStage) :=
                      fold_left (collectStep diskSEs tapeSEs) inputData ([], []) in
                    if isNil stageLFNs
                    then Done (S_ERROR "Cannot find tape replicas")
                    else
                      let sortedSEs :=
                        rev (sorted (map (fun e => (Py.len (snd e), fst e))
                                         stageLFNs)) in
                      match minimize lfnToStage sortedSEs stageLFNs with
                      | Raised e => Raised e
                      | Done stageLFNs => Done (S_OK stageLFNs)
                      end
                end
          end
      end
  end.

(** ** __updateSharedSESites *)

(** The loop over the SEs close to a site, with the status cache
    [seStatus]; returns [(diskSEs, seStatus)]. *)
Fixpoint closeDiskSEs (env : Env) (vo : option string) (closeSEs : list string)
  (seStatus : dict SEStatus) (diskSEs : list string)
  : list string * dict SEStatus :=
  match closeSEs with
  | [] => (diskSEs, seStatus)
  | seName :: rest =>
      let cached :=
        if negb (Dict.mem seName seStatus) then
          match getStatus env seName vo with
          | S_ERROR _ => None
          | S_OK value => Some (Dict.set seStatus seName value)
          end
        else Some seStatus in
      match cached with
      | None => closeDiskSEs env vo rest seStatus diskSEs
      | Some seStatus =>
          match Dict.get seStatus seName with
          | Some status =>
              if Read status && DiskSE status
              then closeDiskSEs env vo rest seStatus (diskSEs ++ [seName])%list
              else closeDiskSEs env vo rest seStatus diskSEs
          | None => closeDiskSEs env vo rest seStatus diskSEs
          end
      end
  end.

(** The body of the loop over the LFNs staged from one SE. *)
Definition promoteLFN (lfnData : dict (list string)) (diskSEs : list string)
  (siteData : SiteReplicaRecord) (lfn : string) : SiteReplicaRecord :=
  match Dict.get lfnData lfn with
  | None => siteData
  | Some replicas =>
      let onDisk := existsb (fun siteSE => Py.in_list siteSE diskSEs) replicas in
      if negb onDisk then mkRec (disk siteData + 1) (tape siteData - 1)
      else siteData
  end.

Definition promoteSE (lfnData : dict (list string)) (closeSEs diskSEs : list string)
  (siteData : SiteReplicaRecord) (entry : string * list string)
  : SiteReplicaRecord :=
  let '(seName, lfns) := entry in
  if negb (Py.in_list seName closeSEs) then siteData
  else fold_left (promoteLFN lfnData diskSEs) lfns siteData.

(** The loop over the site candidates.  The records are updated in place:
    what has been written stays written when the loop is left by an
    exception. *)
Fixpoint updateSites (env : Env) (vo : option string) (stageSite : string)
  (stagedLFNs : StageRequest) (lfnData : option (dict (list string)))
  (siteCandidates : dict SiteReplicaRecord) (seStatus : dict SEStatus)
  : dict SiteReplicaRecord * Outcome unit :=
  match siteCandidates with
  | [] => ([], Done tt)
  | (siteName, siteData) :: rest =>
      let continue seStatus siteData :=
        let '(rest, out) :=
          updateSites env vo stageSite stagedLFNs lfnData rest seStatus in
        ((siteName, siteData) :: rest, out) in
      if String.eqb siteName stageSite then continue seStatus siteData
      else
        match getSEsForSite env siteName with
        | S_ERROR _ => continue seStatus siteData
        | S_OK closeSEs =>
            let '(diskSEs, seStatus) := closeDiskSEs env vo closeSEs seStatus [] in
            match lfnData with
            | None => (siteCandidates, Raised (KeyError "Value"))
            | Some lfnData =>
                continue seStatus
                  (fold_left (promoteSE lfnData closeSEs diskSEs) stagedLFNs siteData)
            end
        end
  end.

Definition updateSharedSESites (env : Env) (manifestReply : Result Manifest)
  (stageSite : string) (stagedLFNs : StageRequest) (opData : OpData)
  : OpData * Outcome (Result unit) :=
  match SiteCandidates opData with
  | None => (opData, Raised (KeyError "SiteCandidates"))
  | Some siteCandidates =>
      match manifestReply with
      | S_ERROR msg => (opData, Done (S_ERROR msg))
      | S_OK manifest =>
          let vo := VirtualOrganization manifest in
          let '(siteCandidates, out) :=
            updateSites env vo stageSite stagedLFNs (Successful opData)
                        siteCandidates [] in
          (mkOpData (Some siteCandidates) (Successful opData),
           match out with Done _ => Done (S_OK tt) | Raised e => Raised e end)
      end
  end.

(** ** optimizeJob *)

Definition liftOutcome {A} (o : Outcome A) : M A := fun st => (o, st).

(** Step "set as if everything has already been staged". *)
Definition stagedAsIfDone (stageData : SiteReplicaRecord) : SiteReplicaRecord :=
  mkRec (disk stageData + tape stageData) 0.

(** From "Get stageSites[0]" to the end of [optimizeJob]. *)
Definition stageAt (env : Env) (idAgent : string) (opData : OpData)
  (idSites : dict SiteReplicaRecord) (stageSites : list string)
  : M (Result unit) :=
  match Py.index stageSites 0 with
  | None => raise IndexError
  | Some stageSite =>
      match Dict.get idSites stageSite, SiteCandidates opData with
      | None, _ => raise (KeyError stageSite)
      | _, None => raise (KeyError "SiteCandidates")
      | Some stageData, Some siteCandidates =>
          (* [stageData] is the record object held by [opData] *)
          let stageData := stagedAsIfDone stageData in
          let opData :=
            mkOpData (Some (Dict.set siteCandidates stageSite stageData))
                     (Successful opData) in
          manifestReply <- readManifest env ;;
          stageRequest <-
            liftOutcome (preRequestStaging env manifestReply stageSite opData) ;;
          match stageRequest with
          | S_ERROR msg => failWith msg
          | S_OK stageLFNs =>
              result <- requestStaging env stageLFNs ;;
              match result with
              | S_ERROR msg => failWith msg
              | S_OK stageLFNs =>
                  manifestReply <- readManifest env ;;
                  let '(opData, out) :=
                    updateSharedSESites env manifestReply stageSite stageLFNs
                                        opData in
                  liftOutcome out ;;;
                  emit (StoreOptimizerParam idAgent opData) ;;;
                  match storeOptimizerParam env idAgent opData with
                  | S_ERROR msg => failWith msg
                  | S_OK _ => setJobSite env stageSites
                  end
              end
          end
      end
  end.

(** [idSites[site] = opData['SiteCandidates'][site]] for the sites kept. *)
Fixpoint copyRecords (siteCandidates : dict SiteReplicaRecord)
  (sites : list string) (idSites : dict SiteReplicaRecord)
  : Outcome (dict SiteReplicaRecord) :=
  match sites with
  | [] => Done idSites
  | site :: rest =>
      match Dict.get siteCandidates site with
      | None => Raised (KeyError site)
      | Some siteData =>
          copyRecords siteCandidates rest (Dict.set idSites site siteData)
      end
  end.

(** The Replica/Site intersection of the user job path. *)
Definition intersectSites (siteCandidates : dict SiteReplicaRecord)
  (userSites userBannedSites : list string) : list string :=
  let siteCandidates := Dict.keys siteCandidates in
  _applySiteFilter (Py.set_inter siteCandidates userSites)
                   (BannedColl userBannedSites).

(** The sites whose replica count is not the number of input files. *)
Definition errorSitesOf (numData : Z) (idSites : dict SiteReplicaRecord)
  : list string :=
  Dict.keys (filter (fun e => negb (numData =? disk (snd e) + tape (snd e)))
                    idSites).

(** "From now on we know it's a user job with input data". *)
Definition userJob (env : Env) (inputData userSites userBannedSites
  wmsBannedSites : list string) : M (Result unit) :=
  let idAgent := ex_getOption (InputDataAgent (config env)) "InputData" in
  match retrieveOptimizerParam env idAgent with
  | S_ERROR _ => failWith "Could not retrieve input data info"
  | S_OK opData =>
      match SiteCandidates opData with
      | None => failWith "No possible site candidates"
      | Some opSites =>
          let siteCandidates := intersectSites opSites userSites userBannedSites in
          if isNil siteCandidates
          then failWith "Impossible InputData * Site requirements"
          else
            idSites <- liftOutcome (copyRecords opSites siteCandidates []) ;;
            let numData := Py.len inputData in
            let errorSites := errorSitesOf numData idSites in
            let idSites := fold_left (@Dict.pop _) errorSites idSites in
            if isNil idSites
            then failWith "Site candidates do not have all the input data"
            else
              resolved <- resolveStaging inputData idSites ;;
              let '(stageRequired, siteCandidates) := resolved in
              if isNil siteCandidates
              then failWith "No destination sites available"
              else
                let stageSites :=
                  _applySiteFilter siteCandidates (BannedColl wmsBannedSites) in
                if isNil stageSites
                then holdJob env ("Sites " ++ Py.join ", " siteCandidates
                                    ++ " are inactive or banned") 0
                else if negb stageRequired
                then sendToTQ env siteCandidates userBannedSites
                else if ex_getOption (RestrictDataStage (config env)) false
                then
                  match checkStageAllowed env with
                  | S_ERROR msg => failWith msg
                  | S_OK allowed =>
                      if negb allowed then failWith "Stage not allowed"
                      else stageAt env idAgent opData idSites stageSites
                  end
                else stageAt env idAgent opData idSites stageSites
      end
  end.

(** "Production jobs are sent to TQ, but first we have to verify if staging
    is necessary". *)
Definition productionJob (env : Env) (inputData userSites userBannedSites
  : list string) : M (Result unit) :=
  match getAttribute env "Owner" with
  | S_ERROR msg => failWith msg
  | S_OK userName =>
      match getAttribute env "OwnerGroup" with
      | S_ERROR msg => failWith msg
      | S_OK userGroup =>
          match getFilesToStage env inputData userName userGroup with
          | S_ERROR msg => holdJob env msg 0
          | S_OK stageLFNs =>
              if negb (isNil stageLFNs) then
                match checkStageAllowed env with
                | S_ERROR msg => failWith msg
                | S_OK allowed =>
                    if negb allowed then failWith "Stage not allowed"
                    else
                      (* the reply of __requestStaging is dropped *)
                      requestStaging env stageLFNs ;;;
                      ret (S_OK tt)
                end
              else sendToTQ env userSites userBannedSites
          end
      end
  end.

(** From "Get site requirements" on. *)
Definition scheduleJob (env : Env) : M (Result unit) :=
  result <- getSitesRequired env ;;
  match result with
  | S_ERROR msg => failWith msg
  | S_OK (userSites, userBannedSites) =>
      match getAttribute env "JobType" with
      | S_ERROR _ => failWith "Could not retrieve job type"
      | S_OK jobType =>
          match getSiteMask env with
          | S_ERROR _ => failWith "Cannot retrieve banned sites from JobDB"
          | S_OK wmsBannedSites =>
              let excluded :=
                ex_getOption (ExcludedOnHoldJobTypes (config env)) [] in
              if negb (isNil userSites)
                 && negb (Py.in_list jobType excluded)
                 && isNil (_applySiteFilter userSites (BannedColl wmsBannedSites))
              then
                if Py.len userSites >? 1
                then holdJob env ("Requested sites " ++ Py.join "," userSites
                                    ++ " are inactive") 0
                else
                  match Py.index userSites 0 with
                  | None => raise IndexError
                  | Some site =>
                      holdJob env ("Requested site " ++ site ++ " is inactive") 0
                  end
              else
                match getInputData env with
                | S_ERROR _ => failWith "Failed to get input data from JobDB"
                | S_OK inputData =>
                    if isNil inputData
                    then sendToTQ env userSites userBannedSites
                    else if Py.in_list jobType (dataProcessing env)
                    then productionJob env inputData userSites userBannedSites
                    else userJob env inputData userSites userBannedSites
                                 wmsBannedSites
                end
          end
      end
  end.

Definition defaultDelays : list Z := [60; 180; 300; 600].

Definition optimizeJob (env : Env) : M (Result unit) :=
  match getAttributes env with
  | S_ERROR msg => failWith msg
  | S_OK attDict =>
      match match Dict.get attDict "RescheduleCounter" with
            | None => None            (* KeyError *)
            | Some s => Py.int s      (* ValueError when [None] *)
            end with
      | None => failWith "RescheduleCounter has to be an integer"
      | Some reschedules =>
          if negb (reschedules =? 0) then
            let delays :=
              ex_getOption (RescheduleDelays (config env)) defaultDelays in
            match Py.index delays (Z.min reschedules (Py.len delays - 1)) with
            | None => raise IndexError
            | Some delay =>
                match Dict.get attDict "RescheduleTime" with
                | None => raise (KeyError "RescheduleTime")
                | Some rescheduleTime =>
                    let waited := now env - epochOf env rescheduleTime in
                    if waited <? delay
                    then holdJob env ("On Hold: after rescheduling "
                                        ++ Py.str_of_int reschedules) delay
                    else scheduleJob env
                end
            end
          else scheduleJob env
      end
  end.

(** ** Notions used in the statements *)

(** The events a call has added to the trace. *)
Definition eventsSince (before after : State) : list Event :=
  skipn (List.length (trace before)) (trace after).

(** The minor status of each status write of a trace, in order. *)
Definition statusMinors (t : list Event) : list string :=
  flat_map (fun e => match e with SetStatus _ minor _ => [minor] | _ => [] end) t.

(** The invariant of a site's replica record for [n] input files. *)
Definition recordInvariant (n : Z) (r : SiteReplicaRecord) : Prop :=
  0 <= disk r /\ 0 <= tape r /\ disk r + tape r <= n.

(** What the shared-SE update keeps of a record: replicas move from tape to
    disk. *)
Definition promoted (old new : SiteReplicaRecord) : Prop :=
  disk new + tape new = disk old + tape old
  /\ disk old <= disk new /\ tape new <= tape old.

Definition promotedEntry (old new : string * SiteReplicaRecord) : Prop :=
  fst new = fst old /\ promoted (snd old) (snd new).

(** The sites of [idSites] holding all [n] input files on disk. *)
Definition allOnDisk (n : Z) (idSites : dict SiteReplicaRecord) : list string :=
  Dict.keys (filter (fun e => disk (snd e) =? n) idSites).

(** The sites of [idSites] whose disk count no other site exceeds. *)
Definition maxDiskSites (idSites : dict SiteReplicaRecord) : list string :=
  Dict.keys
    (filter (fun e => forallb (fun e' => disk (snd e') <=? disk (snd e)) idSites)
            idSites).

(** The tier of a site with 0 read as 1; [None] when the lookup fails. *)
Definition normalizedTier (env : Env) (site : string) : option Z :=
  match getSiteTier env site with
  | S_OK t => Some (if t =? 0 then 1 else t)
  | S_ERROR _ => None
  end.

(** The entries of [siteList] whose tier resolves and is minimal among the
    resolvable tiers of the list. *)
Definition minTierSites (env : Env) (siteList : list string) : list string :=
  filter (fun s =>
            match normalizedTier env s with
            | None => false
            | Some t =>
                forallb (fun s' => match normalizedTier env s' with
                                   | None => true
                                   | Some t' => t <=? t'
                                   end) siteList
            end) siteList.

Fixpoint noDot (s : string) : bool :=
  match s with
  | EmptyString => true
  | String c r => negb (Ascii.eqb c "."%char) && noDot r
  end.

(** The state [st] after the writes [new]. *)
Definition addEvents (st : State) (new : list Event) : State :=
  mkState (trace st ++ new) (manifest st) (draws st).

(** The status strings of the two status writes of [requestStaging]. *)
Definition stagingMajor (env : Env) : string :=
  ex_getOption (StagingStatus (config env)) "Staging".

Definition minorToBeSent (env : Env) : string :=
  ex_getOption (StagingMinorStatus (config env)) "Request To Be Sent".

Definition minorSent (env : Env) : string :=
  ex_getOption (StagingMinorStatus (config env)) "Request Sent".

(** The largest disk count of [idSites], 0 for the empty dictionary. *)
Definition maxOnDiskOf (idSites : dict SiteReplicaRecord) : Z :=
  fold_left (fun m e => Z.max m (disk (snd e))) idSites 0.

(** [site] has the normalized tier [level]. *)
Definition hasTier (env : Env) (level : Z) (site : string) : bool :=
  match normalizedTier env site with
  | Some t => t =? level
  | None => false
  end.

(** The value of the attribute [Site] the summary of [siteList] asks for. *)
Definition siteSummary (env : Env) (siteList : list string) : string :=
  match siteList with
  | [] => "ANY"
  | [site] => site
  | _ =>
      match minTierSites env siteList with
      | [site] => "Group." ++ stripFirstToken site
      | _ => "Multiple"
      end
  end.

(** What the loop of [setJobSite] has computed after the sites [l]. *)
Definition tierLoopInv (env : Env) (l : list string) (acc : Z * list string)
  : Prop :=
  snd acc = filter (hasTier env (fst acc)) l
  /\ ((fst acc = -1 /\ forall s, In s l -> normalizedTier env s = None)
      \/ (1 <= fst acc
          /\ (exists s, In s l /\ normalizedTier env s = Some (fst acc))
          /\ forall s t, In s l -> normalizedTier env s = Some t -> fst acc <= t)).


(** The SEs of a stage request whose list holds [lfn]. *)
Definition sesHolding (lfn : string) (stageLFNs : StageRequest) : list string :=
  Dict.keys (filter (fun e => Py.in_list lfn (snd e)) stageLFNs).

(** Every SE of a stage request has something to stage. *)
Definition listsNonEmpty (stageLFNs : StageRequest) : Prop :=
  Forall (fun e => snd e <> []) stageLFNs.

(** ** Concrete scenarios *)

Definition defaultConfig : Config :=
  mkConfig None None None None None None None.

Definition tapeSE : SEStatus := mkSEStatus true true false true.

(** A job of type [jobType] with input files [A] and [B]; every site has the
    tape SEs [T1] and [T2]; every collaborator call succeeds, except that
    the stager replies [stagerReply]. *)
Definition scenario (counter jobType : string) (opData : OpData)
  (stagerReply : Result Z) : Env :=
  mkEnv defaultConfig 7
        1000 (fun _ => 990)
        (S_OK [("RescheduleCounter", counter); ("RescheduleTime", "t0");
               ("ApplicationStatus", "Unknown")])
        (fun key => S_OK (if String.eqb key "JobType" then jobType else "prod"))
        None
        (S_OK ["A"; "B"])
        (fun _ _ => S_OK tt) (fun _ => S_OK tt) (fun _ _ => S_OK tt)
        (S_OK [])
        ["DataReconstruction"]
        (fun _ _ _ => S_OK [("T1", ["A"; "B"])])
        (fun _ => true)
        (fun _ => S_OK opData)
        (fun _ _ => S_OK tt)
        (S_OK tt)
        (fun _ => S_OK ["T1"; "T2"])
        (fun _ _ => S_OK tapeSE)
        (fun _ => S_OK 2)
        (fun _ _ => stagerReply).

Definition catalogAB : dict (list string) :=
  [("A", ["T1"; "T2"]); ("B", ["T1"; "T2"])].

Definition opDataXY : OpData :=
  mkOpData (Some [("X", mkRec 0 2); ("Y", mkRec 0 2)]) (Some catalogAB).

(** A job state whose manifest names the sites in [sites]. *)
Definition initialState (sites : list string) : State :=
  mkState [] (mkManifest [("Site", sites)] (Some "vo") []) [].

(** A user job with input data; its site requirement is that of the
    manifest in the initial state. *)
Definition envUserJob : Env := scenario "0" "User" opDataXY (S_OK 42).

(** A production job with offline files whose stage request is refused. *)
Definition envStagerDown : Env :=
  scenario "0" "DataReconstruction" opDataXY (S_ERROR "stager unreachable").

(** A job rescheduled once, ten seconds ago. *)
Definition envRescheduled : Env := scenario "1" "User" opDataXY (S_OK 42).

(** A site [Y] that shares the tape SE [T1] with the stage site and holds
    the only input file [L] on its disk SE [D1], which is closed for reading
    when the shared SEs are looked at. *)
Definition envSharedSE : Env :=
  mkEnv defaultConfig 7 1000 (fun _ => 990)
        (S_OK []) (fun _ => S_OK "User") None (S_OK ["L"])
        (fun _ _ => S_OK tt) (fun _ => S_OK tt) (fun _ _ => S_OK tt)
        (S_OK []) [] (fun _ _ _ => S_OK []) (fun _ => true)
        (fun _ => S_ERROR "unused") (fun _ _ => S_OK tt) (S_OK tt)
        (fun site => S_OK (if String.eqb site "Y" then ["T1"; "D1"] else ["T1"]))
        (fun se _ => S_OK (if String.eqb se "D1"
                           then mkSEStatus false true true false else tapeSE))
        (fun _ => S_OK 2)
        (fun _ _ => S_OK 42).

Definition opDataSharedSE : OpData :=
  mkOpData (Some [("X", mkRec 1 0); ("Y", mkRec 1 0)])
           (Some [("L", ["T1"; "D1"])]).

Definition manifestVO : Manifest := mkManifest [] (Some "vo") [].

(** [env] with the site tiers [tiers]. *)
Definition withSiteTier (env : Env) (tiers : string -> Result Z) : Env :=
  mkEnv (config env) (jid env) (now env) (epochOf env) (getAttributes env)
        (getAttribute env) (manifestError env) (getInputData env)
        (setStatus env) (setAppStatus env) (setAttribute env) (getSiteMask env)
        (dataProcessing env) (getFilesToStage env) (stageAllowed env)
        (retrieveOptimizerParam env) (storeOptimizerParam env)
        (setNextOptimizer env) (getSEsForSite env) (getStatus env)
        tiers (setRequest env).

(** A tier 0 site, a tier 2 site and a site whose tier cannot be read. *)
Definition envTiers : Env :=
  withSiteTier envUserJob
    (fun site =>
       if String.eqb site "LCG.CERN.ch" then S_OK 0
       else if String.eqb site "LCG.DESY.de" then S_OK 2
       else S_ERROR "unknown site").

(** ** Further notions *)

(** The banned sites of a manifest: the option [BannedSites], or the option
    [BannedSite] when the former is empty or absent. *)
Definition manifestBanned (m : Manifest) : list string :=
  if isNil (manifestOption m "BannedSites" [])
  then manifestOption m "BannedSite" []
  else manifestOption m "BannedSites" [].

(** [site] is asked for by the manifest: an entry of the option [Site] that
    is neither blank nor "any" in any spelling. *)
Definition wanted (m : Manifest) (site : string) : Prop :=
  In site (manifestOption m "Site" [])
  /\ Py.lower (Py.strip site) <> "any"
  /\ Py.lower (Py.strip site) <> "".

(** A job state whose manifest asks for [sites] and bans [banned]. *)
Definition stateWithSites (sites banned : list string) : State :=
  mkState [] (mkManifest [("Site", sites); ("BannedSite", banned)] (Some "vo") [])
          [].

(** The message of the hold for requested sites that are all inactive. *)
Definition inactiveMessage (userSites : list string) : string :=
  match userSites with
  | [site] => "Requested site " ++ site ++ " is inactive"
  | _ => "Requested sites " ++ Py.join "," userSites ++ " are inactive"
  end.

(** [env] with the configuration [cfg]. *)
Definition withConfig (env : Env) (cfg : Config) : Env :=
  mkEnv cfg (jid env) (now env) (epochOf env) (getAttributes env)
        (getAttribute env) (manifestError env) (getInputData env)
        (setStatus env) (setAppStatus env) (setAttribute env) (getSiteMask env)
        (dataProcessing env) (getFilesToStage env) (stageAllowed env)
        (retrieveOptimizerParam env) (storeOptimizerParam env)
        (setNextOptimizer env) (getSEsForSite env) (getStatus env)
        (getSiteTier env) (setRequest env).

(** [env] with the attributes [attrs] of the job. *)
Definition withAttributes (env : Env) (attrs : Result (dict string)) : Env :=
  mkEnv (config env) (jid env) (now env) (epochOf env) attrs
        (getAttribute env) (manifestError env) (getInputData env)
        (setStatus env) (setAppStatus env) (setAttribute env) (getSiteMask env)
        (dataProcessing env) (getFilesToStage env) (stageAllowed env)
        (retrieveOptimizerParam env) (storeOptimizerParam env)
        (setNextOptimizer env) (getSEsForSite env) (getStatus env)
        (getSiteTier env) (setRequest env).

(** [env] with the site mask [mask] of the job database. *)
Definition withSiteMask (env : Env) (mask : Result (list string)) : Env :=
  mkEnv (config env) (jid env) (now env) (epochOf env) (getAttributes env)
        (getAttribute env) (manifestError env) (getInputData env)
        (setStatus env) (setAppStatus env) (setAttribute env) mask
        (dataProcessing env) (getFilesToStage env) (stageAllowed env)
        (retrieveOptimizerParam env) (storeOptimizerParam env)
        (setNextOptimizer env) (getSEsForSite env) (getStatus env)
        (getSiteTier env) (setRequest env).

(** A job rescheduled seven times, ten seconds ago. *)
Definition envRescheduledOften : Env := scenario "7" "User" opDataXY (S_OK 42).

(** The same with an empty list of delays in the configuration. *)
Definition envNoDelays : Env :=
  withConfig envRescheduledOften
    (mkConfig (Some []) None None None None None None).

(** A job whose reschedule counter is not a number. *)
Definition envBadCounter : Env :=
  withAttributes envUserJob
    (S_OK [("RescheduleCounter", "seven"); ("RescheduleTime", "t0")]).

(** The site mask bans [X] and [Y]. *)
Definition envMaskXY : Env := withSiteMask envUserJob (S_OK ["Y"; "X"; "Z"]).

(** The writes of the staging steps, of a forward and of a hold. *)
Definition isStagingWrite (e : Event) : bool :=
  match e with
  | SetStatus _ _ _ | SetRequest _ _ | SetParameter _ _
  | StoreOptimizerParam _ _ => true
  | _ => false
  end.

Definition isForwardWrite (e : Event) : bool :=
  match e with
  | SetAttribute _ _ | SetNextOptimizer => true
  | _ => false
  end.

Definition isHoldWrite (e : Event) : bool :=
  match e with
  | FreezeTask _ | SetAppStatus _ => true
  | _ => false
  end.

(** Every write of [c] satisfies [P], from whatever state it starts. *)
Definition writesOnly {A} (P : Event -> bool) (c : M A) : Prop :=
  forall st, exists new,
    trace (snd (c st)) = (trace st ++ new)%list /\ Forall (fun e => P e = true) new.

(** [c] finishes and changes nothing but the manifest. *)
Definition writesManifestOnly (c : M unit) : Prop :=
  forall st, fst (c st) = Done tt
             /\ trace (snd (c st)) = trace st /\ draws (snd (c st)) = draws st.

(** The option [name] of the section [section] of a manifest. *)
Definition sectionOption (m : Manifest) (section name : string) : option string :=
  match Dict.get (sections m) section with
  | Some cfg => Dict.get cfg name
  | None => None
  end.

(** The writes of [sendToTQ] to the section of the job requirements. *)
Definition writeRequirements (manifest : Manifest) (sites bannedSites : list string)
  : M unit :=
  (if negb (isNil sites)
   then setOption "JobRequirements" "Sites" (Py.join ", " sites)
   else ret tt) ;;;
  (if negb (isNil bannedSites)
   then setOption "JobRequirements" "BannedSites" (Py.join ", " bannedSites)
   else ret tt) ;;;
  forEach requirementKeys
    (fun key =>
       if inManifest manifest key
       then setOption "JobRequirements" (reqKeyOf key)
              (Py.join ", " (manifestOption manifest key []))
       else ret tt).

(** The requirement section can be opened: it exists, or nothing of its
    name does. *)
Definition requirementsOpen (m : Manifest) : bool :=
  negb (inManifest m "JobRequirements") || Dict.mem "JobRequirements" (sections m).

(** The value [sendToTQ] leaves in a requirement fed by the manifest options
    [first] and [second], read in this order, [old] being its value before. *)
Definition requirementFrom (m : Manifest) (first second : string)
  (old : option string) : option string :=
  if inManifest m second then Some (Py.join ", " (manifestOption m second []))
  else if inManifest m first then Some (Py.join ", " (manifestOption m first []))
  else old.

(** A manifest that names its submit pool in both spellings. *)
Definition statePools : State :=
  mkState []
          (mkManifest [("Site", ["X"]); ("SubmitPools", ["a"; "b"]);
                       ("SubmitPool", ["c"]); ("JobType", ["User"])]
                      (Some "vo") [])
          [].

(** The manifest options that feed the requirement [name], in the order in
    which [sendToTQ] reads them. *)
Definition feeds (name : string) : list string :=
  filter (fun key => String.eqb name (reqKeyOf key)) requirementKeys.

(** [env] with the input data [data] of the job. *)
Definition withInputData (env : Env) (data : Result (list string)) : Env :=
  mkEnv (config env) (jid env) (now env) (epochOf env) (getAttributes env)
        (getAttribute env) (manifestError env) data
        (setStatus env) (setAppStatus env) (setAttribute env) (getSiteMask env)
        (dataProcessing env) (getFilesToStage env) (stageAllowed env)
        (retrieveOptimizerParam env) (storeOptimizerParam env)
        (setNextOptimizer env) (getSEsForSite env) (getStatus env)
        (getSiteTier env) (setRequest env).

(** A user job without input data. *)
Definition envNoInput : Env := withInputData envUserJob (S_OK []).

(** [c] leaves [f] of the state as it is. *)
Definition keeps {X A} (f : State -> X) (c : M A) : Prop :=
  forall st, f (snd (c st)) = f st.

(** [env] where no group may stage. *)
Definition withoutStageRight (env : Env) : Env :=
  mkEnv (config env) (jid env) (now env) (epochOf env) (getAttributes env)
        (getAttribute env) (manifestError env) (getInputData env)
        (setStatus env) (setAppStatus env) (setAttribute env) (getSiteMask env)
        (dataProcessing env) (getFilesToStage env) (fun _ => false)
        (retrieveOptimizerParam env) (storeOptimizerParam env)
        (setNextOptimizer env) (getSEsForSite env) (getStatus env)
        (getSiteTier env) (setRequest env).

(** [env] where the files to stage cannot be told. *)
Definition withoutFilesToStage (env : Env) (msg : string) : Env :=
  mkEnv (config env) (jid env) (now env) (epochOf env) (getAttributes env)
        (getAttribute env) (manifestError env) (getInputData env)
        (setStatus env) (setAppStatus env) (setAttribute env) (getSiteMask env)
        (dataProcessing env) (fun _ _ _ => S_ERROR msg) (stageAllowed env)
        (retrieveOptimizerParam env) (storeOptimizerParam env)
        (setNextOptimizer env) (getSEsForSite env) (getStatus env)
        (getSiteTier env) (setRequest env).

(** A production job with offline files. *)
Definition envProduction : Env :=
  scenario "0" "DataReconstruction" opDataXY (S_OK 42).

(** The records [userJob] keeps of [idSites]: those left once the sites in
    error have been popped. *)
Definition completeSites (numData : Z) (idSites : dict SiteReplicaRecord)
  : dict SiteReplicaRecord :=
  fold_left (@Dict.pop _) (errorSitesOf numData idSites) idSites.

(** The status of [seName] can be read and tells a readable tape SE,
    respectively a readable disk SE. *)
Definition tapeRead (env : Env) (vo : option string) (seName : string) : bool :=
  match getStatus env seName vo with
  | S_OK status => Read status && TapeSE status
  | S_ERROR _ => false
  end.

Definition diskRead (env : Env) (vo : option string) (seName : string) : bool :=
  match getStatus env seName vo with
  | S_OK status => Read status && DiskSE status
  | S_ERROR _ => false
  end.

Definition statusKnown (env : Env) (vo : option string) (seName : string) : bool :=
  isOK (getStatus env seName vo).

(** Every LFN of every list of a stage request stands in [Q] to the SE of
    the list. *)
Definition pairsSatisfy (Q : string -> string -> Prop) (stageLFNs : StageRequest)
  : Prop :=
  forall seName lfns lfn, In (seName, lfns) stageLFNs -> In lfn lfns -> Q seName lfn.

(** [lfn] may be staged from [seName] at a site with the SEs [siteSEs]:
    [seName] is a readable tape SE of the site, the catalog has a replica of
    [lfn] there, and no replica of [lfn] is at a readable disk SE of the
    site. *)
Definition stageable (env : Env) (vo : option string) (siteSEs : list string)
  (catalog : dict (list string)) (seName lfn : string) : Prop :=
  In seName siteSEs /\ tapeRead env vo seName = true
  /\ exists replicas,
       In (lfn, replicas) catalog /\ In seName replicas
       /\ forall se, In se replicas -> In se siteSEs -> diskRead env vo se = false.

(** [env] with the storage elements [ses] at every site and the status
    [status] of each SE. *)
Definition withStorage (env : Env) (ses : list string)
  (status : string -> Result SEStatus) : Env :=
  mkEnv (config env) (jid env) (now env) (epochOf env) (getAttributes env)
        (getAttribute env) (manifestError env) (getInputData env)
        (setStatus env) (setAppStatus env) (setAttribute env) (getSiteMask env)
        (dataProcessing env) (getFilesToStage env) (stageAllowed env)
        (retrieveOptimizerParam env) (storeOptimizerParam env)
        (setNextOptimizer env) (fun _ => S_OK ses) (fun se _ => status se)
        (getSiteTier env) (setRequest env).

(** A site with the tape SE [T1], the disk SE [D1] and the SE [T2], whose
    status cannot be read. *)
Definition envBrokenSE : Env :=
  withStorage envUserJob ["T1"; "D1"; "T2"]
    (fun se => if String.eqb se "T2" then S_ERROR "no answer"
               else if String.eqb se "D1"
                    then S_OK (mkSEStatus true true true false)
                    else S_OK tapeSE).

(** A site with the tape SE [T1] and the disk SE [D1]. *)
Definition envTapeAndDisk : Env :=
  withStorage envUserJob ["T1"; "D1"]
    (fun se => if String.eqb se "D1" then S_OK (mkSEStatus true true true false)
               else S_OK tapeSE).

(** [A] is on tape at [T1] and elsewhere, [B] on tape at [T1] and on disk at
    [D1]. *)
Definition opDataTapeAndDisk : OpData :=
  mkOpData (Some [("X", mkRec 1 1)])
           (Some [("A", ["T1"; "T9"]); ("B", ["T1"; "D1"])]).

(** The list of [seName] in a stage request holds [lfn]. *)
Definition holds (stageLFNs : StageRequest) (seName lfn : string) : Prop :=
  exists lfns, Dict.get stageLFNs seName = Some lfns /\ In lfn lfns.

(** Whatever [d] holds, [d'] holds. *)
Definition extends (d d' : StageRequest) : Prop :=
  forall seName lfn, holds d seName lfn -> holds d' seName lfn.

(** The shared-SE update has no reason to touch the record of [site]: it is
    the stage site, or its SEs cannot be told, or none of its SEs is an SE
    of the stage request. *)
Definition outOfReach (env : Env) (stageSite : string) (stagedLFNs : StageRequest)
  (site : string) : Prop :=
  site = stageSite
  \/ match getSEsForSite env site with
     | S_ERROR _ => True
     | S_OK closeSEs =>
         forall seName, In seName (Dict.keys stagedLFNs) -> ~ In seName closeSEs
     end.

Definition untouchedEntry (env : Env) (stageSite : string)
  (stagedLFNs : StageRequest) (old new : string * SiteReplicaRecord) : Prop :=
  fst new = fst old
  /\ (outOfReach env stageSite stagedLFNs (fst old) -> snd new = snd old).

(** Sites [X], [Y] and [Z]: [X] and [Y] share the tape SE [T1], [Z] has the
    tape SE [T3] alone. *)
Definition envThreeSites : Env :=
  mkEnv defaultConfig 7 1000 (fun _ => 990)
        (S_OK []) (fun _ => S_OK "User") None (S_OK ["L"])
        (fun _ _ => S_OK tt) (fun _ => S_OK tt) (fun _ _ => S_OK tt)
        (S_OK []) [] (fun _ _ _ => S_OK []) (fun _ => true)
        (fun _ => S_ERROR "unused") (fun _ _ => S_OK tt) (S_OK tt)
        (fun site => S_OK (if String.eqb site "Z" then ["T3"] else ["T1"]))
        (fun _ _ => S_OK tapeSE)
        (fun _ => S_OK 2)
        (fun _ _ => S_OK 42).

Definition opDataThreeSites : OpData :=
  mkOpData (Some [("X", mkRec 1 0); ("Y", mkRec 0 1); ("Z", mkRec 0 1)])
           (Some [("L", ["T1"; "T3"])]).

(** A user job whose site [X] holds both input files on disk. *)
Definition opDataOnDisk : OpData :=
  mkOpData (Some [("X", mkRec 2 0); ("Y", mkRec 0 2)]) (Some catalogAB).

Definition envOnDisk : Env := scenario "0" "User" opDataOnDisk (S_OK 42).

(** The write that hands the job to the next optimizer. *)
Definition isForward (e : Event) : bool :=
  match e with SetNextOptimizer => true | _ => false end.

(** A run of [c] stages nothing, or it forwards nothing. *)
Definition writesEither {A} (c : M A) : Prop :=
  forall st, exists new,
    trace (snd (c st)) = (trace st ++ new)%list
    /\ (Forall (fun e => isStagingWrite e = false) new
        \/ Forall (fun e => isForward e = false) new).

(** * Properties *)

(** ** Sets as duplicate-free lists *)

Lemma in_list_In (x : string) (l : list string) :
  Py.in_list x l = true <-> In x l.
Proof.
  unfold Py.in_list. rewrite existsb_exists. split.
  - intros [y [Hy Heq]]. apply String.eqb_eq in Heq. now subst.
  - intros Hx. exists x. split; [assumption | apply String.eqb_refl].
Qed.

Lemma set_list_In (l : list string) (x : string) :
  In x (Py.set_list l) <-> In x l.
Proof.
  induction l as [|y l IH]; simpl; [tauto|].
  rewrite filter_In, IH, negb_true_iff, String.eqb_neq.
  destruct (String.eqb_spec y x); subst; intuition congruence.
Qed.

Lemma set_list_NoDup (l : list string) : NoDup (Py.set_list l).
Proof.
  induction l as [|y l IH]; simpl; constructor.
  - rewrite filter_In, negb_true_iff, String.eqb_neq. tauto.
  - now apply NoDup_filter.
Qed.

Lemma set_inter_nil_r (a : list string) : Py.set_inter a [] = [].
Proof.
  unfold Py.set_inter. induction (Py.set_list a) as [|x l IH]; simpl; auto.
Qed.

(** ** The site filter *)

Lemma applySiteFilter_no_ban (sites : list string) (banned : Banned) :
  truthy banned && isCollection banned = false ->
  _applySiteFilter sites banned = Py.set_list sites.
Proof.
  intros Hb. unfold _applySiteFilter. rewrite Hb. now destruct sites.
Qed.

(** C6, as amended.  When [banned] is falsy or not a list, set or dict, the
    site filter returns the distinct sites of its input: a list without
    duplicates that has exactly the elements of the input, and the empty
    list for the empty list. *)
Theorem applySiteFilter_unbanned (sites : list string) (banned : Banned) :
  truthy banned = false \/ isCollection banned = false ->
  NoDup (_applySiteFilter sites banned)
  /\ (forall s, In s (_applySiteFilter sites banned) <-> In s sites)
  /\ (NoDup sites -> Permutation (_applySiteFilter sites banned) sites)
  /\ (sites = [] -> _applySiteFilter sites banned = []).
Proof.
  intros Hb.
  assert (Hno : truthy banned && isCollection banned = false)
    by (destruct Hb as [-> | ->]; [reflexivity | apply andb_false_r]).
  rewrite (applySiteFilter_no_ban _ _ Hno).
  repeat split.
  - apply set_list_NoDup.
  - apply set_list_In.
  - apply set_list_In.
  - intros Hnd. apply NoDup_Permutation;
      [apply set_list_NoDup | assumption | apply set_list_In].
  - intros ->. reflexivity.
Qed.

Lemma applySiteFilter_unbanned_witness :
  (truthy BannedFalse = false \/ isCollection BannedFalse = false)
  /\ NoDup (_applySiteFilter ["CERN"; "DESY"; "CERN"] BannedFalse)
  /\ (forall s, In s (_applySiteFilter ["CERN"; "DESY"; "CERN"] BannedFalse)
                <-> In s ["CERN"; "DESY"; "CERN"]).
Proof.
  split; [left; reflexivity|].
  destruct (applySiteFilter_unbanned ["CERN"; "DESY"; "CERN"] BannedFalse)
    as (H1 & H2 & _); [left; reflexivity|].
  split; assumption.
Defined.

(** C6, as stated, fails: a site listed twice comes back once. *)
Lemma applySiteFilter_drops_duplicates :
  ~ (forall sites banned,
        truthy banned = false \/ isCollection banned = false ->
        _applySiteFilter sites banned = sites).
Proof.
  intros H. specialize (H ["CERN"; "CERN"] BannedFalse (or_introl eq_refl)).
  discriminate H.
Qed.

(** ** The event trace *)

Lemma eventsSince_addEvents (st : State) (new : list Event) :
  eventsSince st (addEvents st new) = new.
Proof.
  unfold eventsSince, addEvents. simpl.
  rewrite skipn_app, skipn_all, Nat.sub_diag. reflexivity.
Qed.

Lemma addEvents_app (st : State) (a b : list Event) :
  addEvents (addEvents st a) b = addEvents st (a ++ b).
Proof. unfold addEvents. simpl. now rewrite app_assoc. Qed.

Lemma emit_run (e : Event) (st : State) : emit e st = (Done tt, addEvents st [e]).
Proof. reflexivity. Qed.

(** ** The stager dispatcher *)

(** The three ways a call of [requestStaging] can go. *)
Lemma requestStaging_run (env : Env) (stageLFNs : StageRequest) (st : State) :
  let toBeSent := SetStatus (stagingMajor env) (minorToBeSent env) "" in
  let sent := SetStatus (stagingMajor env) (minorSent env) "" in
  let request := SetRequest stageLFNs (jid env) in
  requestStaging env stageLFNs st =
  match setStatus env (stagingMajor env) (minorToBeSent env) with
  | S_ERROR msg => (Done (S_ERROR msg), addEvents st [toBeSent])
  | S_OK _ =>
      match setRequest env stageLFNs (jid env) with
      | S_ERROR _ =>
          (Done (S_ERROR "Problem sending staging request"),
           addEvents st [toBeSent; request])
      | S_OK value =>
          (Done match setStatus env (stagingMajor env) (minorSent env) with
                | S_ERROR msg => S_ERROR msg
                | S_OK _ => S_OK stageLFNs
                end,
           addEvents st [toBeSent; request;
                         SetParameter "StageRequest" (Py.str_of_int value); sent])
      end
  end.
Proof.
  unfold requestStaging, stagingMajor, minorToBeSent, minorSent, bind, failWith, ret.
  cbv zeta. rewrite emit_run.
  destruct (setStatus env _ _) as [[]|msg]; [|reflexivity].
  rewrite emit_run, addEvents_app.
  destruct (setRequest env stageLFNs (jid env)) as [value|msg]; [|reflexivity].
  rewrite emit_run, addEvents_app, emit_run, addEvents_app.
  destruct (setStatus env _ _) as [[]|msg]; reflexivity.
Qed.

Ltac in_explicit_list :=
  repeat match goal with
         | H : In _ (_ :: _) |- _ => destruct H as [H | H]
         | H : In _ [] |- _ => destruct H
         | H : _ = _ |- _ => discriminate H
         end.

(** C8.  In every run of the stager dispatcher, the job parameter
    [StageRequest] is set if and only if [setRequest] was called and
    succeeded; when it is set, the writes of the run are exactly the status
    write "to be sent", the stage request, the parameter and the status write
    "sent", in this order; the run always starts with the status write "to be
    sent", and the status write "sent" never comes before it.  Without
    configured overrides the two status writes are ("Staging", "Request To Be
    Sent") and ("Staging", "Request Sent"). *)
Theorem requestStaging_parameter_between_status_writes
  (env : Env) (stageLFNs : StageRequest) (st : State) :
  let new := eventsSince st (snd (requestStaging env stageLFNs st)) in
  let toBeSent := SetStatus (stagingMajor env) (minorToBeSent env) "" in
  let sent := SetStatus (stagingMajor env) (minorSent env) "" in
  let request := SetRequest stageLFNs (jid env) in
  ((exists rid, In (SetParameter "StageRequest" rid) new)
   <-> In request new /\ isOK (setRequest env stageLFNs (jid env)) = true)
  /\ (forall rid, In (SetParameter "StageRequest" rid) new ->
        new = [toBeSent; request; SetParameter "StageRequest" rid; sent])
  /\ nth_error new 0 = Some toBeSent
  /\ (forall i j, minorToBeSent env <> minorSent env ->
        nth_error new i = Some sent -> nth_error new j = Some toBeSent ->
        (j < i)%nat)
  /\ (StagingStatus (config env) = None ->
      StagingMinorStatus (config env) = None ->
      toBeSent = SetStatus "Staging" "Request To Be Sent" ""
      /\ sent = SetStatus "Staging" "Request Sent" "").
Proof.
  cbv zeta. rewrite requestStaging_run. cbv zeta.
  split; [|split; [|split; [|split]]].
  - destruct (setStatus env _ _) as [[]|msg]; cbn [snd];
      [destruct (setRequest env stageLFNs (jid env)) as [value|msg]; cbn [snd]|];
      rewrite eventsSince_addEvents; cbn [isOK]; split.
    + intros _. split; [right; left; reflexivity | reflexivity].
    + intros _. eexists. right. right. left. reflexivity.
    + intros [rid H]. in_explicit_list.
    + intros [_ H]. discriminate H.
    + intros [rid H]. in_explicit_list.
    + intros [H _]. in_explicit_list.
  - intros rid.
    destruct (setStatus env _ _) as [[]|msg]; cbn [snd];
      [destruct (setRequest env stageLFNs (jid env)) as [value|msg]; cbn [snd]|];
      rewrite eventsSince_addEvents; intros H; in_explicit_list.
    injection H as <-. reflexivity.
  - destruct (setStatus env _ _) as [[]|msg]; cbn [snd];
      [destruct (setRequest env stageLFNs (jid env)) as [value|msg]; cbn [snd]|];
      rewrite eventsSince_addEvents; reflexivity.
  - intros i j Hne.
    assert (Hdiff : SetStatus (stagingMajor env) (minorToBeSent env) ""
                    <> SetStatus (stagingMajor env) (minorSent env) "")
      by (intros H; injection H as H; contradiction).
    destruct (setStatus env _ _) as [[]|msg]; cbn [snd];
      [destruct (setRequest env stageLFNs (jid env)) as [value|msg]; cbn [snd]|];
      rewrite eventsSince_addEvents; intros Hi Hj;
      repeat (destruct i as [|i]; cbn in Hi; try discriminate Hi;
              try (injection Hi as Hi; congruence));
      repeat (destruct j as [|j]; cbn in Hj; try discriminate Hj;
              try (injection Hj as Hj; congruence));
      try lia.
  - unfold stagingMajor, minorToBeSent, minorSent. intros -> ->. split; reflexivity.
Qed.

(** C9, as amended.  When the option [StagingMinorStatus] is absent, the
    first status write of the stager dispatcher has the minor status "Request
    To Be Sent" and the second one, made once the status write and the stage
    request before it have succeeded, has the minor status "Request Sent";
    when the option is set, both status writes use its value. *)
Theorem requestStaging_minor_status
  (env : Env) (stageLFNs : StageRequest) (st : State) :
  let minors :=
    statusMinors (eventsSince st (snd (requestStaging env stageLFNs st))) in
  let reached :=
    isOK (setStatus env (stagingMajor env) (minorToBeSent env))
    && isOK (setRequest env stageLFNs (jid env)) in
  (StagingMinorStatus (config env) = None ->
   minors = if reached then ["Request To Be Sent"; "Request Sent"]
            else ["Request To Be Sent"])
  /\ (forall m, StagingMinorStatus (config env) = Some m ->
        minors = if reached then [m; m] else [m]).
Proof.
  cbv zeta. rewrite requestStaging_run. cbv zeta.
  split; [intros Hm | intros m Hm];
    (destruct (setStatus env _ _) as [[]|msg]; cbn [snd isOK andb];
     [destruct (setRequest env stageLFNs (jid env)) as [value|msg];
      cbn [snd isOK andb]|];
     rewrite eventsSince_addEvents; unfold minorToBeSent, minorSent;
     rewrite Hm; reflexivity).
Qed.

(** C9, as stated, fails: without the option the second status write does
    not repeat "Request To Be Sent". *)
Lemma requestStaging_minor_not_reused :
  ~ (forall env stageLFNs st,
        StagingMinorStatus (config env) = None ->
        forall minor,
          In minor (statusMinors
                      (eventsSince st (snd (requestStaging env stageLFNs st)))) ->
          minor = "Request To Be Sent").
Proof.
  intros H.
  specialize (H envUserJob [("T1", ["A"])] (initialState []) eq_refl
                "Request Sent").
  assert (Hin : In "Request Sent"
                  (statusMinors
                     (eventsSince (initialState [])
                        (snd (requestStaging envUserJob [("T1", ["A"])]
                                (initialState []))))))
    by (vm_compute; right; left; reflexivity).
  specialize (H Hin). discriminate H.
Qed.

(** ** Holding a job *)

Lemma holdJob_run (env : Env) (holdMsg : string) (delay : Z) (st : State) :
  holdJob env holdMsg delay st =
  (Done (setAppStatus env holdMsg),
   addEvents st
     [FreezeTask (if delay =? 0 then ex_getOption (HoldTime (config env)) 300
                  else delay);
      SetAppStatus holdMsg]).
Proof.
  unfold holdJob, bind, ret.
  destruct (delay =? 0); cbn [negb]; rewrite !emit_run, addEvents_app; reflexivity.
Qed.

(** C4, as amended.  A job rescheduled [counter > 0] times whose waiting
    time is below [delay = delays[min(counter, |delays|-1)]] is held with the
    application status "On Hold: after rescheduling <counter>", and
    [freezeTask] gets the whole [delay], whatever part of it has already
    been waited ([HoldTime] takes its place when the configured delay is 0).
    With the default delays [60, 180, 300, 600] the delay is 180, 300 or
    600. *)
Theorem optimizeJob_reschedule_hold
  (env : Env) (st : State) (attDict : dict string) (cs ts : string)
  (counter delay : Z) :
  let delays := ex_getOption (RescheduleDelays (config env)) defaultDelays in
  getAttributes env = S_OK attDict ->
  Dict.get attDict "RescheduleCounter" = Some cs ->
  Py.int cs = Some counter ->
  0 < counter ->
  Py.index delays (Z.min counter (Py.len delays - 1)) = Some delay ->
  Dict.get attDict "RescheduleTime" = Some ts ->
  now env - epochOf env ts < delay ->
  let msg := "On Hold: after rescheduling " ++ Py.str_of_int counter in
  let duration :=
    if delay =? 0 then ex_getOption (HoldTime (config env)) 300 else delay in
  optimizeJob env st
  = (Done (setAppStatus env msg),
     addEvents st [FreezeTask duration; SetAppStatus msg])
  /\ (RescheduleDelays (config env) = None ->
      delay = (if counter =? 1 then 180 else if counter =? 2 then 300 else 600)
      /\ duration = delay).
Proof.
  intros delays Hatt Hcs Hint Hpos Hidx Hts Hwait msg duration.
  split.
  - unfold optimizeJob. rewrite Hatt, Hcs, Hint.
    replace (counter =? 0) with false by (symmetry; apply Z.eqb_neq; lia).
    cbn [negb]. fold delays. rewrite Hidx, Hts.
    replace (now env - epochOf env ts <? delay) with true
      by (symmetry; apply Z.ltb_lt; assumption).
    apply holdJob_run.
  - intros Hnone. subst delays duration. rewrite Hnone in Hidx. cbn in Hidx.
    assert (Hc : counter = 1 \/ counter = 2 \/ 3 <= counter) by lia.
    destruct Hc as [-> | [-> | Hc]].
    + cbn in Hidx. injection Hidx as <-. split; reflexivity.
    + cbn in Hidx. injection Hidx as <-. split; reflexivity.
    + rewrite Z.min_r in Hidx by lia. cbn in Hidx. injection Hidx as <-.
      replace (counter =? 1) with false by (symmetry; apply Z.eqb_neq; lia).
      replace (counter =? 2) with false by (symmetry; apply Z.eqb_neq; lia).
      split; reflexivity.
Qed.

Lemma optimizeJob_reschedule_hold_witness :
  optimizeJob envRescheduled (initialState ["X"])
  = (Done (S_OK tt),
     addEvents (initialState ["X"])
       [FreezeTask 180; SetAppStatus "On Hold: after rescheduling 1"]).
Proof.
  apply (optimizeJob_reschedule_hold envRescheduled (initialState ["X"])
           [("RescheduleCounter", "1"); ("RescheduleTime", "t0");
            ("ApplicationStatus", "Unknown")] "1" "t0" 1 180);
    try reflexivity; lia.
Defined.

(** C4, as stated, fails: ten seconds after the rescheduling the job is
    frozen for the whole delay of 180 seconds, not for the 170 that are
    left. *)
Lemma optimizeJob_hold_not_remaining_delay :
  ~ (forall env st attDict cs ts counter delay,
        getAttributes env = S_OK attDict ->
        Dict.get attDict "RescheduleCounter" = Some cs ->
        Py.int cs = Some counter ->
        0 < counter ->
        Py.index (ex_getOption (RescheduleDelays (config env)) defaultDelays)
                 (Z.min counter
                    (Py.len (ex_getOption (RescheduleDelays (config env))
                                          defaultDelays) - 1))
        = Some delay ->
        Dict.get attDict "RescheduleTime" = Some ts ->
        now env - epochOf env ts < delay ->
        In (FreezeTask (delay - (now env - epochOf env ts)))
           (eventsSince st (snd (optimizeJob env st)))).
Proof.
  intros H.
  specialize (H envRescheduled (initialState ["X"])
                [("RescheduleCounter", "1"); ("RescheduleTime", "t0");
                 ("ApplicationStatus", "Unknown")] "1" "t0" 1 180
                eq_refl eq_refl eq_refl eq_refl eq_refl eq_refl eq_refl).
  vm_compute in H. destruct H as [H | [H | []]]; discriminate H.
Qed.

(** ** The Replica/Site intersection *)

Lemma intersectSites_no_user_sites
  (siteCandidates : dict SiteReplicaRecord) (userBannedSites : list string) :
  intersectSites siteCandidates [] userBannedSites = [].
Proof. unfold intersectSites. rewrite set_inter_nil_r. reflexivity. Qed.

(** A user job with input data and no site requirement fails, whatever the
    site candidates of its input data are. *)
Lemma userJob_no_user_sites
  (env : Env) (inputData userBannedSites wmsBannedSites : list string)
  (opData : OpData) (siteCandidates : dict SiteReplicaRecord) (st : State) :
  retrieveOptimizerParam env (ex_getOption (InputDataAgent (config env)) "InputData")
  = S_OK opData ->
  SiteCandidates opData = Some siteCandidates ->
  userJob env inputData [] userBannedSites wmsBannedSites st
  = (Done (S_ERROR "Impossible InputData * Site requirements"), st).
Proof.
  intros Hop Hsc. unfold userJob. rewrite Hop, Hsc.
  rewrite intersectSites_no_user_sites. reflexivity.
Qed.

(** C1, on the code.  A user job with the input files [A] and [B], no site
    requirement and no banned site, whose input data has the site candidates
    [X] and [Y]: the candidates less the banned sites are [X] and [Y], and
    [optimizeJob] fails the job with "Impossible InputData * Site
    requirements" without writing anything. *)
Theorem optimizeJob_no_user_sites_fails :
  getSitesRequired envUserJob (initialState [])
  = (Done (S_OK ([], [])), initialState [])
  /\ Py.set_diff (Py.set_list (Dict.keys [("X", mkRec 0 2); ("Y", mkRec 0 2)])) []
     = ["X"; "Y"]
  /\ optimizeJob envUserJob (initialState [])
     = (Done (S_ERROR "Impossible InputData * Site requirements"),
        initialState []).
Proof. repeat split. Qed.

(** ** Failures of the stager *)

Lemma requestStaging_stager_failure
  (env : Env) (stageLFNs : StageRequest) (st : State) (msg : string) :
  isOK (setStatus env (stagingMajor env) (minorToBeSent env)) = true ->
  setRequest env stageLFNs (jid env) = S_ERROR msg ->
  fst (requestStaging env stageLFNs st)
  = Done (S_ERROR "Problem sending staging request").
Proof.
  intros Hst Hreq. rewrite requestStaging_run. cbv zeta.
  destruct (setStatus env _ _); [|discriminate Hst].
  rewrite Hreq. reflexivity.
Qed.

(** The user job path hands the failure of the stager on. *)
Lemma stageAt_stager_failure
  (env : Env) (idAgent : string) (opData : OpData)
  (idSites siteCandidates : dict SiteReplicaRecord) (stageSites : list string)
  (stageSite msg : string) (stageData : SiteReplicaRecord)
  (stageLFNs : StageRequest) (st : State) :
  Py.index stageSites 0 = Some stageSite ->
  Dict.get idSites stageSite = Some stageData ->
  SiteCandidates opData = Some siteCandidates ->
  preRequestStaging env (getManifest env st) stageSite
    (mkOpData (Some (Dict.set siteCandidates stageSite (stagedAsIfDone stageData)))
              (Successful opData))
  = Done (S_OK stageLFNs) ->
  isOK (setStatus env (stagingMajor env) (minorToBeSent env)) = true ->
  setRequest env stageLFNs (jid env) = S_ERROR msg ->
  fst (stageAt env idAgent opData idSites stageSites st)
  = Done (S_ERROR "Problem sending staging request").
Proof.
  intros Hidx Hget Hsc Hpre Hst Hreq.
  unfold stageAt. rewrite Hidx, Hget, Hsc.
  unfold bind, readManifest, liftOutcome. rewrite Hpre.
  rewrite requestStaging_run. cbv zeta.
  destruct (setStatus env _ _); [|discriminate Hst].
  rewrite Hreq. reflexivity.
Qed.

(** C3, on the code.  A production job whose input files [A] and [B] are
    offline at [T1], staging being allowed: the stager refuses the request,
    [requestStaging] answers "Problem sending staging request", and
    [optimizeJob] returns success all the same, the job being left in the
    status ("Staging", "Request To Be Sent"). *)
Theorem optimizeJob_production_ignores_stager_failure :
  setRequest envStagerDown [("T1", ["A"; "B"])] (jid envStagerDown)
  = S_ERROR "stager unreachable"
  /\ fst (requestStaging envStagerDown [("T1", ["A"; "B"])] (initialState ["X"]))
     = Done (S_ERROR "Problem sending staging request")
  /\ optimizeJob envStagerDown (initialState ["X"])
     = (Done (S_OK tt),
        addEvents (initialState ["X"])
          [SetStatus "Staging" "Request To Be Sent" "";
           SetRequest [("T1", ["A"; "B"])] 7]).
Proof. repeat split. Qed.

(** ** Replica records *)

Lemma promoted_refl (r : SiteReplicaRecord) : promoted r r.
Proof. unfold promoted. lia. Qed.

Lemma promoted_trans (a b c : SiteReplicaRecord) :
  promoted a b -> promoted b c -> promoted a c.
Proof. unfold promoted. lia. Qed.

Lemma promoteLFN_promoted lfnData diskSEs (r : SiteReplicaRecord) (lfn : string) :
  promoted r (promoteLFN lfnData diskSEs r lfn).
Proof.
  unfold promoteLFN. destruct (Dict.get lfnData lfn) as [replicas|];
    [destruct (existsb _ replicas); cbn [negb]|];
    unfold promoted; simpl; lia.
Qed.

Lemma fold_promoted {A} (step : SiteReplicaRecord -> A -> SiteReplicaRecord)
  (Hstep : forall r a, promoted r (step r a)) (l : list A) (r : SiteReplicaRecord) :
  promoted r (fold_left step l r).
Proof.
  revert r. induction l as [|a l IH]; intros r; simpl.
  - apply promoted_refl.
  - eapply promoted_trans; [apply Hstep | apply IH].
Qed.

Lemma promoteSE_promoted lfnData closeSEs diskSEs (r : SiteReplicaRecord)
  (entry : string * list string) :
  promoted r (promoteSE lfnData closeSEs diskSEs r entry).
Proof.
  destruct entry as [seName lfns]. unfold promoteSE.
  destruct (negb (Py.in_list seName closeSEs)).
  - apply promoted_refl.
  - apply fold_promoted. intros; apply promoteLFN_promoted.
Qed.

Lemma promotedEntry_refl (l : dict SiteReplicaRecord) : Forall2 promotedEntry l l.
Proof.
  induction l; constructor; [split; [reflexivity | apply promoted_refl] | assumption].
Qed.

Lemma updateSites_promoted env vo stageSite stagedLFNs lfnData
  (siteCandidates : dict SiteReplicaRecord) (seStatus : dict SEStatus) :
  Forall2 promotedEntry siteCandidates
    (fst (updateSites env vo stageSite stagedLFNs lfnData siteCandidates seStatus)).
Proof.
  revert seStatus.
  induction siteCandidates as [|[siteName siteData] rest IH]; intros seStatus.
  - constructor.
  - cbn [updateSites].
    assert (Hcont : forall cache r, promoted siteData r ->
              Forall2 promotedEntry ((siteName, siteData) :: rest)
                (fst (let '(rest', out) :=
                        updateSites env vo stageSite stagedLFNs lfnData rest cache in
                      ((siteName, r) :: rest', out)))).
    { intros cache r Hr. specialize (IH cache).
      destruct (updateSites env vo stageSite stagedLFNs lfnData rest cache)
        as [rest' out].
      constructor; [split; [reflexivity | exact Hr] | exact IH]. }
    destruct (String.eqb siteName stageSite).
    + apply Hcont, promoted_refl.
    + destruct (getSEsForSite env siteName) as [closeSEs|msg].
      * destruct (closeDiskSEs env vo closeSEs seStatus []) as [diskSEs cache].
        destruct lfnData as [lfnData|].
        -- apply Hcont. apply fold_promoted. intros; apply promoteSE_promoted.
        -- apply promotedEntry_refl.
      * apply Hcont, promoted_refl.
Qed.

Lemma promoted_keeps_bounds (n : Z) (old new : dict SiteReplicaRecord) :
  Forall2 promotedEntry old new ->
  (forall site r, In (site, r) old -> recordInvariant n r) ->
  forall site r, In (site, r) new -> 0 <= disk r /\ disk r + tape r <= n.
Proof.
  induction 1 as [|[s r] [s' r'] old new [_ Hp] _ IH]; intros Hinv site r0 Hin.
  - destruct Hin.
  - destruct Hin as [Heq | Hin].
    + injection Heq as <- <-.
      destruct (Hinv s r (or_introl eq_refl)) as (Hd & Ht & Hs).
      unfold promoted in Hp. simpl in Hp. lia.
    + apply (IH (fun site r H => Hinv site r (or_intror H)) site r0 Hin).
Qed.

(** C5, as amended.  The step "staged as if done" keeps the invariant of a
    replica record.  The shared-SE update moves replicas from tape to disk:
    it keeps the sites, leaves [disk + tape] of every record as it was, never
    lowers [disk] and never raises [tape], so [0 <= disk] and
    [disk + tape <= |inputData|] are kept; one promotion keeps the whole
    invariant when the record has a tape replica left. *)
Theorem record_updates_keep_disk_and_total
  (env : Env) (manifestReply : Result Manifest) (stageSite : string)
  (stagedLFNs : StageRequest) (opData : OpData)
  (siteCandidates : dict SiteReplicaRecord) (n : Z) :
  SiteCandidates opData = Some siteCandidates ->
  (forall site r, In (site, r) siteCandidates -> recordInvariant n r) ->
  (forall site r, In (site, r) siteCandidates ->
                  recordInvariant n (stagedAsIfDone r))
  /\ (exists updated,
        SiteCandidates
          (fst (updateSharedSESites env manifestReply stageSite stagedLFNs opData))
        = Some updated
        /\ Forall2 promotedEntry siteCandidates updated
        /\ forall site r, In (site, r) updated ->
                          0 <= disk r /\ disk r + tape r <= n)
  /\ (forall lfnData diskSEs lfn site r,
        In (site, r) siteCandidates -> 0 < tape r ->
        recordInvariant n (promoteLFN lfnData diskSEs r lfn)).
Proof.
  intros Hsc Hinv. split; [|split].
  - intros site r Hin. destruct (Hinv site r Hin) as (Hd & Ht & Hs).
    unfold recordInvariant, stagedAsIfDone. simpl. lia.
  - assert (Hup : exists updated,
               SiteCandidates
                 (fst (updateSharedSESites env manifestReply stageSite
                         stagedLFNs opData)) = Some updated
               /\ Forall2 promotedEntry siteCandidates updated).
    { unfold updateSharedSESites. rewrite Hsc.
      destruct manifestReply as [manifest|msg].
      - pose proof (updateSites_promoted env (VirtualOrganization manifest)
                      stageSite stagedLFNs (Successful opData) siteCandidates [])
          as Hp.
        destruct (updateSites env (VirtualOrganization manifest) stageSite
                    stagedLFNs (Successful opData) siteCandidates [])
          as [updated out].
        exists updated. split; [reflexivity | exact Hp].
      - exists siteCandidates. split; [exact Hsc | apply promotedEntry_refl]. }
    destruct Hup as (updated & Hfst & Hp).
    exists updated. repeat split; try assumption;
      eapply promoted_keeps_bounds; eassumption.
  - intros lfnData diskSEs lfn site r Hin Htape.
    destruct (Hinv site r Hin) as (Hd & Ht & Hs).
    unfold promoteLFN. destruct (Dict.get lfnData lfn) as [replicas|];
      [destruct (existsb _ replicas); cbn [negb]|];
      unfold recordInvariant; simpl; lia.
Qed.

Lemma record_updates_keep_disk_and_total_witness :
  (forall site r, In (site, r) [("X", mkRec 1 0); ("Y", mkRec 1 0)] ->
                  recordInvariant 1 r)
  /\ exists updated,
       SiteCandidates
         (fst (updateSharedSESites envSharedSE (S_OK manifestVO) "X"
                 [("T1", ["L"])] opDataSharedSE))
       = Some updated
       /\ Forall2 promotedEntry [("X", mkRec 1 0); ("Y", mkRec 1 0)] updated
       /\ forall site r, In (site, r) updated ->
                         0 <= disk r /\ disk r + tape r <= 1.
Proof.
  assert (H : forall site r, In (site, r) [("X", mkRec 1 0); ("Y", mkRec 1 0)] ->
                             recordInvariant 1 r).
  { intros site r [Heq | [Heq | []]]; injection Heq as _ <-;
      unfold recordInvariant; simpl; lia. }
  split; [exact H|].
  apply (record_updates_keep_disk_and_total envSharedSE (S_OK manifestVO) "X"
           [("T1", ["L"])] opDataSharedSE _ 1 eq_refl H).
Defined.

(** C5, as stated, fails for the shared-SE update.  The site [Y] holds the
    only input file on disk, record (disk 1, tape 0); its disk SE is closed
    for reading when the file is staged from the tape SE that [Y] shares
    with the stage site [X], and the record of [Y] becomes (disk 2,
    tape -1). *)
Lemma updateSharedSESites_breaks_tape_bound :
  ~ (forall env manifestReply stageSite stagedLFNs opData siteCandidates n updated,
        SiteCandidates opData = Some siteCandidates ->
        (forall site r, In (site, r) siteCandidates -> recordInvariant n r) ->
        SiteCandidates
          (fst (updateSharedSESites env manifestReply stageSite stagedLFNs opData))
        = Some updated ->
        forall site r, In (site, r) updated -> recordInvariant n r).
Proof.
  intros H.
  assert (Hinv : forall site r,
             In (site, r) [("X", mkRec 1 0); ("Y", mkRec 1 0)] ->
             recordInvariant 1 r).
  { intros site r [Heq | [Heq | []]]; injection Heq as _ <-;
      unfold recordInvariant; simpl; lia. }
  specialize (H envSharedSE (S_OK manifestVO) "X" [("T1", ["L"])] opDataSharedSE
                [("X", mkRec 1 0); ("Y", mkRec 1 0)] 1
                [("X", mkRec 1 0); ("Y", mkRec 2 (-1))]
                eq_refl Hinv eq_refl "Y" (mkRec 2 (-1))
                (or_intror (or_introl eq_refl))).
  destruct H as (_ & Htape & _). simpl in Htape. lia.
Qed.

(** The same on a whole call.  For the user job of [envUserJob] that asks
    for the sites [X] and [Y], the file [B] is staged from both tape SEs of
    the stage site [X]; the site [Y] shares them, its record (disk 0, tape 2)
    is promoted three times and stored as (disk 3, tape -1). *)
Lemma optimizeJob_stores_negative_tape :
  In (StoreOptimizerParam "InputData"
        (mkOpData (Some [("X", mkRec 2 0); ("Y", mkRec 3 (-1))]) (Some catalogAB)))
     (trace (snd (optimizeJob envUserJob (initialState ["X"; "Y"])))).
Proof. vm_compute. do 4 right. left. reflexivity. Qed.

(** ** The staging resolver *)

Lemma pick_perm {A} (i : nat) (l : list A) (y : A) (r : list A) :
  pick i l = Some (y, r) -> Permutation l (y :: r).
Proof.
  revert i y r. induction l as [|x l IH]; intros i y r; simpl; [discriminate|].
  destruct i as [|i].
  - intros H. injection H as <- <-. apply Permutation_refl.
  - destruct (pick i l) as [[z r']|] eqn:Hp; [|discriminate].
    intros H. injection H as <- <-.
    apply IH in Hp. rewrite Hp. apply perm_swap.
Qed.

Lemma shuffleWith_perm {A} (fuel : nat) (ds : list nat) (l : list A) :
  Permutation (fst (shuffleWith fuel ds l)) l.
Proof.
  revert ds l. induction fuel as [|fuel IH]; intros ds l; cbn [shuffleWith].
  - apply Permutation_refl.
  - destruct l as [|a [|b l]]; try apply Permutation_refl.
    cbv beta iota.
    match goal with
    | |- context [pick ?i ?l'] => destruct (pick i l') as [[y r]|] eqn:Hp
    end; [|apply Permutation_refl].
    specialize (IH (tl ds) r).
    destruct (shuffleWith fuel (tl ds) r) as [out ds']. cbn [fst] in *.
    apply pick_perm in Hp. rewrite Hp. now constructor.
Qed.

Lemma filter_none {A} (f : A -> bool) (l : list A) :
  (forall x, In x l -> f x = false) -> filter f l = [].
Proof.
  induction l as [|a l IH]; intros H; simpl; [reflexivity|].
  rewrite (H a (or_introl eq_refl)). apply IH. intros x Hx. apply H. now right.
Qed.

Lemma maxOnDiskOf_app (l : dict SiteReplicaRecord) (e : string * SiteReplicaRecord) :
  maxOnDiskOf (l ++ [e])%list = Z.max (maxOnDiskOf l) (disk (snd e)).
Proof. unfold maxOnDiskOf. rewrite fold_left_app. reflexivity. Qed.

Lemma maxOnDiskOf_ge (l : dict SiteReplicaRecord) :
  0 <= maxOnDiskOf l /\ forall e, In e l -> disk (snd e) <= maxOnDiskOf l.
Proof.
  induction l as [|x l [IH0 IH]] using rev_ind.
  - split; [reflexivity | intros e []].
  - rewrite maxOnDiskOf_app. split; [lia|].
    intros e He. apply in_app_or in He. destruct He as [He | [<- | []]].
    + specialize (IH e He). lia.
    + lia.
Qed.

Lemma maxOnDiskOf_attained (l : dict SiteReplicaRecord) :
  maxOnDiskOf l = 0 \/ exists e, In e l /\ disk (snd e) = maxOnDiskOf l.
Proof.
  induction l as [|x l IH] using rev_ind.
  - left. reflexivity.
  - rewrite maxOnDiskOf_app.
    destruct (Z.max_spec (maxOnDiskOf l) (disk (snd x))) as [[_ ->] | [_ ->]].
    + right. exists x. split; [apply in_or_app; right; left|]; reflexivity.
    + destruct IH as [IH | [e [He Heq]]]; [left; assumption|].
      right. exists e. split; [apply in_or_app; left|]; assumption.
Qed.

(** The loop of [resolveStaging] computes the sites with everything on disk,
    the largest disk count and the sites that attain it. *)
Lemma resolveStep_fold (n : Z) (idSites : dict SiteReplicaRecord) :
  0 < n ->
  (forall e, In e idSites -> 0 <= disk (snd e)) ->
  fold_left (resolveStep n) idSites ([], 0, [])
  = (allOnDisk n idSites, maxOnDiskOf idSites,
     Dict.keys (filter (fun e => disk (snd e) =? maxOnDiskOf idSites) idSites)).
Proof.
  intros Hn. induction idSites as [|[site r] l IH] using rev_ind; intros Hpos.
  - reflexivity.
  - rewrite fold_left_app, IH
      by (intros e He; apply Hpos, in_or_app; now left).
    clear IH. cbn [fold_left resolveStep].
    rewrite maxOnDiskOf_app. unfold allOnDisk, Dict.keys.
    rewrite !filter_app, !map_app. cbn [filter snd fst].
    destruct (maxOnDiskOf_ge l) as [Hmax0 Hmax].
    assert (Hdisk : (disk r >? 0) && (disk r =? n) = (disk r =? n)).
    { destruct (Z.eqb_spec (disk r) n) as [-> | _]; [|apply andb_false_r].
      rewrite andb_true_r. apply Z.gtb_lt. assumption. }
    rewrite Hdisk. clear Hdisk.
    assert (Hall : (if disk r =? n
                    then (map fst (filter (fun e => disk (snd e) =? n) l) ++ [site])%list
                    else map fst (filter (fun e => disk (snd e) =? n) l))
                   = (map fst (filter (fun e => disk (snd e) =? n) l)
                        ++ map fst (if disk r =? n then [(site, r)] else []))%list)
      by (destruct (disk r =? n); simpl; [reflexivity | now rewrite app_nil_r]).
    rewrite Hall. clear Hall.
    destruct (Z.gtb_spec (disk r) (maxOnDiskOf l)) as [Hgt | Hle].
    + rewrite Z.max_r by lia. rewrite Z.eqb_refl.
      rewrite (filter_none (fun e => disk (snd e) =? disk r) l).
      * reflexivity.
      * intros e He. apply Z.eqb_neq. specialize (Hmax e He). lia.
    + rewrite Z.max_l by lia.
      destruct (Z.eqb_spec (disk r) (maxOnDiskOf l)); simpl;
        [reflexivity | now rewrite app_nil_r].
Qed.

Lemma maxDiskSites_eq (idSites : dict SiteReplicaRecord) :
  (forall e, In e idSites -> 0 <= disk (snd e)) ->
  Dict.keys (filter (fun e => disk (snd e) =? maxOnDiskOf idSites) idSites)
  = maxDiskSites idSites.
Proof.
  intros Hpos. unfold maxDiskSites. f_equal. apply filter_ext_in.
  intros e He. destruct (maxOnDiskOf_ge idSites) as [_ Hmax].
  destruct (Z.eqb_spec (disk (snd e)) (maxOnDiskOf idSites)) as [Heq | Hne];
    symmetry.
  - apply forallb_forall. intros e' He'. apply Z.leb_le.
    rewrite Heq. apply Hmax, He'.
  - apply not_true_is_false. intros Hall.
    rewrite forallb_forall in Hall.
    destruct (maxOnDiskOf_attained idSites) as [H0 | [e' [He' Heq]]].
    + specialize (Hmax e He). specialize (Hpos e He). lia.
    + specialize (Hall e' He'). apply Z.leb_le in Hall.
      specialize (Hmax e He). lia.
Qed.

Lemma isNil_length_le {A} (l : list A) :
  (List.length l <= 1)%nat -> (Py.len l >? 1) = false.
Proof.
  intros H. unfold Py.len. apply not_true_is_false. intros Hgt.
  apply Z.gtb_lt in Hgt. lia.
Qed.

Lemma resolveStep_fold_disk (n : Z) (idSites : dict SiteReplicaRecord)
  (acc : list string * Z * list string) :
  0 < n ->
  fst (fst (fold_left (resolveStep n) idSites acc))
  = (fst (fst acc) ++ allOnDisk n idSites)%list.
Proof.
  intros Hn. revert acc.
  induction idSites as [|[site r] l IH]; intros [[diskSites maxOnDisk] bestSites].
  - cbn. now rewrite app_nil_r.
  - cbn [fold_left]. rewrite IH. unfold resolveStep, allOnDisk, Dict.keys.
    cbn [filter snd fst].
    assert (Hdisk : (disk r >? 0) && (disk r =? n) = (disk r =? n)).
    { destruct (Z.eqb_spec (disk r) n) as [-> | _]; [|apply andb_false_r].
      rewrite andb_true_r. apply Z.gtb_lt. assumption. }
    rewrite Hdisk.
    destruct (disk r =? n); destruct (disk r >? maxOnDisk);
      try destruct (disk r =? maxOnDisk); cbn [fst snd map];
      rewrite <- ?app_assoc; reflexivity.
Qed.

(** C7.  For non-empty input data, the staging resolver returns
    [(False, diskSites)] when [diskSites], the sites whose disk count is the
    number of input files, is not empty; otherwise it returns [(True, bs)],
    where, the disk counts being non-negative, [bs] is a permutation of the
    sites that attain the largest disk count, and is that list itself, no
    random draw being made, when at most one site attains it.  The call
    writes nothing. *)
Theorem resolveStaging_decision
  (inputData : list string) (idSites : dict SiteReplicaRecord) (st : State) :
  inputData <> [] ->
  exists (stageRequired : bool) (sites : list string) (st' : State),
    resolveStaging inputData idSites st = (Done (stageRequired, sites), st')
    /\ trace st' = trace st /\ manifest st' = manifest st
    /\ (allOnDisk (Py.len inputData) idSites <> [] ->
        stageRequired = false
        /\ sites = allOnDisk (Py.len inputData) idSites /\ st' = st)
    /\ (allOnDisk (Py.len inputData) idSites = [] ->
        stageRequired = true
        /\ ((forall site r, In (site, r) idSites -> 0 <= disk r) ->
            Permutation sites (maxDiskSites idSites)
            /\ ((List.length (maxDiskSites idSites) <= 1)%nat ->
                sites = maxDiskSites idSites /\ st' = st))).
Proof.
  intros Hdata.
  assert (Hn : 0 < Py.len inputData)
    by (destruct inputData; [congruence | unfold Py.len; simpl; lia]).
  assert (Hbest : (forall site r, In (site, r) idSites -> 0 <= disk r) ->
            snd (fold_left (resolveStep (Py.len inputData)) idSites ([], 0, []))
            = maxDiskSites idSites).
  { intros Hpos.
    assert (Hpos' : forall e, In e idSites -> 0 <= disk (snd e))
      by (intros [site r] He; exact (Hpos site r He)).
    rewrite (resolveStep_fold _ idSites Hn Hpos'). cbn [snd].
    apply (maxDiskSites_eq idSites Hpos'). }
  pose proof (resolveStep_fold_disk (Py.len inputData) idSites ([], 0, []) Hn)
    as Hdisk.
  unfold resolveStaging.
  destruct (fold_left (resolveStep (Py.len inputData)) idSites ([], 0, []))
    as [[diskSites maxOnDisk] bestSites].
  cbn [fst snd app] in Hdisk, Hbest. subst diskSites.
  destruct (allOnDisk (Py.len inputData) idSites) as [|s0 rest];
    cbn [isNil negb].
  - destruct (Py.len bestSites >? 1) eqn:Hlen.
    + unfold bind, shuffle, ret.
      pose proof (shuffleWith_perm (List.length bestSites) (draws st) bestSites)
        as Hperm.
      destruct (shuffleWith _ (draws st) bestSites) as [out ds].
      cbn [fst] in Hperm.
      exists true, out, (mkState (trace st) (manifest st) ds).
      split; [reflexivity|]. split; [reflexivity|]. split; [reflexivity|].
      split; [intros H; contradiction H; reflexivity|].
      intros _. split; [reflexivity|]. intros Hpos.
      rewrite (Hbest Hpos) in *. split; [assumption|].
      intros Hle. apply isNil_length_le in Hle. congruence.
    + exists true, bestSites, st.
      split; [reflexivity|]. split; [reflexivity|]. split; [reflexivity|].
      split; [intros H; contradiction H; reflexivity|].
      intros _. split; [reflexivity|]. intros Hpos.
      rewrite (Hbest Hpos). split; [apply Permutation_refl|].
      intros _. split; reflexivity.
  - exists false, (s0 :: rest), st.
    split; [reflexivity|]. split; [reflexivity|]. split; [reflexivity|].
    split; [intros _; repeat split | intros H; discriminate H].
Qed.

Lemma resolveStaging_decision_witness :
  exists (stageRequired : bool) (sites : list string) (st' : State),
    resolveStaging ["A"; "B"] [("X", mkRec 1 1); ("Y", mkRec 1 1); ("Z", mkRec 0 2)]
                   (mkState [] manifestVO [1%nat])
    = (Done (stageRequired, sites), st')
    /\ stageRequired = true
    /\ Permutation sites ["X"; "Y"].
Proof.
  destruct (resolveStaging_decision ["A"; "B"]
              [("X", mkRec 1 1); ("Y", mkRec 1 1); ("Z", mkRec 0 2)]
              (mkState [] manifestVO [1%nat]))
    as (required & sites & st' & Hrun & _ & _ & _ & Hstage).
  - discriminate.
  - exists required, sites, st'.
    destruct (Hstage eq_refl) as (Hreq & Hperm).
    destruct Hperm as (Hperm & _).
    + intros site r [H | [H | [H | []]]]; injection H as _ <-; simpl; lia.
    + repeat split; assumption.
Defined.

(** ** The site-assignment summary *)

Lemma split_not_nil (sep : ascii) (s : string) : Py.split sep s <> [].
Proof.
  destruct s as [|c r]; simpl; [discriminate|].
  destruct (Ascii.eqb c sep); [discriminate|].
  destruct (Py.split sep r); discriminate.
Qed.

Lemma join_split (s : string) : Py.join "." (Py.split "."%char s) = s.
Proof.
  unfold Py.join. induction s as [|c r IH]; [reflexivity|].
  cbn [Py.split]. pose proof (split_not_nil "."%char r) as Hne.
  destruct (Ascii.eqb_spec c "."%char) as [-> | Hc].
  - destruct (Py.split "."%char r) as [|w ws]; [contradiction|].
    change (String.concat "." ("" :: w :: ws))
      with ("" ++ "." ++ String.concat "." (w :: ws))%string.
    rewrite IH. reflexivity.
  - destruct (Py.split "."%char r) as [|w ws]; [contradiction|].
    rewrite <- IH. destruct ws as [|w' ws]; reflexivity.
Qed.

Lemma split_first_token (first rest : string) :
  noDot first = true ->
  Py.split "."%char (first ++ "." ++ rest) = first :: Py.split "."%char rest.
Proof.
  induction first as [|c r IH]; intros Hno.
  - reflexivity.
  - cbn [noDot] in Hno. apply andb_prop in Hno. destruct Hno as [Hc Hr].
    cbn [append Py.split]. apply negb_true_iff in Hc. rewrite Hc.
    change (r ++ String "." rest)%string with (r ++ "." ++ rest)%string.
    rewrite (IH Hr). reflexivity.
Qed.

Lemma stripFirstToken_spec (first rest : string) :
  noDot first = true -> stripFirstToken (first ++ "." ++ rest) = rest.
Proof.
  intros Hno. unfold stripFirstToken. rewrite (split_first_token _ _ Hno).
  apply join_split.
Qed.

Lemma normalizedTier_ge env (s : string) (t : Z) :
  (forall t0, getSiteTier env s = S_OK t0 -> 0 <= t0) ->
  normalizedTier env s = Some t -> 1 <= t.
Proof.
  unfold normalizedTier. intros Hpos.
  destruct (getSiteTier env s) as [t0|msg]; [|discriminate].
  specialize (Hpos t0 eq_refl). intros H. injection H as <-.
  destruct (Z.eqb_spec t0 0); lia.
Qed.

Lemma filter_hasTier_app env level (l : list string) (x : string) :
  filter (hasTier env level) (l ++ [x])
  = (filter (hasTier env level) l ++ if hasTier env level x then [x] else [])%list.
Proof. rewrite filter_app. simpl. now destruct (hasTier env level x). Qed.

Lemma tierStep_resolved env (level : Z) (sites : list string) (x : string) (t0 : Z) :
  getSiteTier env x = S_OK t0 ->
  tierStep env (level, sites) x
  = let t := if t0 =? 0 then 1 else t0 in
    if (level =? -1) || (level >? t) then (t, [x])
    else if level =? t then (level, (sites ++ [x])%list)
    else (level, sites).
Proof.
  intros H. unfold tierStep. rewrite H. cbv zeta.
  destruct ((level =? -1) || (level >? (if t0 =? 0 then 1 else t0))).
  - rewrite Z.eqb_refl. reflexivity.
  - destruct (level =? (if t0 =? 0 then 1 else t0)); reflexivity.
Qed.

Lemma tierStep_unresolved env (acc : Z * list string) (x msg : string) :
  getSiteTier env x = S_ERROR msg -> tierStep env acc x = acc.
Proof. intros H. destruct acc. unfold tierStep. now rewrite H. Qed.

Lemma tierStep_fold env (l : list string) :
  (forall s t, In s l -> getSiteTier env s = S_OK t -> 0 <= t) ->
  tierLoopInv env l (fold_left (tierStep env) l (-1, [])).
Proof.
  induction l as [|x l IH] using rev_ind; intros Hpos.
  - split; [reflexivity | left; split; [reflexivity | intros s []]].
  - rewrite fold_left_app.
    assert (Hposl : forall s t, In s l -> getSiteTier env s = S_OK t -> 0 <= t)
      by (intros s t Hs; apply Hpos, in_or_app; now left).
    specialize (IH Hposl).
    destruct (fold_left (tierStep env) l (-1, [])) as [level sites].
    destruct IH as [Hsites Hlevel]. cbn [fst snd] in Hsites, Hlevel.
    cbn [fold_left].
    assert (Hnx : normalizedTier env x
                  = match getSiteTier env x with
                    | S_OK t => Some (if t =? 0 then 1 else t)
                    | S_ERROR _ => None
                    end) by reflexivity.
    assert (Hinx : In x (l ++ [x])) by (apply in_or_app; right; left; reflexivity).
    destruct (getSiteTier env x) as [t0|msg] eqn:Htier.
    + rewrite (tierStep_resolved env level sites x t0 Htier). cbv zeta.
      set (t := if t0 =? 0 then 1 else t0) in *.
      assert (Ht : 1 <= t).
      { apply (normalizedTier_ge env x); [|assumption].
        intros t1 H1. apply (Hpos x t1 Hinx). congruence. }
      assert (Hxt : hasTier env t x = true)
        by (unfold hasTier; rewrite Hnx; apply Z.eqb_refl).
      destruct Hlevel as [[-> Hnone] | (Hge & (s0 & Hs0 & Hts0) & Hmin)].
      * (* no tier resolved so far *)
        change ((-1 =? -1) || (-1 >? t)) with true. cbv iota.
        split; cbn [fst snd].
        -- rewrite filter_hasTier_app, Hxt, filter_none; [reflexivity|].
           intros s Hs. unfold hasTier. now rewrite (Hnone s Hs).
        -- right. split; [assumption|]. split.
           ++ exists x. split; assumption.
           ++ intros s t' Hs Hst. apply in_app_or in Hs.
              destruct Hs as [Hs | [<- | []]].
              ** rewrite (Hnone s Hs) in Hst. discriminate.
              ** rewrite Hnx in Hst. injection Hst as <-. lia.
      * replace (level =? -1) with false by (symmetry; apply Z.eqb_neq; lia).
        cbn [orb].
        destruct (Z.gtb_spec level t) as [Hgt | Hle].
        -- (* a lower tier: start again *)
           split; cbn [fst snd].
           ++ rewrite filter_hasTier_app, Hxt, filter_none; [reflexivity|].
              intros s Hs. unfold hasTier.
              destruct (normalizedTier env s) as [t'|] eqn:Hst; [|reflexivity].
              apply Z.eqb_neq. specialize (Hmin s t' Hs Hst). lia.
           ++ right. split; [assumption|]. split.
              ** exists x. split; assumption.
              ** intros s t' Hs Hst. apply in_app_or in Hs.
                 destruct Hs as [Hs | [<- | []]].
                 --- specialize (Hmin s t' Hs Hst). lia.
                 --- rewrite Hnx in Hst. injection Hst as <-. lia.
        -- assert (Hinv : (1 <= level
                    /\ (exists s, In s (l ++ [x])
                                  /\ normalizedTier env s = Some level)
                    /\ forall s t', In s (l ++ [x]) ->
                                    normalizedTier env s = Some t' -> level <= t')).
           { split; [assumption|]. split.
             - exists s0. split; [apply in_or_app; now left | assumption].
             - intros s t' Hs Hst. apply in_app_or in Hs.
               destruct Hs as [Hs | [<- | []]].
               + exact (Hmin s t' Hs Hst).
               + rewrite Hnx in Hst. injection Hst as <-. lia. }
           destruct (Z.eqb_spec level t) as [Heq | Hne]; split; cbn [fst snd];
             try (right; exact Hinv).
           ++ subst level. rewrite filter_hasTier_app, Hxt, Hsites. reflexivity.
           ++ rewrite filter_hasTier_app, Hsites.
              replace (hasTier env level x) with false;
                [now rewrite app_nil_r|].
              symmetry. unfold hasTier. rewrite Hnx. apply Z.eqb_neq. lia.
    + rewrite (tierStep_unresolved env (level, sites) x msg Htier).
      split; cbn [fst snd].
      * rewrite filter_hasTier_app, Hsites.
        replace (hasTier env level x) with false; [now rewrite app_nil_r|].
        unfold hasTier. now rewrite Hnx.
      * destruct Hlevel as [[-> Hnone] | (Hge & (s0 & Hs0 & Hts0) & Hmin)].
        -- left. split; [reflexivity|]. intros s Hs. apply in_app_or in Hs.
           destruct Hs as [Hs | [<- | []]]; [exact (Hnone s Hs) | exact Hnx].
        -- right. split; [assumption|]. split.
           ++ exists s0. split; [apply in_or_app; now left | assumption].
           ++ intros s t' Hs Hst. apply in_app_or in Hs.
              destruct Hs as [Hs | [<- | []]].
              ** exact (Hmin s t' Hs Hst).
              ** rewrite Hnx in Hst. discriminate.
Qed.

Lemma tierLoopInv_minTierSites env (l : list string) (acc : Z * list string) :
  tierLoopInv env l acc -> snd acc = minTierSites env l.
Proof.
  intros [Hsites Hlevel]. rewrite Hsites. unfold minTierSites.
  apply filter_ext_in. intros s Hs. unfold hasTier.
  destruct (normalizedTier env s) as [t|] eqn:Hst; [|reflexivity].
  destruct Hlevel as [[_ Hnone] | (_ & (s0 & Hs0 & Hts0) & Hmin)].
  - rewrite (Hnone s Hs) in Hst. discriminate.
  - destruct (Z.eqb_spec t (fst acc)) as [-> | Hne]; symmetry.
    + apply forallb_forall. intros s' Hs'.
      destruct (normalizedTier env s') as [t'|] eqn:Hst'; [|reflexivity].
      apply Z.leb_le. exact (Hmin s' t' Hs' Hst').
    + apply not_true_is_false. intros Hall. rewrite forallb_forall in Hall.
      specialize (Hall s0 Hs0). rewrite Hts0 in Hall. apply Z.leb_le in Hall.
      specialize (Hmin s t Hs Hst). lia.
Qed.

Lemma jobSiteName_summary env (siteList : list string) :
  (forall s t, In s siteList -> getSiteTier env s = S_OK t -> 0 <= t) ->
  jobSiteName env siteList = siteSummary env siteList.
Proof.
  intros Hpos. destruct siteList as [|a [|b l]]; try reflexivity.
  unfold jobSiteName, siteSummary.
  pose proof (tierLoopInv_minTierSites env _ _ (tierStep_fold env (a :: b :: l) Hpos))
    as Hmin.
  destruct (fold_left (tierStep env) (a :: b :: l) (-1, [])) as [level sites].
  cbn [snd] in Hmin. rewrite Hmin. reflexivity.
Qed.

(** C10.  With non-negative tiers, the site-assignment summary sets the
    attribute [Site] to "ANY" for the empty list and to the site itself for
    a list of one site; for a longer list, among the entries whose tier
    resolves, tier 0 being read as 1, it takes those of the least tier and
    sets [Site] to "Group." followed by the site without its first dotted
    token when there is exactly one such entry, and to "Multiple" otherwise.
    Stripping the first dotted token of [first.rest] gives [rest]. *)
Theorem setJobSite_summary (env : Env) (siteList : list string) (st : State) :
  (forall s t, In s siteList -> getSiteTier env s = S_OK t -> 0 <= t) ->
  setJobSite env siteList st
  = (Done (setAttribute env "Site" (siteSummary env siteList)),
     addEvents st [SetAttribute "Site" (siteSummary env siteList)])
  /\ (siteList = [] -> siteSummary env siteList = "ANY")
  /\ (forall site, siteList = [site] -> siteSummary env siteList = site)
  /\ ((List.length siteList > 1)%nat ->
      (forall site, minTierSites env siteList = [site] ->
                    siteSummary env siteList = "Group." ++ stripFirstToken site)
      /\ (List.length (minTierSites env siteList) <> 1%nat ->
          siteSummary env siteList = "Multiple"))
  /\ (forall first rest, noDot first = true ->
                         stripFirstToken (first ++ "." ++ rest) = rest).
Proof.
  intros Hpos. split; [|split; [|split; [|split]]].
  - unfold setJobSite, bind, ret. rewrite (jobSiteName_summary env siteList Hpos).
    rewrite emit_run. reflexivity.
  - intros ->. reflexivity.
  - intros site ->. reflexivity.
  - intros Hlen. destruct siteList as [|a [|b l]]; try (simpl in Hlen; lia).
    unfold siteSummary. split.
    + intros site ->. reflexivity.
    + intros Hne. destruct (minTierSites env (a :: b :: l)) as [|s [|s' r]];
        [reflexivity | contradiction Hne; reflexivity | reflexivity].
  - apply stripFirstToken_spec.
Qed.

Lemma setJobSite_summary_witness :
  setJobSite envTiers ["LCG.CERN.ch"; "LCG.DESY.de"; "LCG.Nowhere.xx"]
             (initialState [])
  = (Done (S_OK tt),
     addEvents (initialState []) [SetAttribute "Site" "Group.CERN.ch"])
  /\ stripFirstToken "LCG.CERN.ch" = "CERN.ch".
Proof.
  destruct (setJobSite_summary envTiers
              ["LCG.CERN.ch"; "LCG.DESY.de"; "LCG.Nowhere.xx"] (initialState []))
    as (Hrun & _ & _ & _ & Hstrip).
  - intros s t [<- | [<- | [<- | []]]] H; cbn in H;
      try discriminate H; injection H as <-; lia.
  - split; [exact Hrun | exact (Hstrip "LCG" "CERN.ch" eq_refl)].
Defined.

(** The entries of least tier, in words. *)
Lemma minTierSites_In env (siteList : list string) (s : string) :
  In s (minTierSites env siteList)
  <-> In s siteList
      /\ exists t, normalizedTier env s = Some t
                   /\ forall s' t', In s' siteList ->
                                    normalizedTier env s' = Some t' -> t <= t'.
Proof.
  unfold minTierSites. rewrite filter_In. split.
  - intros [Hs Hmin]. split; [assumption|].
    destruct (normalizedTier env s) as [t|]; [|discriminate].
    exists t. split; [reflexivity|]. intros s' t' Hs' Ht'.
    rewrite forallb_forall in Hmin. specialize (Hmin s' Hs').
    rewrite Ht' in Hmin. now apply Z.leb_le.
  - intros [Hs (t & Ht & Hmin)]. split; [assumption|]. rewrite Ht.
    apply forallb_forall. intros s' Hs'.
    destruct (normalizedTier env s') as [t'|] eqn:Ht'; [|reflexivity].
    apply Z.leb_le. exact (Hmin s' t' Hs' Ht').
Qed.

Lemma minTierSites_NoDup env (siteList : list string) :
  NoDup siteList -> NoDup (minTierSites env siteList).
Proof. apply NoDup_filter. Qed.

(** ** The stage request builder *)

Lemma dict_get_set_same {V} (d : dict V) (k : string) (v : V) :
  Dict.get (Dict.set d k v) k = Some v.
Proof.
  induction d as [|[k' v'] d IH]; simpl.
  - now rewrite String.eqb_refl.
  - destruct (String.eqb k k') eqn:Hk; simpl; rewrite ?String.eqb_refl, ?Hk; auto.
Qed.

Lemma dict_set_set {V} (d : dict V) (k : string) (v1 v2 : V) :
  Dict.set (Dict.set d k v1) k v2 = Dict.set d k v2.
Proof.
  induction d as [|[k' v'] d IH]; simpl.
  - now rewrite String.eqb_refl.
  - destruct (String.eqb k k') eqn:Hk; simpl; rewrite ?String.eqb_refl, ?Hk;
      [reflexivity | now rewrite IH].
Qed.

Lemma dict_get_In {V} (d : dict V) (k : string) (v : V) :
  Dict.get d k = Some v -> In (k, v) d.
Proof.
  induction d as [|[k' v'] d IH]; simpl; [discriminate|].
  destruct (String.eqb_spec k k') as [-> | _].
  - intros H. injection H as ->. now left.
  - intros H. right. auto.
Qed.

Lemma listsNonEmpty_set (d : StageRequest) (k : string) (v : list string) :
  listsNonEmpty d -> v <> [] -> listsNonEmpty (Dict.set d k v).
Proof.
  unfold listsNonEmpty. intros Hd Hv.
  induction Hd as [|[k' v'] d Hk Hd IH]; simpl.
  - constructor; [exact Hv | constructor].
  - destruct (String.eqb k k'); constructor; assumption.
Qed.

Lemma listsNonEmpty_pop (d : StageRequest) (k : string) :
  listsNonEmpty d -> listsNonEmpty (Dict.pop d k).
Proof.
  unfold listsNonEmpty. intros Hd.
  induction Hd as [|[k' v'] d Hk Hd IH]; simpl.
  - constructor.
  - destruct (String.eqb k k'); [assumption | constructor; assumption].
Qed.

Lemma listsNonEmpty_pop_set (d : StageRequest) (k : string) (v : list string) :
  listsNonEmpty d -> listsNonEmpty (Dict.pop (Dict.set d k v) k).
Proof.
  unfold listsNonEmpty. intros Hd.
  induction Hd as [|[k' v'] d Hk Hd IH]; simpl.
  - rewrite String.eqb_refl. constructor.
  - destruct (String.eqb k k') eqn:Hkk; simpl; rewrite ?String.eqb_refl, ?Hkk;
      [assumption | constructor; assumption].
Qed.

Lemma app_one_not_nil {A} (l : list A) (x : A) : (l ++ [x])%list <> [].
Proof. destruct l; discriminate. Qed.

Lemma addToStage_nonEmpty (lfn : string) (acc : StageRequest * list string)
  (seName : string) :
  listsNonEmpty (fst acc) -> listsNonEmpty (fst (addToStage lfn acc seName)).
Proof.
  destruct acc as [stageLFNs lfnToStage]. cbn [fst]. intros Hd.
  unfold addToStage, Dict.mem.
  destruct (Dict.get stageLFNs seName) as [lfns|] eqn:Hget; cbn [negb fst].
  - rewrite Hget. apply listsNonEmpty_set; [assumption | apply app_one_not_nil].
  - rewrite dict_get_set_same, dict_set_set.
    apply listsNonEmpty_set; [assumption | apply app_one_not_nil].
Qed.

Lemma fold_nonEmpty {A} (step : StageRequest * list string -> A
                                -> StageRequest * list string)
  (Hstep : forall acc a, listsNonEmpty (fst acc) -> listsNonEmpty (fst (step acc a)))
  (l : list A) (acc : StageRequest * list string) :
  listsNonEmpty (fst acc) -> listsNonEmpty (fst (fold_left step l acc)).
Proof.
  revert acc. induction l as [|a l IH]; intros acc Hacc; simpl; auto.
Qed.

Lemma collectStep_nonEmpty (diskSEs tapeSEs : list string)
  (acc : StageRequest * list string) (entry : string * list string) :
  listsNonEmpty (fst acc) ->
  listsNonEmpty (fst (collectStep diskSEs tapeSEs acc entry)).
Proof.
  destruct entry as [lfn replicas]. unfold collectStep.
  apply fold_nonEmpty. intros; now apply addToStage_nonEmpty.
Qed.

Lemma traverseSEs_nonEmpty (lfn : string) (items : list (Z * string)) :
  forall (found : bool) (stageLFNs result : StageRequest),
    listsNonEmpty stageLFNs ->
    traverseSEs lfn items found stageLFNs = Done result ->
    listsNonEmpty result.
Proof.
  induction items as [|[count seName] items IH]; intros found d result Hd; simpl.
  - intros H. injection H as <-. assumption.
  - destruct (Dict.get d seName) as [lfns|] eqn:Hget; [|discriminate].
    assert (Hlfns : lfns <> []).
    { apply dict_get_In in Hget. unfold listsNonEmpty in Hd.
      rewrite Forall_forall in Hd. exact (Hd _ Hget). }
    destruct (Py.in_list lfn lfns); [destruct found|].
    + destruct (Py.remove_first lfn lfns) as [|y r] eqn:Hrem.
      * cbn [Py.len List.length Z.of_nat Z.eqb]. apply IH.
        now apply listsNonEmpty_pop_set.
      * replace (Py.len (y :: r) =? 0) with false
          by (symmetry; apply Z.eqb_neq; unfold Py.len; simpl; lia).
        apply IH. apply listsNonEmpty_set; [assumption | discriminate].
    + destruct (Py.len lfns =? 0); apply IH; auto using listsNonEmpty_pop.
    + destruct (Py.len lfns =? 0); apply IH; auto using listsNonEmpty_pop.
Qed.

Lemma minimize_nonEmpty (lfnToStage : list string) :
  forall (sortedSEs : list (Z * string)) (stageLFNs result : StageRequest),
    listsNonEmpty stageLFNs ->
    minimize lfnToStage sortedSEs stageLFNs = Done result ->
    listsNonEmpty result.
Proof.
  induction lfnToStage as [|lfn rest IH]; intros sortedSEs d result Hd; simpl.
  - intros H. injection H as <-. assumption.
  - destruct (traverseSEs lfn sortedSEs false d) as [d'|e] eqn:Ht; [|discriminate].
    apply IH. eapply traverseSEs_nonEmpty; eassumption.
Qed.

(** Once the iterator is at its end, the outer loop changes nothing: the
    minimization is the inner loop of the first LFN alone. *)
Lemma minimize_exhausted (lfnToStage : list string) (stageLFNs : StageRequest) :
  minimize lfnToStage [] stageLFNs = Done stageLFNs.
Proof. induction lfnToStage as [|lfn rest IH]; simpl; auto. Qed.

Lemma minimize_first_only (lfn : string) (rest : list string)
  (sortedSEs : list (Z * string)) (stageLFNs : StageRequest) :
  minimize (lfn :: rest) sortedSEs stageLFNs
  = traverseSEs lfn sortedSEs false stageLFNs.
Proof.
  simpl. destruct (traverseSEs lfn sortedSEs false stageLFNs); [|reflexivity].
  apply minimize_exhausted.
Qed.

(** The part of C2 the code keeps: every SE of a stage request that the
    builder returns has a list that is not empty. *)
Lemma preRequestStaging_lists_nonEmpty (env : Env) (manifestReply : Result Manifest)
  (stageSite : string) (opData : OpData) (stageLFNs : StageRequest) :
  preRequestStaging env manifestReply stageSite opData = Done (S_OK stageLFNs) ->
  listsNonEmpty stageLFNs.
Proof.
  unfold preRequestStaging.
  destruct (getSEsForSite env stageSite) as [siteSEs|]; [|discriminate].
  destruct manifestReply as [manifest|]; [|discriminate].
  destruct (classifySEs env _ siteSEs [] []) as [[tapeSEs diskSEs]|]; [|discriminate].
  destruct (isNil tapeSEs); [discriminate|].
  destruct (Successful opData) as [inputData|]; [|discriminate].
  assert (Hcollect : listsNonEmpty
            (fst (fold_left (collectStep diskSEs tapeSEs) inputData ([], [])))).
  { apply fold_nonEmpty; [intros; now apply collectStep_nonEmpty | constructor]. }
  destruct (fold_left (collectStep diskSEs tapeSEs) inputData ([], []))
    as [collected lfnToStage].
  cbn [fst] in Hcollect.
  destruct (isNil collected); [discriminate|].
  destruct (minimize lfnToStage _ collected) as [result|e] eqn:Hmin; [|discriminate].
  intros H. injection H as <-.
  eapply minimize_nonEmpty; eassumption.
Qed.

(** C2, on the code.  The stage site [X] has the tape SEs [T1] and [T2],
    and the input files [A] and [B] have replicas at both.  The builder
    returns the request [T1: [B], T2: [A, B]]: only [A], the first file, has
    been left at one SE, and [B] is staged from two.  [optimizeJob] sends
    this request to the stager. *)
Theorem preRequestStaging_leaves_lfn_at_two_SEs :
  preRequestStaging envUserJob (S_OK manifestVO) "X" opDataXY
  = Done (S_OK [("T1", ["B"]); ("T2", ["A"; "B"])])
  /\ sesHolding "A" [("T1", ["B"]); ("T2", ["A"; "B"])] = ["T2"]
  /\ sesHolding "B" [("T1", ["B"]); ("T2", ["A"; "B"])] = ["T1"; "T2"]
  /\ In (SetRequest [("T1", ["B"]); ("T2", ["A"; "B"])] 7)
        (trace (snd (optimizeJob envUserJob (initialState ["X"; "Y"])))).
Proof.
  split; [reflexivity|]. split; [reflexivity|]. split; [reflexivity|].
  vm_compute. right. left. reflexivity.
Qed.

(** * Further properties of the executor *)

(** ** The site filter with banned sites *)

Lemma in_list_false (x : string) (l : list string) :
  Py.in_list x l = false <-> ~ In x l.
Proof.
  rewrite <- in_list_In. destruct (Py.in_list x l); split; congruence.
Qed.

Lemma set_diff_In (s b : list string) (x : string) :
  In x (Py.set_diff s b) <-> In x s /\ ~ In x b.
Proof.
  unfold Py.set_diff. rewrite filter_In, negb_true_iff.
  destruct (Py.in_list x b) eqn:Hb.
  - apply in_list_In in Hb. intuition congruence.
  - assert (~ In x b) by (rewrite <- in_list_In; congruence). intuition.
Qed.

Lemma applySiteFilter_coll_In (sites banned : list string) (s : string) :
  In s (_applySiteFilter sites (BannedColl banned)) <-> In s sites /\ ~ In s banned.
Proof.
  unfold _applySiteFilter. destruct sites as [|a sites]; [simpl; tauto|].
  destruct banned as [|b banned]; cbn [truthy isCollection bannedItems
                                        List.length Nat.eqb negb andb].
  - rewrite set_list_In. simpl. tauto.
  - rewrite set_diff_In, set_list_In. reflexivity.
Qed.

Lemma applySiteFilter_coll_NoDup (sites banned : list string) :
  NoDup (_applySiteFilter sites (BannedColl banned)).
Proof.
  unfold _applySiteFilter. destruct sites as [|a sites]; [constructor|].
  destruct (truthy (BannedColl banned) && isCollection (BannedColl banned)).
  - apply NoDup_filter, set_list_NoDup.
  - apply set_list_NoDup.
Qed.

(** X1.  Called with a list, set or dict of banned sites, the site filter
    returns a list without duplicates whose elements are exactly the input
    sites that are not banned. *)
Theorem applySiteFilter_banned (sites banned : list string) :
  NoDup (_applySiteFilter sites (BannedColl banned))
  /\ forall s, In s (_applySiteFilter sites (BannedColl banned))
               <-> In s sites /\ ~ In s banned.
Proof.
  split; [apply applySiteFilter_coll_NoDup | apply applySiteFilter_coll_In].
Qed.

(** ** The job requirements *)

Lemma isNil_true {A} (l : list A) : isNil l = true <-> l = [].
Proof. destruct l; simpl; split; congruence. Qed.

Lemma isNil_false {A} (l : list A) : isNil l = false <-> l <> [].
Proof. destruct l; simpl; split; congruence. Qed.

Lemma wanted_filter (m : Manifest) (s : string) :
  In s (filter (fun site => negb (Py.in_list (Py.lower (Py.strip site)) ["any"; ""]))
               (manifestOption m "Site" []))
  <-> wanted m s.
Proof.
  unfold wanted. rewrite filter_In, negb_true_iff, in_list_false. simpl.
  intuition congruence.
Qed.

(** The course of [getSitesRequired] when the manifest can be read. *)
Lemma getSitesRequired_run (env : Env) (st : State) :
  manifestError env = None ->
  let requested :=
    filter (fun site => negb (Py.in_list (Py.lower (Py.strip site)) ["any"; ""]))
           (manifestOption (manifest st) "Site" []) in
  let banned := manifestBanned (manifest st) in
  let sites := _applySiteFilter requested (BannedColl banned) in
  getSitesRequired env st
  = (Done (if isNil requested then S_OK ([], banned)
           else if isNil sites then S_ERROR "Impossible site requirement"
                else S_OK (sites, banned)), st).
Proof.
  intros Hm. cbv zeta.
  unfold getSitesRequired, bind, readManifest, getManifest, manifestBanned.
  rewrite Hm.
  destruct (filter _ (manifestOption (manifest st) "Site" [])) as [|a l] eqn:Hreq;
    cbn [isNil negb]; [reflexivity|].
  destruct (isNil (_applySiteFilter (a :: l) _)); reflexivity.
Qed.

(** X2.  When [getSitesRequired] succeeds, the banned sites it returns are
    those of the manifest, and the sites it returns have no duplicates and
    are exactly the sites the manifest asks for ("any" and blank entries
    apart) that are not banned; the job state is left as it was. *)
Theorem getSitesRequired_sites
  (env : Env) (st st' : State) (sites banned : list string) :
  getSitesRequired env st = (Done (S_OK (sites, banned)), st') ->
  st' = st
  /\ banned = manifestBanned (manifest st)
  /\ NoDup sites
  /\ forall s, In s sites <-> wanted (manifest st) s /\ ~ In s banned.
Proof.
  destruct (manifestError env) as [msg|] eqn:Hm.
  - unfold getSitesRequired, bind, readManifest, getManifest. rewrite Hm.
    discriminate.
  - rewrite (getSitesRequired_run env st Hm). cbv zeta.
    destruct (isNil (filter _ _)) eqn:Hreq.
    + intros H. injection H as <- <- <-. apply isNil_true in Hreq.
      split; [reflexivity|]. split; [reflexivity|]. split; [constructor|].
      intros s. split; [intros []|].
      intros [Hw _]. apply wanted_filter in Hw. rewrite Hreq in Hw. exact Hw.
    + destruct (isNil (_applySiteFilter _ _)) eqn:Hsites; [discriminate|].
      intros H. injection H as <- <- <-.
      split; [reflexivity|]. split; [reflexivity|].
      split; [apply applySiteFilter_coll_NoDup|].
      intros s. rewrite applySiteFilter_coll_In, wanted_filter. reflexivity.
Qed.

Lemma getSitesRequired_sites_witness :
  getSitesRequired envUserJob (stateWithSites ["CERN"; " Any "; "DESY"; "CERN"] ["DESY"])
  = (Done (S_OK (["CERN"], ["DESY"])),
     stateWithSites ["CERN"; " Any "; "DESY"; "CERN"] ["DESY"])
  /\ (forall s, In s ["CERN"]
                <-> wanted (manifest (stateWithSites ["CERN"; " Any "; "DESY"; "CERN"]
                                                     ["DESY"])) s
                    /\ ~ In s ["DESY"]).
Proof.
  assert (Hrun : getSitesRequired envUserJob
                   (stateWithSites ["CERN"; " Any "; "DESY"; "CERN"] ["DESY"])
                 = (Done (S_OK (["CERN"], ["DESY"])),
                    stateWithSites ["CERN"; " Any "; "DESY"; "CERN"] ["DESY"]))
    by reflexivity.
  split; [exact Hrun|].
  exact (proj2 (proj2 (proj2 (getSitesRequired_sites _ _ _ _ _ Hrun)))).
Defined.

(** X3.  [getSitesRequired] never raises and fails in two cases only: when
    the manifest cannot be read, with the message of the job state after
    "Could not retrieve manifest: ", and, with "Impossible site requirement",
    when the manifest asks for some site and bans every site it asks for. *)
Theorem getSitesRequired_failure (env : Env) (st : State) :
  (forall e, fst (getSitesRequired env st) <> Raised e)
  /\ (forall msg,
        fst (getSitesRequired env st) = Done (S_ERROR msg)
        <-> (exists reply, manifestError env = Some reply
                           /\ msg = "Could not retrieve manifest: " ++ reply)
            \/ (manifestError env = None
                /\ msg = "Impossible site requirement"
                /\ (exists s, wanted (manifest st) s)
                /\ forall s, wanted (manifest st) s ->
                             In s (manifestBanned (manifest st)))).
Proof.
  destruct (manifestError env) as [reply|] eqn:Hm.
  - assert (Hrun : getSitesRequired env st
                   = (Done (S_ERROR ("Could not retrieve manifest: " ++ reply)), st))
      by (unfold getSitesRequired, bind, readManifest, getManifest;
          rewrite Hm; reflexivity).
    rewrite Hrun. cbn [fst]. split; [discriminate|].
    intros msg. split.
    + intros H. injection H as <-. left. exists reply. split; reflexivity.
    + intros [(reply' & Hr & ->) | (Hnone & _)]; [|discriminate].
      injection Hr as <-. reflexivity.
  - rewrite (getSitesRequired_run env st Hm). cbv zeta. cbn [fst].
    split; [discriminate|].
    set (requested := filter _ (manifestOption (manifest st) "Site" [])).
    assert (Hreq : forall s, In s requested <-> wanted (manifest st) s)
      by (intros s; apply wanted_filter).
    assert (Hsites : forall s,
               In s (_applySiteFilter requested
                       (BannedColl (manifestBanned (manifest st))))
               <-> wanted (manifest st) s
                   /\ ~ In s (manifestBanned (manifest st)))
      by (intros s; rewrite applySiteFilter_coll_In, Hreq; reflexivity).
    intros msg.
    destruct (isNil requested) eqn:Hnil.
    + apply isNil_true in Hnil. split; [discriminate|].
      intros [(reply & Hr & _) | (_ & _ & (s & Hs) & _)]; [discriminate|].
      apply Hreq in Hs. rewrite Hnil in Hs. destruct Hs.
    + apply isNil_false in Hnil.
      destruct (isNil (_applySiteFilter requested _)) eqn:Hnil'.
      * apply isNil_true in Hnil'. split.
        -- intros H. injection H as <-. right.
           split; [reflexivity|]. split; [reflexivity|]. split.
           ++ destruct requested as [|a l]; [contradiction|].
              exists a. apply Hreq. now left.
           ++ intros s Hs.
              destruct (in_dec string_dec s (manifestBanned (manifest st)))
                as [Hin | Hout]; [exact Hin|].
              assert (Habs : In s (_applySiteFilter requested
                               (BannedColl (manifestBanned (manifest st)))))
                by (apply Hsites; split; assumption).
              rewrite Hnil' in Habs. destruct Habs.
        -- intros [(reply & Hr & _) | (_ & -> & _)];
             [discriminate | reflexivity].
      * apply isNil_false in Hnil'. split; [discriminate|].
        intros [(reply & Hr & _) | (_ & _ & _ & Hall)]; [discriminate|].
        destruct (_applySiteFilter requested _) as [|a l] eqn:Hres;
          [contradiction|].
        assert (Ha : In a (a :: l)) by now left.
        apply Hsites in Ha. destruct Ha as [Hw Hnb].
        exfalso. apply Hnb, Hall, Hw.
Qed.

(** ** The reschedule back-off *)

(** X4.  When the attribute [RescheduleCounter] is missing or is not the
    text of an integer, [optimizeJob] fails with "RescheduleCounter has to be
    an integer" and writes nothing. *)
Theorem optimizeJob_counter_not_integer
  (env : Env) (st : State) (attDict : dict string) :
  getAttributes env = S_OK attDict ->
  (Dict.get attDict "RescheduleCounter" = None
   \/ exists s, Dict.get attDict "RescheduleCounter" = Some s /\ Py.int s = None) ->
  optimizeJob env st
  = (Done (S_ERROR "RescheduleCounter has to be an integer"), st).
Proof.
  intros Hatt Hbad. unfold optimizeJob. rewrite Hatt.
  destruct Hbad as [-> | (s & -> & ->)]; reflexivity.
Qed.

Lemma optimizeJob_counter_not_integer_witness :
  optimizeJob envBadCounter (initialState ["X"])
  = (Done (S_ERROR "RescheduleCounter has to be an integer"), initialState ["X"]).
Proof.
  apply (optimizeJob_counter_not_integer envBadCounter (initialState ["X"])
           [("RescheduleCounter", "seven"); ("RescheduleTime", "t0")] eq_refl).
  right. exists "seven". split; reflexivity.
Defined.

Lemma index_last {A} (l : list A) (d : A) :
  l <> [] -> Py.index l (Py.len l - 1) = Some (last l d).
Proof.
  intros Hl. unfold Py.index, Py.len.
  assert (Hlen : (0 < List.length l)%nat) by (destruct l; [congruence | simpl; lia]).
  replace ((0 <=? Z.of_nat (List.length l) - 1)
           && (Z.of_nat (List.length l) - 1 <? Z.of_nat (List.length l)))
    with true
    by (symmetry; apply andb_true_intro; split;
        [apply Z.leb_le | apply Z.ltb_lt]; lia).
  replace (Z.to_nat (Z.of_nat (List.length l) - 1)) with (List.length l - 1)%nat
    by lia.
  clear Hlen. induction l as [|a [|b l] IH]; [congruence | reflexivity|].
  specialize (IH ltac:(discriminate)).
  cbn [List.length last] in *.
  replace (S (S (List.length l)) - 1)%nat with (S (S (List.length l) - 1))%nat by lia.
  cbn [nth_error]. exact IH.
Qed.

Lemma index_out_of_range {A} (l : list A) (i : Z) :
  Py.len l <= i \/ i < - Py.len l -> Py.index l i = None.
Proof.
  intros H. unfold Py.index.
  assert (H0 : 0 <= Py.len l) by (unfold Py.len; lia).
  replace ((0 <=? i) && (i <? Py.len l)) with false
    by (symmetry; apply andb_false_iff;
        destruct H; [right; apply Z.ltb_ge | left; apply Z.leb_gt]; lia).
  replace ((i <? 0) && (0 <=? i + Py.len l)) with false
    by (symmetry; apply andb_false_iff;
        destruct H; [left; apply Z.ltb_ge | right; apply Z.leb_gt]; lia).
  reflexivity.
Qed.

(** X5.  From the reschedule counter [|delays| - 1] on, the delay of the
    back-off is the last of the configured delays: the job is held for it
    while it has waited less, and scheduled otherwise. *)
Theorem optimizeJob_delay_saturates
  (env : Env) (st : State) (attDict : dict string) (cs ts : string) (counter : Z) :
  let delays := ex_getOption (RescheduleDelays (config env)) defaultDelays in
  let delay := last delays 0 in
  getAttributes env = S_OK attDict ->
  Dict.get attDict "RescheduleCounter" = Some cs ->
  Py.int cs = Some counter ->
  Dict.get attDict "RescheduleTime" = Some ts ->
  delays <> [] ->
  counter <> 0 ->
  Py.len delays - 1 <= counter ->
  optimizeJob env st
  = if now env - epochOf env ts <? delay
    then holdJob env ("On Hold: after rescheduling " ++ Py.str_of_int counter)
                 delay st
    else scheduleJob env st.
Proof.
  intros delays delay Hatt Hcs Hint Hts Hne Hc Hge.
  unfold optimizeJob. rewrite Hatt, Hcs, Hint.
  replace (counter =? 0) with false by (symmetry; apply Z.eqb_neq; assumption).
  cbn [negb]. fold delays.
  rewrite Z.min_r by assumption.
  rewrite (index_last delays 0 Hne), Hts. fold delay.
  destruct (now env - epochOf env ts <? delay); reflexivity.
Qed.

Lemma optimizeJob_delay_saturates_witness :
  optimizeJob envRescheduledOften (initialState ["X"])
  = holdJob envRescheduledOften "On Hold: after rescheduling 7" 600
            (initialState ["X"]).
Proof.
  apply (optimizeJob_delay_saturates envRescheduledOften (initialState ["X"])
           [("RescheduleCounter", "7"); ("RescheduleTime", "t0");
            ("ApplicationStatus", "Unknown")] "7" "t0" 7);
    try reflexivity; try discriminate; cbn; lia.
Defined.

(** X6.  For a reschedule counter other than 0, [optimizeJob] raises
    IndexError, having written nothing, when the configured list of delays
    is empty or when the counter is below [-|delays|]. *)
Theorem optimizeJob_delay_index_error
  (env : Env) (st : State) (attDict : dict string) (cs : string) (counter : Z) :
  let delays := ex_getOption (RescheduleDelays (config env)) defaultDelays in
  getAttributes env = S_OK attDict ->
  Dict.get attDict "RescheduleCounter" = Some cs ->
  Py.int cs = Some counter ->
  counter <> 0 ->
  delays = [] \/ counter < - Py.len delays ->
  optimizeJob env st = (Raised IndexError, st).
Proof.
  intros delays Hatt Hcs Hint Hc Hout.
  unfold optimizeJob. rewrite Hatt, Hcs, Hint.
  replace (counter =? 0) with false by (symmetry; apply Z.eqb_neq; assumption).
  cbn [negb]. fold delays.
  rewrite index_out_of_range; [reflexivity|].
  assert (H0 : 0 <= Py.len delays) by (unfold Py.len; lia).
  destruct Hout as [-> | Hlt].
  - change (Py.len (@nil Z)) with 0.
    destruct (Z.min_spec counter (0 - 1)) as [[_ ->] | [_ ->]]; lia.
  - right. lia.
Qed.

Lemma optimizeJob_delay_index_error_witness :
  optimizeJob envNoDelays (initialState ["X"])
  = (Raised IndexError, initialState ["X"]).
Proof.
  apply (optimizeJob_delay_index_error envNoDelays (initialState ["X"])
           [("RescheduleCounter", "7"); ("RescheduleTime", "t0");
            ("ApplicationStatus", "Unknown")] "7" 7);
    try reflexivity; try discriminate.
  left. reflexivity.
Defined.

(** ** Requested sites that are inactive *)

Lemma applySiteFilter_all_banned (sites banned : list string) :
  isNil (_applySiteFilter sites (BannedColl banned)) = true
  <-> forall s, In s sites -> In s banned.
Proof.
  rewrite isNil_true. split.
  - intros Hnil s Hs.
    destruct (in_dec string_dec s banned) as [Hin | Hout]; [exact Hin|].
    assert (Habs : In s (_applySiteFilter sites (BannedColl banned)))
      by (apply applySiteFilter_coll_In; split; assumption).
    rewrite Hnil in Habs. destruct Habs.
  - intros Hall.
    destruct (_applySiteFilter sites (BannedColl banned)) as [|a l] eqn:Hres;
      [reflexivity|].
    assert (Ha : In a (_applySiteFilter sites (BannedColl banned)))
      by (rewrite Hres; now left).
    apply applySiteFilter_coll_In in Ha. destruct Ha as [Hin Hout].
    exfalso. apply Hout, Hall, Hin.
Qed.

(** X7.  When the job asks for sites, its type is not among the types
    excluded from holding and every site it asks for is in the banned site
    mask, the job is held: the task is frozen for [HoldTime] (300 by
    default), the application status names the site, or the sites, as
    inactive, and nothing else is written. *)
Theorem scheduleJob_requested_sites_inactive
  (env : Env) (st : State) (userSites userBannedSites wmsBannedSites : list string)
  (jobType : string) :
  getSitesRequired env st = (Done (S_OK (userSites, userBannedSites)), st) ->
  userSites <> [] ->
  getAttribute env "JobType" = S_OK jobType ->
  ~ In jobType (ex_getOption (ExcludedOnHoldJobTypes (config env)) []) ->
  getSiteMask env = S_OK wmsBannedSites ->
  (forall s, In s userSites -> In s wmsBannedSites) ->
  scheduleJob env st
  = (Done (setAppStatus env (inactiveMessage userSites)),
     addEvents st [FreezeTask (ex_getOption (HoldTime (config env)) 300);
                   SetAppStatus (inactiveMessage userSites)]).
Proof.
  intros Hreq Hne Htype Hexcl Hmask Hall.
  unfold scheduleJob, bind. rewrite Hreq, Htype, Hmask.
  apply isNil_false in Hne. rewrite Hne.
  apply in_list_false in Hexcl. rewrite Hexcl.
  apply applySiteFilter_all_banned in Hall. rewrite Hall.
  cbn [negb andb].
  destruct userSites as [|a [|b l]]; [discriminate Hne | |].
  - change (Py.len [a] >? 1) with false.
    change (Py.index [a] 0) with (Some a). cbv iota.
    apply holdJob_run.
  - replace (Py.len (a :: b :: l) >? 1) with true
      by (symmetry; apply Z.gtb_lt; unfold Py.len; cbn [List.length]; lia).
    apply holdJob_run.
Qed.

Lemma scheduleJob_requested_sites_inactive_witness :
  scheduleJob envMaskXY (initialState ["X"; "Y"])
  = (Done (S_OK tt),
     addEvents (initialState ["X"; "Y"])
       [FreezeTask 300; SetAppStatus "Requested sites X,Y are inactive"]).
Proof.
  apply (scheduleJob_requested_sites_inactive envMaskXY (initialState ["X"; "Y"])
           ["X"; "Y"] [] ["Y"; "X"; "Z"] "User");
    try reflexivity; try discriminate.
  - intros [].
  - intros s [<- | [<- | []]]; simpl; auto.
Defined.

(** ** What a call writes *)

Lemma writesOnly_ret {A} (P : Event -> bool) (a : A) : writesOnly P (ret a).
Proof. intros st. exists []. split; [symmetry; apply app_nil_r | constructor]. Qed.

Lemma writesOnly_raise {A} (P : Event -> bool) (e : PyExn) :
  writesOnly P (@raise A e).
Proof. intros st. exists []. split; [symmetry; apply app_nil_r | constructor]. Qed.

Lemma writesOnly_pure {A} (P : Event -> bool) (c : M A) :
  (forall st, trace (snd (c st)) = trace st) -> writesOnly P c.
Proof.
  intros H st. exists []. split; [rewrite H; symmetry; apply app_nil_r | constructor].
Qed.

Lemma writesOnly_emit (P : Event -> bool) (e : Event) :
  P e = true -> writesOnly P (emit e).
Proof. intros He st. exists [e]. split; [reflexivity | now constructor]. Qed.

Lemma writesOnly_bind {A B} (P : Event -> bool) (c : M A) (k : A -> M B) :
  writesOnly P c -> (forall a, writesOnly P (k a)) -> writesOnly P (bind c k).
Proof.
  intros Hc Hk st. unfold bind. destruct (Hc st) as (new & Htr & Hnew).
  destruct (c st) as [[a|e] st1]; cbn [snd] in *.
  - destruct (Hk a st1) as (new' & Htr' & Hnew').
    exists (new ++ new')%list. split.
    + rewrite Htr', Htr. symmetry. apply app_assoc.
    + apply Forall_app. split; assumption.
  - exists new. split; assumption.
Qed.

Lemma writesOnly_weaken {A} (P Q : Event -> bool) (c : M A) :
  (forall e, P e = true -> Q e = true) -> writesOnly P c -> writesOnly Q c.
Proof.
  intros HPQ Hc st. destruct (Hc st) as (new & Htr & Hnew).
  exists new. split; [assumption|].
  eapply Forall_impl; [|exact Hnew]. exact HPQ.
Qed.

Lemma writesOnly_events {A} (P : Event -> bool) (c : M A) (st : State) :
  writesOnly P c -> forall e, In e (eventsSince st (snd (c st))) -> P e = true.
Proof.
  intros Hc e. destruct (Hc st) as (new & Htr & Hnew).
  unfold eventsSince. rewrite Htr, skipn_app, skipn_all, Nat.sub_diag.
  cbn [app skipn]. rewrite Forall_forall in Hnew. apply Hnew.
Qed.

Lemma writesOnly_forEach {A} (P : Event -> bool) (l : list A) (body : A -> M unit) :
  (forall a, writesOnly P (body a)) -> writesOnly P (forEach l body).
Proof.
  intros Hbody. induction l as [|a l IH]; cbn [forEach].
  - apply writesOnly_ret.
  - apply writesOnly_bind; [apply Hbody | intros _; exact IH].
Qed.

(** Breaks a command down to its writes. *)
Ltac writes_step :=
  lazymatch goal with
  | |- writesOnly _ (ret _) => apply writesOnly_ret
  | |- writesOnly _ (failWith _) => apply writesOnly_ret
  | |- writesOnly _ (raise _) => apply writesOnly_raise
  | |- writesOnly _ (emit _) => apply writesOnly_emit; reflexivity
  | |- writesOnly _ (bind _ _) => apply writesOnly_bind; [|intros ?]
  | |- writesOnly _ (readManifest _) => apply writesOnly_pure; intros; reflexivity
  | |- writesOnly _ (createSection _) => apply writesOnly_pure; intros; reflexivity
  | |- writesOnly _ (setOption _ _ _) => apply writesOnly_pure; intros; reflexivity
  | |- writesOnly _ (liftOutcome _) => apply writesOnly_pure; intros; reflexivity
  | |- writesOnly _ (forEach _ _) => apply writesOnly_forEach; intros ?
  | |- writesOnly _ (match ?x with _ => _ end) =>
      first [progress cbn [negb andb orb] | destruct x]
  | |- writesOnly _ (let _ := _ in _) => cbv zeta
  end.

Ltac writes := repeat writes_step.

Lemma writesOnly_holdJob (P : Event -> bool) (env : Env) (msg : string) (delay : Z) :
  (forall e, isHoldWrite e = true -> P e = true) ->
  writesOnly P (holdJob env msg delay).
Proof.
  intros HP. apply (writesOnly_weaken isHoldWrite); [exact HP|].
  unfold holdJob. writes.
Qed.

Lemma writesOnly_setJobSite (env : Env) (siteList : list string) :
  writesOnly isForwardWrite (setJobSite env siteList).
Proof. unfold setJobSite. writes. Qed.

Lemma writesOnly_sendToTQ (P : Event -> bool) (env : Env)
  (sites bannedSites : list string) :
  (forall e, isForwardWrite e = true -> P e = true) ->
  writesOnly P (sendToTQ env sites bannedSites).
Proof.
  intros HP. apply (writesOnly_weaken isForwardWrite); [exact HP|].
  unfold sendToTQ. writes. apply writesOnly_setJobSite.
Qed.

Lemma writesOnly_requestStaging (env : Env) (stageLFNs : StageRequest) :
  writesOnly isStagingWrite (requestStaging env stageLFNs).
Proof. unfold requestStaging. writes. Qed.

Lemma writesOnly_getSitesRequired (P : Event -> bool) (env : Env) :
  writesOnly P (getSitesRequired env).
Proof. unfold getSitesRequired. writes. Qed.

(** X8.  A job without input data is never staged: whatever [optimizeJob]
    does with it (fail it, hold it or send it to the task queue), it writes
    no job status, sends no stage request, sets no job parameter and stores
    no optimizer record. *)
Theorem optimizeJob_no_input_data (env : Env) (st : State) :
  getInputData env = S_OK [] ->
  forall e, In e (eventsSince st (snd (optimizeJob env st))) ->
            isStagingWrite e = false.
Proof.
  intros Hdata e He.
  assert (Hw : writesOnly (fun e => negb (isStagingWrite e)) (optimizeJob env)).
  { assert (Hhold : forall e0, isHoldWrite e0 = true ->
                               negb (isStagingWrite e0) = true)
      by (intros []; simpl; congruence).
    assert (Hfwd : forall e0, isForwardWrite e0 = true ->
                              negb (isStagingWrite e0) = true)
      by (intros []; simpl; congruence).
    assert (Hsched : writesOnly (fun e => negb (isStagingWrite e)) (scheduleJob env)).
    { unfold scheduleJob. rewrite Hdata. cbn [isNil].
      apply writesOnly_bind; [apply writesOnly_getSitesRequired | intros result].
      destruct result as [[userSites userBannedSites]|msg]; writes;
        try (apply writesOnly_holdJob; exact Hhold);
        try (apply writesOnly_sendToTQ; exact Hfwd). }
    unfold optimizeJob. writes;
      try (apply writesOnly_holdJob; exact Hhold); exact Hsched. }
  apply negb_true_iff. exact (writesOnly_events _ _ st Hw e He).
Qed.

Lemma optimizeJob_no_input_data_witness :
  optimizeJob envNoInput (initialState ["X"; "Y"])
  = (Done (S_OK tt),
     mkState [SetAttribute "Site" "Multiple"; SetNextOptimizer]
             (mkManifest [("Site", ["X"; "Y"])] (Some "vo")
                         [("JobRequirements", [("Sites", "X, Y")])])
             [])
  /\ forall e, In e (eventsSince (initialState ["X"; "Y"])
                       (snd (optimizeJob envNoInput (initialState ["X"; "Y"])))) ->
               isStagingWrite e = false.
Proof.
  split; [reflexivity|].
  apply (optimizeJob_no_input_data envNoInput (initialState ["X"; "Y"]) eq_refl).
Defined.

(** ** Sending a job to the task queue *)

Lemma bind_done {A B} (c : M A) (k : A -> M B) (st : State) (a : A) :
  fst (c st) = Done a -> bind c k st = k a (snd (c st)).
Proof. unfold bind. destruct (c st) as [[a'|e] st']; cbn; congruence. Qed.

Lemma writesManifestOnly_ret : writesManifestOnly (ret tt).
Proof. intros st. repeat split. Qed.

Lemma writesManifestOnly_setOption (section name value : string) :
  writesManifestOnly (setOption section name value).
Proof. intros st. repeat split. Qed.

Lemma writesManifestOnly_bind (c : M unit) (k : unit -> M unit) :
  writesManifestOnly c -> (forall u, writesManifestOnly (k u)) ->
  writesManifestOnly (bind c k).
Proof.
  intros Hc Hk st. destruct (Hc st) as (Hd & Ht & Hr).
  rewrite (bind_done c k st tt Hd).
  destruct (Hk tt (snd (c st))) as (Hd' & Ht' & Hr').
  repeat split; congruence.
Qed.

Lemma writesManifestOnly_if (b : bool) (c1 c2 : M unit) :
  writesManifestOnly c1 -> writesManifestOnly c2 ->
  writesManifestOnly (if b then c1 else c2).
Proof. destruct b; auto. Qed.

Lemma writesManifestOnly_forEach {A} (l : list A) (body : A -> M unit) :
  (forall a, writesManifestOnly (body a)) -> writesManifestOnly (forEach l body).
Proof.
  intros Hbody. induction l as [|a l IH]; cbn [forEach].
  - apply writesManifestOnly_ret.
  - apply writesManifestOnly_bind; [apply Hbody | intros _; exact IH].
Qed.

Lemma writesManifestOnly_writeRequirements (m : Manifest) (sites banned : list string) :
  writesManifestOnly (writeRequirements m sites banned).
Proof.
  unfold writeRequirements.
  repeat first
    [ apply writesManifestOnly_bind; [|intros _]
    | apply writesManifestOnly_if
    | apply writesManifestOnly_setOption
    | apply writesManifestOnly_ret
    | apply writesManifestOnly_forEach; intros key ].
Qed.

Lemma state_eta (st : State) (t : list Event) (d : list nat) :
  trace st = t -> draws st = d -> st = mkState t (manifest st) d.
Proof. destruct st. simpl. intros -> ->. reflexivity. Qed.

(** The course of [sendToTQ] once the requirement section is at hand. *)
Lemma sendToTQ_run (env : Env) (sites bannedSites : list string) (st : State) :
  manifestError env = None ->
  requirementsOpen (manifest st) = true ->
  let m := manifest st in
  let st0 := if inManifest m "JobRequirements" then st
             else snd (createSection "JobRequirements" st) in
  let st3 := snd (writeRequirements m sites bannedSites st0) in
  let name := jobSiteName env sites in
  sendToTQ env sites bannedSites st
  = match setAttribute env "Site" name with
    | S_ERROR msg => (Done (S_ERROR msg), addEvents st3 [SetAttribute "Site" name])
    | S_OK _ => (Done (setNextOptimizer env),
                 addEvents st3 [SetAttribute "Site" name; SetNextOptimizer])
    end.
Proof.
  intros Herr Hopen m st0 st3 name.
  assert (Hwrite : forall (k : unit -> M (Result unit)) s,
             bind (writeRequirements m sites bannedSites) k s
             = k tt (snd (writeRequirements m sites bannedSites s))).
  { intros k s. apply bind_done.
    apply (writesManifestOnly_writeRequirements m sites bannedSites s). }
  pose (A := if negb (isNil sites)
             then setOption "JobRequirements" "Sites" (Py.join ", " sites)
             else ret tt).
  pose (B := if negb (isNil bannedSites)
             then setOption "JobRequirements" "BannedSites"
                            (Py.join ", " bannedSites)
             else ret tt).
  pose (C := forEach requirementKeys
               (fun key =>
                  if inManifest m key
                  then setOption "JobRequirements" (reqKeyOf key)
                         (Py.join ", " (manifestOption m key []))
                  else ret tt)).
  assert (Hassoc : forall (k : M (Result unit)) s,
             (A ;;; B ;;; C ;;; k) s
             = k (snd (writeRequirements m sites bannedSites s))).
  { intros k s. rewrite <- (Hwrite (fun _ => k) s).
    unfold writeRequirements. fold A B C. unfold bind.
    destruct (A s) as [[u|e] s1]; [|reflexivity].
    destruct (B s1) as [[u'|e] s2]; [|reflexivity].
    destruct (C s2) as [[u''|e] s3]; reflexivity. }
  assert (Htail : forall s,
             (result <- setJobSite env sites ;;
              match result with
              | S_ERROR msg => failWith msg
              | S_OK _ => emit SetNextOptimizer ;;; ret (setNextOptimizer env)
              end) s
             = match setAttribute env "Site" name with
               | S_ERROR msg => (Done (S_ERROR msg),
                                 addEvents s [SetAttribute "Site" name])
               | S_OK _ => (Done (setNextOptimizer env),
                            addEvents s [SetAttribute "Site" name; SetNextOptimizer])
               end).
  { intros s. unfold setJobSite, bind, failWith, ret. fold name.
    rewrite emit_run. destruct (setAttribute env "Site" name); [|reflexivity].
    rewrite emit_run, addEvents_app. reflexivity. }
  unfold sendToTQ. unfold bind at 1. unfold readManifest, getManifest.
  rewrite Herr. fold m. unfold bind at 1.
  unfold requirementsOpen in Hopen. fold m in Hopen.
  destruct (inManifest m "JobRequirements") eqn:Hin; cbn [negb orb] in Hopen.
  - unfold ret at 1, getSection. rewrite Hopen.
    fold A B C. rewrite Hassoc, Htail. reflexivity.
  - unfold createSection at 1. cbv zeta.
    fold A B C. rewrite Hassoc, Htail. reflexivity.
Qed.








Lemma dict_get_set {V} (d : dict V) (k k' : string) (v : V) :
  Dict.get (Dict.set d k v) k' = if String.eqb k' k then Some v else Dict.get d k'.
Proof.
  induction d as [|[k0 v0] d IH]; cbn [Dict.set Dict.get]; [reflexivity|].
  destruct (String.eqb_spec k k0) as [-> | Hk]; cbn [Dict.get].
  - destruct (String.eqb k' k0); reflexivity.
  - rewrite IH. destruct (String.eqb_spec k' k0) as [-> | Hk'];
      [|reflexivity].
    destruct (String.eqb_spec k0 k); [congruence | reflexivity].
Qed.

Lemma setOption_sectionOption (section name value name' : string) (st : State) :
  sectionOption (manifest (snd (setOption section name value st))) section name'
  = if String.eqb name' name then Some value
    else sectionOption (manifest st) section name'.
Proof.
  unfold setOption, sectionOption. cbn [snd manifest sections].
  rewrite dict_get_set, String.eqb_refl, dict_get_set.
  destruct (Dict.get (sections (manifest st)) section); reflexivity.
Qed.

Lemma maybe_setOption_sectionOption (b : bool) (section name value name' : string)
  (st : State) :
  sectionOption
    (manifest (snd ((if b then setOption section name value else ret tt) st)))
    section name'
  = if b && String.eqb name' name then Some value
    else sectionOption (manifest st) section name'.
Proof. destruct b; [apply setOption_sectionOption | reflexivity]. Qed.

Lemma forEach_sectionOption (section name' : string) (keys : list string)
  (present : string -> bool) (target value : string -> string) (st : State) :
  sectionOption
    (manifest
       (snd (forEach keys
               (fun key => if present key
                           then setOption section (target key) (value key)
                           else ret tt) st)))
    section name'
  = fold_left (fun acc key => if present key then Some (value key) else acc)
              (filter (fun key => String.eqb name' (target key)) keys)
              (sectionOption (manifest st) section name').
Proof.
  revert st. induction keys as [|key keys IH]; intros st; [reflexivity|].
  cbn [forEach filter].
  assert (Hd : fst ((if present key
                     then setOption section (target key) (value key)
                     else ret tt) st) = Done tt)
    by (destruct (present key); reflexivity).
  rewrite (bind_done _ _ st tt Hd), IH, maybe_setOption_sectionOption.
  destruct (String.eqb name' (target key)); cbn [fold_left].
  - rewrite andb_true_r. reflexivity.
  - rewrite andb_false_r. reflexivity.
Qed.

Lemma writeRequirements_sectionOption (m : Manifest) (sites banned : list string)
  (name : string) (st : State) :
  sectionOption (manifest (snd (writeRequirements m sites banned st)))
                "JobRequirements" name
  = fold_left (fun acc key =>
                 if inManifest m key
                 then Some (Py.join ", " (manifestOption m key [])) else acc)
              (feeds name)
              (if negb (isNil banned) && String.eqb name "BannedSites"
               then Some (Py.join ", " banned)
               else if negb (isNil sites) && String.eqb name "Sites"
                    then Some (Py.join ", " sites)
                    else sectionOption (manifest st) "JobRequirements" name).
Proof.
  unfold writeRequirements, feeds.
  assert (Hd1 : fst ((if negb (isNil sites)
                      then setOption "JobRequirements" "Sites" (Py.join ", " sites)
                      else ret tt) st) = Done tt)
    by (destruct (negb (isNil sites)); reflexivity).
  rewrite (bind_done _ _ st tt Hd1).
  match goal with
  | |- context [bind ?c _ ?s] =>
      assert (Hd2 : fst (c s) = Done tt)
        by (destruct (negb (isNil banned)); reflexivity);
      rewrite (bind_done c _ s tt Hd2)
  end.
  rewrite (forEach_sectionOption "JobRequirements" name requirementKeys
             (inManifest m) reqKeyOf
             (fun key => Py.join ", " (manifestOption m key []))).
  rewrite !maybe_setOption_sectionOption. reflexivity.
Qed.

Lemma createSection_sectionOption (section name : string) (st : State) :
  Dict.mem section (sections (manifest st)) = false ->
  sectionOption (manifest (snd (createSection section st))) section name
  = sectionOption (manifest st) section name.
Proof.
  unfold Dict.mem, createSection, sectionOption. cbn [snd manifest sections].
  rewrite dict_get_set, String.eqb_refl.
  destruct (Dict.get (sections (manifest st)) section); [discriminate|].
  reflexivity.
Qed.

(** The requirement [name] after a call of [sendToTQ] that reaches the
    writes. *)
Lemma sendToTQ_sectionOption (env : Env) (sites banned : list string)
  (st : State) (name : string) :
  manifestError env = None ->
  requirementsOpen (manifest st) = true ->
  sectionOption (manifest (snd (sendToTQ env sites banned st)))
                "JobRequirements" name
  = fold_left (fun acc key =>
                 if inManifest (manifest st) key
                 then Some (Py.join ", " (manifestOption (manifest st) key []))
                 else acc)
              (feeds name)
              (if negb (isNil banned) && String.eqb name "BannedSites"
               then Some (Py.join ", " banned)
               else if negb (isNil sites) && String.eqb name "Sites"
                    then Some (Py.join ", " sites)
                    else sectionOption (manifest st) "JobRequirements" name).
Proof.
  intros Herr Hopen.
  rewrite (sendToTQ_run env sites banned st Herr Hopen). cbv zeta.
  assert (Hm : forall s new, manifest (addEvents s new) = manifest s)
    by reflexivity.
  destruct (setAttribute env "Site" (jobSiteName env sites)); cbn [snd];
    rewrite Hm, writeRequirements_sectionOption;
    (destruct (inManifest (manifest st) "JobRequirements") eqn:Hin;
     [reflexivity|]);
    rewrite createSection_sectionOption; try reflexivity;
    unfold inManifest in Hin; apply orb_false_iff in Hin; apply Hin.
Qed.

(** X11.  A call of [sendToTQ] that reaches the writes sets the requirement
    [Sites] to the sites joined by ", " when there are sites, and leaves it
    as it was when there are none; the same holds for [BannedSites] and the
    banned sites. *)
Theorem sendToTQ_site_requirements
  (env : Env) (sites banned : list string) (st : State) :
  manifestError env = None ->
  requirementsOpen (manifest st) = true ->
  let before := manifest st in
  let after := manifest (snd (sendToTQ env sites banned st)) in
  sectionOption after "JobRequirements" "Sites"
  = (if isNil sites then sectionOption before "JobRequirements" "Sites"
     else Some (Py.join ", " sites))
  /\ sectionOption after "JobRequirements" "BannedSites"
     = (if isNil banned then sectionOption before "JobRequirements" "BannedSites"
        else Some (Py.join ", " banned)).
Proof.
  intros Herr Hopen. cbv zeta.
  rewrite !(sendToTQ_sectionOption env sites banned st _ Herr Hopen).
  change (feeds "Sites") with (@nil string).
  change (feeds "BannedSites") with (@nil string).
  cbn [fold_left].
  change (String.eqb "Sites" "BannedSites") with false.
  change (String.eqb "Sites" "Sites") with true.
  change (String.eqb "BannedSites" "BannedSites") with true.
  rewrite andb_false_r, !andb_true_r.
  destruct (isNil sites), (isNil banned); split; reflexivity.
Qed.

Lemma sendToTQ_site_requirements_witness :
  sectionOption (manifest (snd (sendToTQ envUserJob ["X"; "Y"] []
                                  (initialState ["X"; "Y"]))))
                "JobRequirements" "Sites" = Some "X, Y"
  /\ sectionOption (manifest (snd (sendToTQ envUserJob ["X"; "Y"] []
                                     (initialState ["X"; "Y"]))))
                   "JobRequirements" "BannedSites" = None.
Proof.
  apply (sendToTQ_site_requirements envUserJob ["X"; "Y"] []
           (initialState ["X"; "Y"]) eq_refl eq_refl).
Defined.

Lemma requirementFrom_pair (m : Manifest) (first second : string)
  (old : option string) :
  fold_left (fun acc key =>
               if inManifest m key
               then Some (Py.join ", " (manifestOption m key [])) else acc)
            [first; second] old
  = requirementFrom m first second old.
Proof.
  unfold requirementFrom. cbn [fold_left].
  destruct (inManifest m second), (inManifest m first); reflexivity.
Qed.

Lemma requirementFrom_single (m : Manifest) (key : string) (old : option string) :
  fold_left (fun acc key =>
               if inManifest m key
               then Some (Py.join ", " (manifestOption m key [])) else acc)
            [key] old
  = requirementFrom m key key old.
Proof.
  unfold requirementFrom. cbn [fold_left]. destruct (inManifest m key); reflexivity.
Qed.

(** X12.  A call of [sendToTQ] that reaches the writes copies the job
    description keys of the manifest into the requirements under their
    plural names, and where the manifest has both spellings of a key the one
    read last wins: [SubmitPool] over [SubmitPools], [PilotType] over
    [PilotTypes], [GridCE] over [GridRequiredCEs]; [JobTypes],
    [GridMiddleware] and [Tags] come from [JobType], [GridMiddleware] and
    [Tags].  A requirement none of whose keys is in the manifest stays as it
    was. *)
Theorem sendToTQ_key_requirements
  (env : Env) (sites banned : list string) (st : State) :
  manifestError env = None ->
  requirementsOpen (manifest st) = true ->
  let before := manifest st in
  let was := sectionOption before "JobRequirements" in
  let got := sectionOption (manifest (snd (sendToTQ env sites banned st)))
                          "JobRequirements" in
  got "SubmitPools"
  = requirementFrom before "SubmitPools" "SubmitPool" (was "SubmitPools")
  /\ got "PilotTypes"
     = requirementFrom before "PilotTypes" "PilotType" (was "PilotTypes")
  /\ got "GridCEs"
     = requirementFrom before "GridRequiredCEs" "GridCE" (was "GridCEs")
  /\ got "JobTypes" = requirementFrom before "JobType" "JobType" (was "JobTypes")
  /\ got "GridMiddleware"
     = requirementFrom before "GridMiddleware" "GridMiddleware"
                       (was "GridMiddleware")
  /\ got "Tags" = requirementFrom before "Tags" "Tags" (was "Tags").
Proof.
  intros Herr Hopen. cbv zeta.
  rewrite !(sendToTQ_sectionOption env sites banned st _ Herr Hopen).
  change (feeds "SubmitPools") with ["SubmitPools"; "SubmitPool"].
  change (feeds "PilotTypes") with ["PilotTypes"; "PilotType"].
  change (feeds "GridCEs") with ["GridRequiredCEs"; "GridCE"].
  change (feeds "JobTypes") with ["JobType"].
  change (feeds "GridMiddleware") with ["GridMiddleware"].
  change (feeds "Tags") with ["Tags"].
  rewrite !requirementFrom_pair, !requirementFrom_single.
  repeat match goal with
         | |- context [String.eqb ?a ?b] =>
             let v := eval vm_compute in (String.eqb a b) in
             change (String.eqb a b) with v
         end.
  rewrite !andb_false_r. repeat split.
Qed.

Lemma sendToTQ_key_requirements_witness :
  sectionOption (manifest (snd (sendToTQ envUserJob ["X"] [] statePools)))
                "JobRequirements" "SubmitPools" = Some "c"
  /\ sectionOption (manifest (snd (sendToTQ envUserJob ["X"] [] statePools)))
                   "JobRequirements" "JobTypes" = Some "User"
  /\ sectionOption (manifest (snd (sendToTQ envUserJob ["X"] [] statePools)))
                   "JobRequirements" "Tags" = None.
Proof.
  destruct (sendToTQ_key_requirements envUserJob ["X"] [] statePools
              eq_refl eq_refl) as (Hpool & _ & _ & Htype & _ & Htags).
  repeat split; assumption.
Defined.

(** ** Staging and the right to stage *)

Lemma writesOnly_resolveStaging (P : Event -> bool) (inputData : list string)
  (idSites : dict SiteReplicaRecord) :
  writesOnly P (resolveStaging inputData idSites).
Proof.
  unfold resolveStaging.
  destruct (fold_left _ idSites _) as [[diskSites maxOnDisk] bestSites].
  writes. apply writesOnly_pure. intros st. unfold shuffle.
  destruct (shuffleWith _ _ _). reflexivity.
Qed.

Lemma not_staging_hold (e : Event) :
  isHoldWrite e = true -> negb (isStagingWrite e) = true.
Proof. destruct e; simpl; congruence. Qed.

Lemma not_staging_forward (e : Event) :
  isForwardWrite e = true -> negb (isStagingWrite e) = true.
Proof. destruct e; simpl; congruence. Qed.

Lemma productionJob_gated (env : Env) (inputData userSites banned : list string) :
  checkStageAllowed env <> S_OK true ->
  writesOnly (fun e => negb (isStagingWrite e))
             (productionJob env inputData userSites banned).
Proof.
  intros Hgate. unfold productionJob.
  destruct (checkStageAllowed env) as [[|]|msg]; [contradiction Hgate; reflexivity| |];
    writes;
    try (apply writesOnly_holdJob; exact not_staging_hold);
    apply writesOnly_sendToTQ; exact not_staging_forward.
Qed.

Lemma userJob_gated (env : Env)
  (inputData userSites banned wmsBanned : list string) :
  ex_getOption (RestrictDataStage (config env)) false = true ->
  checkStageAllowed env <> S_OK true ->
  writesOnly (fun e => negb (isStagingWrite e))
             (userJob env inputData userSites banned wmsBanned).
Proof.
  intros Hrestrict Hgate. unfold userJob. rewrite Hrestrict.
  destruct (checkStageAllowed env) as [[|]|msg]; [contradiction Hgate; reflexivity| |];
    writes;
    try (apply writesOnly_resolveStaging);
    try (apply writesOnly_holdJob; exact not_staging_hold);
    try (apply writesOnly_sendToTQ; exact not_staging_forward).
Qed.

(** X13.  Without the right to stage nothing is staged.  When the owner
    group of the job cannot be read or lacks the property that allows
    staging, a call of [optimizeJob] writes no job status, sends no stage
    request, sets no job parameter and stores no optimizer record, provided
    the job is a production job or the option [RestrictDataStage] is set. *)
Theorem optimizeJob_no_staging_without_right (env : Env) (st : State) :
  checkStageAllowed env <> S_OK true ->
  ex_getOption (RestrictDataStage (config env)) false = true
  \/ (exists jobType, getAttribute env "JobType" = S_OK jobType
                      /\ In jobType (dataProcessing env)) ->
  forall e, In e (eventsSince st (snd (optimizeJob env st))) ->
            isStagingWrite e = false.
Proof.
  intros Hgate Hcase e He.
  assert (Hsched : writesOnly (fun e => negb (isStagingWrite e)) (scheduleJob env)).
  { unfold scheduleJob.
    apply writesOnly_bind; [apply writesOnly_getSitesRequired | intros result].
    destruct result as [[userSites userBannedSites]|msg]; [|writes].
    destruct Hcase as [Hrestrict | (jobType & Htype & Hprod)].
    - writes;
        try (apply writesOnly_holdJob; exact not_staging_hold);
        try (apply writesOnly_sendToTQ; exact not_staging_forward);
        try (apply productionJob_gated; exact Hgate);
        apply userJob_gated; assumption.
    - rewrite Htype. apply in_list_In in Hprod. rewrite Hprod.
      writes;
        try (apply writesOnly_holdJob; exact not_staging_hold);
        try (apply writesOnly_sendToTQ; exact not_staging_forward);
        apply productionJob_gated; exact Hgate. }
  assert (Hw : writesOnly (fun e => negb (isStagingWrite e)) (optimizeJob env)).
  { unfold optimizeJob. writes;
      try (apply writesOnly_holdJob; exact not_staging_hold); exact Hsched. }
  apply negb_true_iff. exact (writesOnly_events _ _ st Hw e He).
Qed.

Lemma optimizeJob_no_staging_without_right_witness :
  optimizeJob (withoutStageRight envProduction) (initialState ["X"])
  = (Done (S_ERROR "Stage not allowed"), initialState ["X"])
  /\ forall e, In e (eventsSince (initialState ["X"])
                       (snd (optimizeJob (withoutStageRight envProduction)
                               (initialState ["X"])))) ->
               isStagingWrite e = false.
Proof.
  split; [reflexivity|].
  apply (optimizeJob_no_staging_without_right (withoutStageRight envProduction)
           (initialState ["X"])).
  - discriminate.
  - right. exists "DataReconstruction". split; [reflexivity | now left].
Defined.

(** X14.  A production job whose files to stage cannot be told is held:
    the task is frozen for [HoldTime] (300 by default) and the application
    status is the message of [getFilesToStage]; nothing else is written. *)
Theorem productionJob_files_unknown
  (env : Env) (inputData userSites banned : list string) (st : State)
  (owner group msg : string) :
  getAttribute env "Owner" = S_OK owner ->
  getAttribute env "OwnerGroup" = S_OK group ->
  getFilesToStage env inputData owner group = S_ERROR msg ->
  productionJob env inputData userSites banned st
  = (Done (setAppStatus env msg),
     addEvents st [FreezeTask (ex_getOption (HoldTime (config env)) 300);
                   SetAppStatus msg]).
Proof.
  intros Howner Hgroup Hfiles. unfold productionJob.
  rewrite Howner, Hgroup, Hfiles. apply holdJob_run.
Qed.

Lemma productionJob_files_unknown_witness :
  optimizeJob (withoutFilesToStage envProduction "catalog down") (initialState ["X"])
  = (Done (S_OK tt),
     addEvents (initialState ["X"])
       [FreezeTask 300; SetAppStatus "catalog down"])
  /\ productionJob (withoutFilesToStage envProduction "catalog down")
       ["A"; "B"] ["X"] [] (initialState ["X"])
     = (Done (S_OK tt),
        addEvents (initialState ["X"])
          [FreezeTask 300; SetAppStatus "catalog down"]).
Proof.
  split; [reflexivity|].
  apply (productionJob_files_unknown (withoutFilesToStage envProduction "catalog down")
           ["A"; "B"] ["X"] [] (initialState ["X"]) "prod" "prod" "catalog down");
    reflexivity.
Defined.

(** X15.  The stager dispatcher never raises.  It returns the stage request
    it was given, unchanged, exactly when the first status write, the stage
    request and the second status write all succeed; when the first status
    write fails, that write is the only one of the call: no stage request
    is sent. *)
Theorem requestStaging_result
  (env : Env) (stageLFNs : StageRequest) (st : State) :
  let run := requestStaging env stageLFNs st in
  (forall e, fst run <> Raised e)
  /\ (forall r, fst run = Done (S_OK r)
                <-> r = stageLFNs
                    /\ isOK (setStatus env (stagingMajor env) (minorToBeSent env)) = true
                    /\ isOK (setRequest env stageLFNs (jid env)) = true
                    /\ isOK (setStatus env (stagingMajor env) (minorSent env)) = true)
  /\ (forall msg,
        setStatus env (stagingMajor env) (minorToBeSent env) = S_ERROR msg ->
        run = (Done (S_ERROR msg),
               addEvents st [SetStatus (stagingMajor env) (minorToBeSent env) ""])).
Proof.
  cbv zeta. rewrite requestStaging_run. cbv zeta.
  destruct (setStatus env (stagingMajor env) (minorToBeSent env)) as [[]|m1] eqn:H1.
  - destruct (setRequest env stageLFNs (jid env)) as [value|m2].
    + cbn [fst isOK].
      destruct (setStatus env (stagingMajor env) (minorSent env)) as [[]|m3];
        cbn [isOK]; (split; [discriminate|]); (split; [|discriminate]); intros r; split.
      * intros H. injection H as <-. repeat split.
      * intros (-> & _). reflexivity.
      * discriminate.
      * intros (_ & _ & _ & H). discriminate H.
    + cbn [fst isOK]. split; [discriminate|]. split; [|discriminate].
      intros r. split; [discriminate | intros (_ & _ & H & _); discriminate H].
  - cbn [fst isOK]. split; [discriminate|]. split.
    + intros r. split; [discriminate | intros (_ & H & _); discriminate H].
    + intros msg H. injection H as <-. reflexivity.
Qed.

(** ** Dictionaries with distinct keys *)

Lemma keys_set_In {V} (d : dict V) (k k' : string) (v : V) :
  In k' (Dict.keys (Dict.set d k v)) <-> k' = k \/ In k' (Dict.keys d).
Proof.
  unfold Dict.keys. induction d as [|[k0 v0] d IH]; cbn [Dict.set map fst In].
  - intuition.
  - destruct (String.eqb_spec k k0) as [-> | Hk]; cbn [map fst In].
    + intuition.
    + rewrite IH. intuition.
Qed.

Lemma keys_set_NoDup {V} (d : dict V) (k : string) (v : V) :
  NoDup (Dict.keys d) -> NoDup (Dict.keys (Dict.set d k v)).
Proof.
  unfold Dict.keys. induction d as [|[k0 v0] d IH]; cbn [Dict.set map fst];
    intros Hnd.
  - constructor; [intros [] | constructor].
  - inversion Hnd as [|? ? Hk0 Hd]; subst.
    destruct (String.eqb_spec k k0) as [-> | Hk]; cbn [map fst].
    + constructor; assumption.
    + constructor; [|apply IH; assumption].
      intros Hin. apply (keys_set_In d k k0 v) in Hin.
      destruct Hin as [-> | Hin]; [congruence | contradiction].
Qed.

Lemma dict_get_keys {V} (d : dict V) (k : string) :
  Dict.get d k = None <-> ~ In k (Dict.keys d).
Proof.
  unfold Dict.keys. induction d as [|[k0 v0] d IH]; cbn [Dict.get map fst In].
  - intuition.
  - destruct (String.eqb_spec k k0) as [-> | Hk].
    + split; [discriminate | intros H; exfalso; apply H; now left].
    + rewrite IH. intuition congruence.
Qed.

Lemma dict_In_get {V} (d : dict V) (k : string) (v : V) :
  NoDup (Dict.keys d) -> (In (k, v) d <-> Dict.get d k = Some v).
Proof.
  unfold Dict.keys. induction d as [|[k0 v0] d IH]; cbn [Dict.get map fst In];
    intros Hnd.
  - split; [intros [] | discriminate].
  - inversion Hnd as [|? ? Hk0 Hd]; subst.
    destruct (String.eqb_spec k k0) as [-> | Hk].
    + split.
      * intros [H | H]; [congruence|].
        exfalso. apply Hk0. apply (in_map fst) in H. exact H.
      * intros H. injection H as <-. now left.
    + rewrite <- (IH Hd). split; [intros [H | H]; [congruence | exact H] | now right].
Qed.

Lemma pop_head_other {V} (ks : list string) (k : string) (v : V) (d : dict V) :
  ~ In k ks ->
  fold_left (@Dict.pop V) ks ((k, v) :: d) = (k, v) :: fold_left (@Dict.pop V) ks d.
Proof.
  revert d. induction ks as [|k' ks IH]; intros d Hk; [reflexivity|].
  cbn [fold_left Dict.pop].
  destruct (String.eqb_spec k' k) as [-> | Hne].
  - exfalso. apply Hk. now left.
  - apply IH. intros Hin. apply Hk. now right.
Qed.

Lemma pop_all_filter {V} (bad : string * V -> bool) (d : dict V) :
  NoDup (Dict.keys d) ->
  fold_left (@Dict.pop V) (Dict.keys (filter bad d)) d
  = filter (fun e => negb (bad e)) d.
Proof.
  unfold Dict.keys. induction d as [|[k v] d IH]; cbn [filter map fst];
    intros Hnd; [reflexivity|].
  inversion Hnd as [|? ? Hk Hd]; subst.
  destruct (bad (k, v)); cbn [negb map fst fold_left Dict.pop].
  - rewrite String.eqb_refl. apply IH, Hd.
  - rewrite pop_head_other.
    + f_equal. apply IH, Hd.
    + intros Hin. apply Hk. apply in_map_iff in Hin.
      destruct Hin as ([k' v'] & Heq & Hin). cbn in Heq. subst k'.
      apply filter_In in Hin. destruct Hin as [Hin _].
      apply (in_map fst) in Hin. exact Hin.
Qed.

(** ** The site candidates of a user job *)

Lemma copyRecords_get (opSites : dict SiteReplicaRecord) (sites : list string) :
  forall acc idSites,
    NoDup (Dict.keys acc) ->
    copyRecords opSites sites acc = Done idSites ->
    NoDup (Dict.keys idSites)
    /\ forall s, Dict.get idSites s
                 = if Py.in_list s sites then Dict.get opSites s
                   else Dict.get acc s.
Proof.
  induction sites as [|site sites IH]; intros acc idSites Hnd; cbn [copyRecords].
  - intros H. injection H as <-. split; [assumption | reflexivity].
  - destruct (Dict.get opSites site) as [siteData|] eqn:Hget; [|discriminate].
    intros H. apply IH in H; [|apply keys_set_NoDup; assumption].
    destruct H as [Hnd' Hall]. split; [assumption|].
    intros s. rewrite Hall, dict_get_set.
    unfold Py.in_list. cbn [existsb].
    fold (Py.in_list s sites).
    destruct (Py.in_list s sites); [now rewrite orb_true_r|].
    rewrite orb_false_r.
    destruct (String.eqb_spec s site) as [-> | _]; [symmetry; exact Hget | reflexivity].
Qed.



(** ** The sites the resolver proposes *)

Lemma resolveStep_fold_keys (n : Z) (idSites : dict SiteReplicaRecord) :
  let '(diskSites, _, bestSites) :=
    fold_left (resolveStep n) idSites ([], 0, []) in
  incl diskSites (Dict.keys idSites) /\ incl bestSites (Dict.keys idSites)
  /\ (NoDup (Dict.keys idSites) -> NoDup diskSites /\ NoDup bestSites).
Proof.
  induction idSites as [|[site r] l IH] using rev_ind.
  - cbn. repeat split; try (intros x []); constructor.
  - rewrite fold_left_app.
    destruct (fold_left (resolveStep n) l ([], 0, []))
      as [[diskSites maxOnDisk] bestSites].
    destruct IH as (Hd & Hb & Hnd).
    unfold Dict.keys in *. rewrite map_app. cbn [map fst fold_left resolveStep].
    assert (Hext : forall s, incl s (map fst l) ->
                             incl (s ++ [site]) (map fst l ++ [site])).
    { intros s Hs x Hx. apply in_app_or in Hx. apply in_or_app.
      destruct Hx as [Hx | Hx]; [left; apply Hs, Hx | right; exact Hx]. }
    assert (Hweak : forall s, incl s (map fst l) -> incl s (map fst l ++ [site])).
    { intros s Hs x Hx. apply in_or_app. left. apply Hs, Hx. }
    assert (Hone : incl [site] (map fst l ++ [site])).
    { intros x Hx. apply in_or_app. right. exact Hx. }
    assert (Hnew : forall s, NoDup (map fst l ++ [site]) -> incl s (map fst l) ->
                             NoDup s -> NoDup (s ++ [site])).
    { intros s Hall Hs Hnds. apply NoDup_remove_2 in Hall as Hsite.
      rewrite app_nil_r in Hsite.
      apply (Permutation_NoDup (Permutation_cons_append s site)).
      constructor; [intros Hin; apply Hsite, Hs, Hin | exact Hnds]. }
    assert (Hl : NoDup (map fst l ++ [site]) -> NoDup (map fst l))
      by (intros H; apply NoDup_remove_1 in H; rewrite app_nil_r in H; exact H).
    destruct ((disk r >? 0) && (disk r =? n));
      destruct (disk r >? maxOnDisk); try destruct (disk r =? maxOnDisk);
      (split; [auto | split; [auto|]]);
      intros Hall; destruct (Hnd (Hl Hall)) as [H1 H2];
      split; auto; constructor; try (intros []); constructor.
Qed.

(** X17.  The staging resolver proposes sites of [idSites] only, whatever
    the records hold, and, the sites of [idSites] being distinct, each at
    most once; it never raises and writes nothing. *)
Theorem resolveStaging_proposes_candidates
  (inputData : list string) (idSites : dict SiteReplicaRecord) (st : State) :
  exists (stageRequired : bool) (sites : list string) (st' : State),
    resolveStaging inputData idSites st = (Done (stageRequired, sites), st')
    /\ trace st' = trace st /\ manifest st' = manifest st
    /\ incl sites (Dict.keys idSites)
    /\ (NoDup (Dict.keys idSites) -> NoDup sites).
Proof.
  pose proof (resolveStep_fold_keys (Py.len inputData) idSites) as Hfold.
  unfold resolveStaging.
  destruct (fold_left (resolveStep (Py.len inputData)) idSites ([], 0, []))
    as [[diskSites maxOnDisk] bestSites].
  destruct Hfold as (Hd & Hb & Hnd).
  destruct (isNil diskSites); cbn [negb].
  - destruct (Py.len bestSites >? 1).
    + unfold bind, shuffle, ret.
      pose proof (shuffleWith_perm (List.length bestSites) (draws st) bestSites)
        as Hperm.
      destruct (shuffleWith _ (draws st) bestSites) as [out ds].
      cbn [fst] in Hperm.
      exists true, out, (mkState (trace st) (manifest st) ds).
      repeat split.
      * intros x Hx. apply Hb. eapply Permutation_in; eassumption.
      * intros H. apply (Permutation_NoDup (Permutation_sym Hperm)).
        apply Hnd, H.
    + exists true, bestSites, st. repeat split; [exact Hb | apply Hnd].
  - exists false, diskSites, st. repeat split; [exact Hd | apply Hnd].
Qed.

(** ** The storage elements of the stage site *)

Lemma classifySEs_fold (env : Env) (vo : option string) (siteSEs : list string) :
  forall tapeSEs diskSEs,
    classifySEs env vo siteSEs tapeSEs diskSEs
    = if forallb (statusKnown env vo) siteSEs
      then Some ((tapeSEs ++ filter (tapeRead env vo) siteSEs)%list,
                 (diskSEs ++ filter (diskRead env vo) siteSEs)%list)
      else None.
Proof.
  induction siteSEs as [|se rest IH]; intros tapeSEs diskSEs;
    cbn [classifySEs forallb filter].
  - now rewrite !app_nil_r.
  - unfold statusKnown at 1, tapeRead at 1, diskRead at 1.
    destruct (getStatus env se vo) as [status|msg]; cbn [isOK andb];
      [|reflexivity].
    rewrite IH.
    destruct (forallb (statusKnown env vo) rest); [|reflexivity].
    destruct (Read status && TapeSE status), (Read status && DiskSE status);
      rewrite <- ?app_assoc; reflexivity.
Qed.

(** X18.  The stage request builder reads the status of every SE of the
    stage site before anything else: if one of them cannot be read, the
    build fails with "Cannot retrieve SE status", whatever the other SEs
    are; if all can be read and none is a readable tape SE, it fails with
    "No Local SEs for site <site>". *)
Theorem preRequestStaging_site_storage
  (env : Env) (manifest : Manifest) (stageSite : string) (opData : OpData)
  (siteSEs : list string) :
  getSEsForSite env stageSite = S_OK siteSEs ->
  let vo := VirtualOrganization manifest in
  let run := preRequestStaging env (S_OK manifest) stageSite opData in
  ((exists se, In se siteSEs /\ statusKnown env vo se = false) ->
   run = Done (S_ERROR "Cannot retrieve SE status"))
  /\ ((forall se, In se siteSEs -> statusKnown env vo se = true) ->
      (forall se, In se siteSEs -> tapeRead env vo se = false) ->
      run = Done (S_ERROR ("No Local SEs for site " ++ stageSite))).
Proof.
  intros Hses. cbv zeta. unfold preRequestStaging. rewrite Hses, classifySEs_fold.
  split.
  - intros (se & Hin & Hbad).
    replace (forallb (statusKnown env (VirtualOrganization manifest)) siteSEs)
      with false; [reflexivity|].
    symmetry. apply not_true_is_false. intros Hall.
    rewrite forallb_forall in Hall. rewrite (Hall se Hin) in Hbad. discriminate.
  - intros Hall Hnone.
    rewrite (proj2 (forallb_forall _ _) Hall).
    rewrite (filter_none _ _ Hnone). reflexivity.
Qed.

Lemma preRequestStaging_site_storage_witness :
  preRequestStaging envBrokenSE (S_OK manifestVO) "X" opDataXY
  = Done (S_ERROR "Cannot retrieve SE status").
Proof.
  apply (preRequestStaging_site_storage envBrokenSE manifestVO "X" opDataXY
           ["T1"; "D1"; "T2"] eq_refl).
  exists "T2". split; [right; right; left; reflexivity | reflexivity].
Defined.

(** ** What a stage request holds *)

Lemma scanReplicas_In (diskSEs tapeSEs replicas : list string) :
  forall seStage se,
    In se (scanReplicas diskSEs tapeSEs replicas seStage) ->
    In se seStage \/ (In se replicas /\ In se tapeSEs).
Proof.
  induction replicas as [|r rest IH]; intros seStage se; cbn [scanReplicas].
  - auto.
  - destruct (Py.in_list r diskSEs); [intros []|].
    destruct (Py.in_list r tapeSEs) eqn:Ht; cbn [negb]; intros H; apply IH in H.
    + destruct H as [H | [H1 H2]]; [|right; split; [now right | exact H2]].
      apply in_app_or in H. destruct H as [H | [<- | []]]; [now left|].
      right. split; [now left | apply in_list_In, Ht].
    + destruct H as [H | [H1 H2]]; [now left | right; split; [now right | exact H2]].
Qed.

Lemma scanReplicas_disk (diskSEs tapeSEs replicas : list string) :
  forall seStage,
    (exists se, In se replicas /\ In se diskSEs) ->
    scanReplicas diskSEs tapeSEs replicas seStage = [].
Proof.
  induction replicas as [|r rest IH]; intros seStage (se & Hin & Hd);
    cbn [scanReplicas]; [destruct Hin|].
  destruct (Py.in_list r diskSEs) eqn:Hr; [reflexivity|].
  destruct Hin as [-> | Hin].
  - apply in_list_In in Hd. congruence.
  - destruct (negb (Py.in_list r tapeSEs)); apply IH; exists se; auto.
Qed.

Lemma pairsSatisfy_set (Q : string -> string -> Prop) (d : StageRequest)
  (k : string) (v : list string) :
  pairsSatisfy Q d -> (forall lfn, In lfn v -> Q k lfn) ->
  pairsSatisfy Q (Dict.set d k v).
Proof.
  unfold pairsSatisfy. intros Hd Hv.
  induction d as [|[k' v'] d IH]; cbn [Dict.set]; intros se lfns lfn Hin Hl.
  - destruct Hin as [Heq | []]. injection Heq as <- <-. auto.
  - destruct (String.eqb k k').
    + destruct Hin as [Heq | Hin].
      * injection Heq as <- <-. auto.
      * apply (Hd se lfns lfn); [now right | exact Hl].
    + destruct Hin as [Heq | Hin].
      * apply (Hd se lfns lfn); [now left | exact Hl].
      * apply (IH (fun s l x H => Hd s l x (or_intror H)) se lfns lfn Hin Hl).
Qed.

Lemma pairsSatisfy_pop (Q : string -> string -> Prop) (d : StageRequest)
  (k : string) :
  pairsSatisfy Q d -> pairsSatisfy Q (Dict.pop d k).
Proof.
  unfold pairsSatisfy. intros Hd.
  induction d as [|[k' v'] d IH]; cbn [Dict.pop]; intros se lfns lfn Hin Hl;
    [destruct Hin|].
  destruct (String.eqb k k').
  - apply (Hd se lfns lfn); [now right | exact Hl].
  - destruct Hin as [Heq | Hin].
    + apply (Hd se lfns lfn); [now left | exact Hl].
    + apply (IH (fun s l x H => Hd s l x (or_intror H)) se lfns lfn Hin Hl).
Qed.

Lemma pairsSatisfy_get (Q : string -> string -> Prop) (d : StageRequest)
  (k : string) (v : list string) :
  pairsSatisfy Q d -> Dict.get d k = Some v -> forall lfn, In lfn v -> Q k lfn.
Proof.
  intros Hd Hget lfn Hl. apply dict_get_In in Hget. exact (Hd k v lfn Hget Hl).
Qed.

Lemma remove_first_In (x y : string) (l : list string) :
  In y (Py.remove_first x l) -> In y l.
Proof.
  induction l as [|a l IH]; cbn [Py.remove_first]; [auto|].
  destruct (String.eqb x a); [now right|].
  intros [<- | H]; [now left | right; auto].
Qed.

Lemma addToStage_pairs (Q : string -> string -> Prop) (lfn : string)
  (acc : StageRequest * list string) (seName : string) :
  Q seName lfn ->
  pairsSatisfy Q (fst acc) -> pairsSatisfy Q (fst (addToStage lfn acc seName)).
Proof.
  destruct acc as [stageLFNs lfnToStage]. cbn [fst]. intros HQ Hd.
  unfold addToStage, Dict.mem.
  destruct (Dict.get stageLFNs seName) as [lfns|] eqn:Hget; cbn [negb fst].
  - rewrite Hget. apply pairsSatisfy_set; [assumption|].
    intros x Hx. apply in_app_or in Hx. destruct Hx as [Hx | [<- | []]];
      [exact (pairsSatisfy_get _ _ _ _ Hd Hget x Hx) | exact HQ].
  - rewrite dict_get_set_same, dict_set_set.
    apply pairsSatisfy_set; [assumption|].
    intros x [<- | []]. exact HQ.
Qed.

Lemma fold_left_invariant {A B} (P : A -> Prop) (step : A -> B -> A) (l : list B) :
  (forall acc x, In x l -> P acc -> P (step acc x)) ->
  forall acc, P acc -> P (fold_left step l acc).
Proof.
  induction l as [|x l IH]; intros Hstep acc Hacc; cbn [fold_left]; [exact Hacc|].
  apply IH; [intros a y Hy; apply Hstep; now right|].
  apply Hstep; [now left | exact Hacc].
Qed.

Lemma traverseSEs_pairs (Q : string -> string -> Prop) (lfn : string)
  (items : list (Z * string)) :
  forall (found : bool) (stageLFNs result : StageRequest),
    pairsSatisfy Q stageLFNs ->
    traverseSEs lfn items found stageLFNs = Done result ->
    pairsSatisfy Q result.
Proof.
  induction items as [|[count seName] items IH]; intros found d result Hd;
    cbn [traverseSEs].
  - intros H. injection H as <-. assumption.
  - destruct (Dict.get d seName) as [lfns|] eqn:Hget; [|discriminate].
    assert (Hrem : pairsSatisfy Q (Dict.set d seName (Py.remove_first lfn lfns))).
    { apply pairsSatisfy_set; [assumption|]. intros x Hx.
      apply remove_first_In in Hx. exact (pairsSatisfy_get _ _ _ _ Hd Hget x Hx). }
    destruct (Py.in_list lfn lfns); [destruct found|];
      match goal with
      | |- context [if ?c then _ else _] => destruct c
      end; apply IH; auto using pairsSatisfy_pop.
Qed.

Lemma minimize_pairs (Q : string -> string -> Prop) (lfnToStage : list string) :
  forall (sortedSEs : list (Z * string)) (stageLFNs result : StageRequest),
    pairsSatisfy Q stageLFNs ->
    minimize lfnToStage sortedSEs stageLFNs = Done result ->
    pairsSatisfy Q result.
Proof.
  induction lfnToStage as [|lfn rest IH]; intros sortedSEs d result Hd;
    cbn [minimize].
  - intros H. injection H as <-. assumption.
  - destruct (traverseSEs lfn sortedSEs false d) as [d'|e] eqn:Ht; [|discriminate].
    apply IH. eapply traverseSEs_pairs; eassumption.
Qed.

(** X19.  Every stage request the builder returns is sound: each of its SEs
    has a list that is not empty, is a readable tape SE of the stage site
    and holds, by the replica catalog, a replica of every LFN of its list;
    and no LFN of the request has, in its catalog entry, a replica at a
    readable disk SE of the stage site. *)
Theorem preRequestStaging_sound
  (env : Env) (manifest : Manifest) (stageSite : string) (opData : OpData)
  (siteSEs : list string) (catalog : dict (list string)) (stageLFNs : StageRequest) :
  getSEsForSite env stageSite = S_OK siteSEs ->
  Successful opData = Some catalog ->
  preRequestStaging env (S_OK manifest) stageSite opData = Done (S_OK stageLFNs) ->
  listsNonEmpty stageLFNs
  /\ pairsSatisfy (stageable env (VirtualOrganization manifest) siteSEs catalog)
                  stageLFNs.
Proof.
  intros Hses Hcat Hrun.
  split; [exact (preRequestStaging_lists_nonEmpty _ _ _ _ _ Hrun)|].
  revert Hrun. unfold preRequestStaging. rewrite Hses, classifySEs_fold, Hcat.
  set (vo := VirtualOrganization manifest).
  destruct (forallb (statusKnown env vo) siteSEs); [|discriminate].
  cbn [app].
  set (tapeSEs := filter (tapeRead env vo) siteSEs).
  set (diskSEs := filter (diskRead env vo) siteSEs).
  destruct (isNil tapeSEs); [discriminate|].
  assert (Hcollect : pairsSatisfy (stageable env vo siteSEs catalog)
            (fst (fold_left (collectStep diskSEs tapeSEs) catalog ([], [])))).
  { apply (fold_left_invariant
             (fun acc => pairsSatisfy (stageable env vo siteSEs catalog) (fst acc))).
    - intros acc [lfn replicas] Hentry Hacc. unfold collectStep.
      apply (fold_left_invariant
               (fun acc => pairsSatisfy (stageable env vo siteSEs catalog) (fst acc)));
        [|exact Hacc].
      intros acc' se Hse Hacc'. apply addToStage_pairs; [|exact Hacc'].
      pose proof Hse as Hscan. apply scanReplicas_In in Hscan.
      destruct Hscan as [[] | [Hrep Htape]].
      unfold tapeSEs in Htape. apply filter_In in Htape.
      destruct Htape as [Hsite Htape].
      split; [exact Hsite|]. split; [exact Htape|].
      exists replicas. split; [exact Hentry|]. split; [exact Hrep|].
      intros se' Hse' Hsite'.
      destruct (diskRead env vo se') eqn:Hdisk; [|reflexivity].
      exfalso.
      rewrite (scanReplicas_disk diskSEs tapeSEs replicas []) in Hse;
        [destruct Hse|].
      exists se'. split; [exact Hse'|]. unfold diskSEs. apply filter_In.
      split; assumption.
    - intros se lfns lfn []. }
  destruct (fold_left (collectStep diskSEs tapeSEs) catalog ([], []))
    as [collected lfnToStage].
  cbn [fst] in Hcollect.
  destruct (isNil collected); [discriminate|].
  destruct (minimize lfnToStage _ collected) as [result|e] eqn:Hmin; [|discriminate].
  intros H. injection H as <-.
  eapply minimize_pairs; eassumption.
Qed.

Lemma preRequestStaging_sound_witness :
  preRequestStaging envTapeAndDisk (S_OK manifestVO) "X" opDataTapeAndDisk
  = Done (S_OK [("T1", ["A"])])
  /\ pairsSatisfy (stageable envTapeAndDisk (Some "vo") ["T1"; "D1"]
                             [("A", ["T1"; "T9"]); ("B", ["T1"; "D1"])])
                  [("T1", ["A"])].
Proof.
  assert (Hrun : preRequestStaging envTapeAndDisk (S_OK manifestVO) "X"
                   opDataTapeAndDisk = Done (S_OK [("T1", ["A"])]))
    by reflexivity.
  split; [exact Hrun|].
  exact (proj2 (preRequestStaging_sound envTapeAndDisk manifestVO "X"
                  opDataTapeAndDisk ["T1"; "D1"] _ _ eq_refl eq_refl Hrun)).
Defined.

(** ** Nothing to stage is lost *)

Lemma scanReplicas_complete (diskSEs tapeSEs replicas : list string) :
  (forall r, In r replicas -> ~ In r diskSEs) ->
  forall seStage se,
    In se seStage \/ (In se replicas /\ In se tapeSEs) ->
    In se (scanReplicas diskSEs tapeSEs replicas seStage).
Proof.
  induction replicas as [|r rest IH]; intros Hno seStage se H;
    cbn [scanReplicas].
  - destruct H as [H | [[] _]]. exact H.
  - assert (Hr : Py.in_list r diskSEs = false)
      by (apply in_list_false, Hno; now left).
    rewrite Hr.
    assert (Hrest : forall x, In x rest -> ~ In x diskSEs)
      by (intros x Hx; apply Hno; now right).
    destruct (Py.in_list r tapeSEs) eqn:Ht; cbn [negb]; apply IH; try exact Hrest.
    + destruct H as [H | [[<- | H] H']].
      * left. apply in_or_app. now left.
      * left. apply in_or_app. right. now left.
      * right. split; assumption.
    + destruct H as [H | [[<- | H] H']].
      * now left.
      * apply in_list_In in H'. congruence.
      * right. split; assumption.
Qed.

Lemma extends_refl (d : StageRequest) : extends d d.
Proof. intros se lfn H. exact H. Qed.

Lemma extends_trans (a b c : StageRequest) :
  extends a b -> extends b c -> extends a c.
Proof. intros Hab Hbc se lfn H. apply Hbc, Hab, H. Qed.

Lemma addToStage_holds (lfn : string) (acc : StageRequest * list string)
  (seName : string) :
  extends (fst acc) (fst (addToStage lfn acc seName))
  /\ holds (fst (addToStage lfn acc seName)) seName lfn.
Proof.
  destruct acc as [stageLFNs lfnToStage]. cbn [fst].
  unfold addToStage, Dict.mem.
  destruct (Dict.get stageLFNs seName) as [lfns|] eqn:Hget; cbn [negb fst].
  - rewrite Hget. split.
    + intros se x (l & Hl & Hx). unfold holds. rewrite dict_get_set.
      destruct (String.eqb_spec se seName) as [-> | _].
      * exists (lfns ++ [lfn])%list. split; [reflexivity|].
        apply in_or_app. left. congruence.
      * exists l. split; assumption.
    + exists (lfns ++ [lfn])%list. split; [apply dict_get_set_same|].
      apply in_or_app. right. now left.
  - rewrite dict_get_set_same, dict_set_set. split.
    + intros se x (l & Hl & Hx). unfold holds. rewrite dict_get_set.
      destruct (String.eqb_spec se seName) as [-> | _]; [congruence|].
      exists l. split; assumption.
    + exists [lfn]. split; [apply dict_get_set_same | now left].
Qed.

Lemma fold_left_covers {A B} (step : A -> B -> A) (ext : A -> A -> Prop)
  (R : B -> A -> Prop) :
  (forall a, ext a a) ->
  (forall a b c, ext a b -> ext b c -> ext a c) ->
  (forall acc x, ext acc (step acc x) /\ R x (step acc x)) ->
  (forall x a a', R x a -> ext a a' -> R x a') ->
  forall l acc,
    ext acc (fold_left step l acc) /\ forall x, In x l -> R x (fold_left step l acc).
Proof.
  intros Hrefl Htrans Hstep Hmono.
  induction l as [|x l IH]; intros acc; cbn [fold_left].
  - split; [apply Hrefl | intros x []].
  - destruct (IH (step acc x)) as [Hext Hall]. destruct (Hstep acc x) as [He Hr].
    split; [eapply Htrans; eassumption|].
    intros y [<- | Hy]; [eapply Hmono; eassumption | apply Hall, Hy].
Qed.

Lemma collect_covers (diskSEs tapeSEs : list string) (catalog : dict (list string)) :
  forall lfn replicas se,
    In (lfn, replicas) catalog ->
    In se (scanReplicas diskSEs tapeSEs replicas []) ->
    holds (fst (fold_left (collectStep diskSEs tapeSEs) catalog ([], []))) se lfn.
Proof.
  intros lfn replicas se Hentry Hse.
  destruct (fold_left_covers (collectStep diskSEs tapeSEs)
              (fun a a' => extends (fst a) (fst a'))
              (fun entry a =>
                 forall se, In se (scanReplicas diskSEs tapeSEs (snd entry) []) ->
                            holds (fst a) se (fst entry)))
    with (l := catalog) (acc := (@nil (string * list string), @nil string))
    as [_ Hall].
  - intros a. apply extends_refl.
  - intros a b c. apply extends_trans.
  - intros acc [lfn' replicas']. unfold collectStep. cbn [fst snd].
    apply (fold_left_covers (addToStage lfn')
             (fun a a' => extends (fst a) (fst a'))
             (fun se a => holds (fst a) se lfn')).
    + intros a. apply extends_refl.
    + intros a b c. apply extends_trans.
    + intros a x. apply addToStage_holds.
    + intros x a a' Hx Hext. apply Hext, Hx.
  - intros entry a a' Hr Hext se' Hse'. apply Hext, Hr, Hse'.
  - exact (Hall (lfn, replicas) Hentry se Hse).
Qed.

Lemma collect_keys_NoDup (diskSEs tapeSEs : list string)
  (catalog : dict (list string)) :
  NoDup (Dict.keys (fst (fold_left (collectStep diskSEs tapeSEs) catalog ([], [])))).
Proof.
  apply (fold_left_invariant (fun acc => NoDup (Dict.keys (fst acc)))).
  - intros acc [lfn replicas] _ Hacc. unfold collectStep.
    apply (fold_left_invariant (fun acc => NoDup (Dict.keys (fst acc))));
      [|exact Hacc].
    intros [d l] se _ Hd. cbn [fst] in *. unfold addToStage.
    destruct (negb (Dict.mem se d));
      (destruct (Dict.get _ se); cbn [fst]; repeat apply keys_set_NoDup; exact Hd).
  - constructor.
Qed.

Lemma dict_get_pop_other {V} (d : dict V) (k k' : string) :
  k' <> k -> Dict.get (Dict.pop d k) k' = Dict.get d k'.
Proof.
  intros Hne. induction d as [|[k0 v0] d IH]; cbn [Dict.pop Dict.get]; [reflexivity|].
  destruct (String.eqb_spec k k0) as [-> | Hk]; cbn [Dict.get].
  - destruct (String.eqb_spec k' k0); [congruence | reflexivity].
  - rewrite IH. reflexivity.
Qed.

Lemma remove_first_other (x y : string) (l : list string) :
  y <> x -> In y l -> In y (Py.remove_first x l).
Proof.
  intros Hne. induction l as [|a l IH]; cbn [Py.remove_first]; [auto|].
  destruct (String.eqb_spec x a) as [-> | Ha].
  - intros [-> | H]; [congruence | exact H].
  - intros [<- | H]; [now left | right; auto].
Qed.

Lemma len_zero {A} (l : list A) : (Py.len l =? 0) = isNil l.
Proof. destruct l; reflexivity. Qed.

(** One step of the inner loop on the SE [seName], whose list is [lfns]:
    what the dictionary holds at the other SEs stays, and so does every LFN
    but [lfn] at [seName]. *)
Lemma traverse_step_holds (lfn seName : string) (remove : bool)
  (d : StageRequest) (lfns : list string) :
  Dict.get d seName = Some lfns ->
  let lfns' := if remove then Py.remove_first lfn lfns else lfns in
  let d1 := if remove then Dict.set d seName lfns' else d in
  let d2 := if Py.len lfns' =? 0 then Dict.pop d1 seName else d1 in
  forall se x, holds d se x -> (se <> seName \/ x <> lfn \/ remove = false) ->
               holds d2 se x.
Proof.
  intros Hget lfns' d1 d2 se x (l & Hl & Hx) Hcase.
  assert (H1 : exists l1, Dict.get d1 se = Some l1 /\ In x l1).
  { subst d1 lfns'. destruct remove; [|exists l; split; assumption].
    rewrite dict_get_set. destruct (String.eqb_spec se seName) as [-> | _].
    - exists (Py.remove_first lfn lfns). split; [reflexivity|].
      rewrite Hget in Hl. injection Hl as <-.
      apply remove_first_other; [|exact Hx].
      destruct Hcase as [H | [H | H]]; congruence.
    - exists l. split; assumption. }
  destruct H1 as (l1 & Hl1 & Hx1). subst d2. rewrite len_zero.
  destruct (isNil lfns') eqn:Hnil; [|exists l1; split; assumption].
  apply isNil_true in Hnil.
  destruct (String.eqb_spec se seName) as [-> | Hne].
  - exfalso. subst d1. destruct remove.
    + rewrite dict_get_set_same in Hl1. injection Hl1 as <-.
      fold lfns' in Hx1. rewrite Hnil in Hx1. destruct Hx1.
    + subst lfns'. rewrite Hget in Hl1. injection Hl1 as <-.
      rewrite Hnil in Hx1. destruct Hx1.
  - exists l1. split; [|exact Hx1]. rewrite dict_get_pop_other; assumption.
Qed.

Lemma traverseSEs_cons (lfn : string) (count : Z) (seName : string)
  (rest : list (Z * string)) (found : bool) (d : StageRequest) :
  traverseSEs lfn ((count, seName) :: rest) found d
  = match Dict.get d seName with
    | None => Raised (KeyError seName)
    | Some lfns =>
        let remove := Py.in_list lfn lfns && found in
        let lfns' := if remove then Py.remove_first lfn lfns else lfns in
        let d1 := if remove then Dict.set d seName lfns' else d in
        let d2 := if Py.len lfns' =? 0 then Dict.pop d1 seName else d1 in
        traverseSEs lfn rest (found || Py.in_list lfn lfns) d2
    end.
Proof.
  cbn [traverseSEs]. destruct (Dict.get d seName) as [lfns|]; [|reflexivity].
  destruct (Py.in_list lfn lfns), found; reflexivity.
Qed.

Lemma traverseSEs_keeps (lfn : string) (items : list (Z * string)) :
  forall (found : bool) (d result : StageRequest),
    NoDup (map snd items) ->
    traverseSEs lfn items found d = Done result ->
    (forall se x, x <> lfn -> holds d se x -> holds result se x)
    /\ ((exists se, holds d se lfn /\ (found = true -> ~ In se (map snd items))) ->
        exists se, holds result se lfn).
Proof.
  induction items as [|[count seName] rest IH]; intros found d result Hnd.
  - cbn [traverseSEs]. intros H. injection H as <-. split; [auto|].
    intros (se & Hse & _). exists se. exact Hse.
  - rewrite traverseSEs_cons.
    destruct (Dict.get d seName) as [lfns|] eqn:Hget; [|discriminate].
    cbv zeta. intros Hrun.
    inversion Hnd as [|? ? Hfresh Hnd']; subst.
    destruct (IH _ _ _ Hnd' Hrun) as [IH1 IH2].
    pose proof (traverse_step_holds lfn seName
                  (Py.in_list lfn lfns && found) d lfns Hget) as Hstep.
    cbv zeta in Hstep.
    split.
    + intros se x Hx Hh. apply IH1; [exact Hx|].
      apply Hstep; [exact Hh | right; left; exact Hx].
    + intros (se & Hse & Hout). apply IH2.
      destruct found.
      * exists se. split.
        -- apply Hstep; [exact Hse|]. left. intros ->.
           apply (Hout eq_refl). now left.
        -- intros _ Hin. apply (Hout eq_refl). now right.
      * rewrite andb_false_r in *. cbn [orb].
        destruct (Py.in_list lfn lfns) eqn:Hin.
        -- exists seName. split.
           ++ apply Hstep; [|right; right; reflexivity].
              exists lfns. split; [exact Hget | apply in_list_In, Hin].
           ++ intros _. exact Hfresh.
        -- exists se. split; [|discriminate].
           apply Hstep; [exact Hse | right; right; reflexivity].
Qed.

Lemma insertSorted_perm (x : Z * string) (l : list (Z * string)) :
  Permutation (insertSorted x l) (x :: l).
Proof.
  induction l as [|y l IH]; cbn [insertSorted]; [apply Permutation_refl|].
  destruct (tupleLeb x y); [apply Permutation_refl|].
  rewrite IH. apply perm_swap.
Qed.

Lemma sorted_perm (l : list (Z * string)) : Permutation (sorted l) l.
Proof.
  unfold sorted. induction l as [|x l IH]; cbn [fold_right];
    [apply Permutation_refl|].
  rewrite insertSorted_perm. now constructor.
Qed.

Lemma sortedSEs_NoDup (d : StageRequest) :
  NoDup (Dict.keys d) ->
  NoDup (map snd (rev (sorted (map (fun e => (Py.len (snd e), fst e)) d)))).
Proof.
  intros Hnd. rewrite map_rev. apply NoDup_rev.
  apply (Permutation_NoDup
           (l := map snd (map (fun e => (Py.len (snd e), fst e)) d))).
  - apply Permutation_map, Permutation_sym, sorted_perm.
  - rewrite map_map. exact Hnd.
Qed.

(** X20.  Nothing that has to be staged is lost: an LFN of the catalog with
    a replica at a readable tape SE of the stage site and none at a readable
    disk SE of the site is in the list of some SE of every stage request the
    builder returns. *)
Theorem preRequestStaging_complete
  (env : Env) (manifest : Manifest) (stageSite : string) (opData : OpData)
  (siteSEs : list string) (catalog : dict (list string)) (stageLFNs : StageRequest)
  (lfn se : string) (replicas : list string) :
  let vo := VirtualOrganization manifest in
  getSEsForSite env stageSite = S_OK siteSEs ->
  Successful opData = Some catalog ->
  preRequestStaging env (S_OK manifest) stageSite opData = Done (S_OK stageLFNs) ->
  In (lfn, replicas) catalog ->
  In se replicas -> In se siteSEs -> tapeRead env vo se = true ->
  (forall se', In se' replicas -> In se' siteSEs -> diskRead env vo se' = false) ->
  exists seName lfns, In (seName, lfns) stageLFNs /\ In lfn lfns.
Proof.
  intros vo Hses Hcat Hrun Hentry Hrep Hsite Htape Hnodisk.
  revert Hrun. unfold preRequestStaging. rewrite Hses, classifySEs_fold, Hcat.
  fold vo.
  destruct (forallb (statusKnown env vo) siteSEs); [|discriminate].
  cbn [app].
  set (tapeSEs := filter (tapeRead env vo) siteSEs).
  set (diskSEs := filter (diskRead env vo) siteSEs).
  destruct (isNil tapeSEs); [discriminate|].
  assert (Hscan : In se (scanReplicas diskSEs tapeSEs replicas [])).
  { apply scanReplicas_complete.
    - intros r Hr Hd. unfold diskSEs in Hd. apply filter_In in Hd.
      destruct Hd as [Hrs Hrd]. rewrite (Hnodisk r Hr Hrs) in Hrd. discriminate.
    - right. split; [exact Hrep|]. unfold tapeSEs. apply filter_In.
      split; assumption. }
  pose proof (collect_covers diskSEs tapeSEs catalog lfn replicas se Hentry Hscan)
    as Hcov.
  pose proof (collect_keys_NoDup diskSEs tapeSEs catalog) as Hnd.
  destruct (fold_left (collectStep diskSEs tapeSEs) catalog ([], []))
    as [collected lfnToStage].
  cbn [fst] in Hcov, Hnd.
  destruct (isNil collected); [discriminate|].
  assert (Hfinal : forall result,
             minimize lfnToStage
               (rev (sorted (map (fun e => (Py.len (snd e), fst e)) collected)))
               collected = Done result ->
             exists seName, holds result seName lfn).
  { intros result Hmin. destruct lfnToStage as [|lfn0 rest].
    - cbn in Hmin. injection Hmin as <-. exists se. exact Hcov.
    - rewrite minimize_first_only in Hmin.
      destruct (traverseSEs_keeps lfn0 _ false collected result
                  (sortedSEs_NoDup collected Hnd) Hmin) as [Hother Hfirst].
      destruct (string_dec lfn lfn0) as [-> | Hne].
      + apply Hfirst. exists se. split; [exact Hcov | discriminate].
      + exists se. apply Hother; assumption. }
  destruct (minimize lfnToStage _ collected) as [result|e]; [|discriminate].
  intros H. injection H as <-.
  destruct (Hfinal result eq_refl) as (seName & lfns & Hget & Hin).
  exists seName, lfns. split; [apply dict_get_In, Hget | exact Hin].
Qed.

Lemma preRequestStaging_complete_witness :
  exists seName lfns,
    In (seName, lfns) [("T1", ["B"]); ("T2", ["A"; "B"])] /\ In "A" lfns.
Proof.
  apply (preRequestStaging_complete envUserJob manifestVO "X" opDataXY
           ["T1"; "T2"] catalogAB [("T1", ["B"]); ("T2", ["A"; "B"])]
           "A" "T1" ["T1"; "T2"]);
    try reflexivity; simpl; auto.
Defined.

(** ** The records the shared-SE update leaves alone *)

Lemma promoteSE_out_of_reach (lfnData : dict (list string))
  (closeSEs diskSEs : list string) (stagedLFNs : StageRequest) :
  (forall seName, In seName (Dict.keys stagedLFNs) -> ~ In seName closeSEs) ->
  forall siteData,
    fold_left (promoteSE lfnData closeSEs diskSEs) stagedLFNs siteData = siteData.
Proof.
  induction stagedLFNs as [|[seName lfns] rest IH]; intros Hout siteData;
    cbn [fold_left]; [reflexivity|].
  unfold promoteSE at 2.
  assert (Hse : Py.in_list seName closeSEs = false)
    by (apply in_list_false, Hout; now left).
  rewrite Hse. cbn [negb]. apply IH. intros se Hin. apply Hout. now right.
Qed.

Lemma updateSites_untouched env vo stageSite stagedLFNs lfnData
  (siteCandidates : dict SiteReplicaRecord) :
  forall seStatus,
    Forall2 (untouchedEntry env stageSite stagedLFNs) siteCandidates
      (fst (updateSites env vo stageSite stagedLFNs lfnData siteCandidates seStatus)).
Proof.
  assert (Hrefl : forall l : dict SiteReplicaRecord,
             Forall2 (untouchedEntry env stageSite stagedLFNs) l l)
    by (induction l; constructor; [split; reflexivity | assumption]).
  induction siteCandidates as [|[siteName siteData] rest IH]; intros seStatus.
  - constructor.
  - cbn [updateSites].
    assert (Hcont : forall cache r,
              (outOfReach env stageSite stagedLFNs siteName -> r = siteData) ->
              Forall2 (untouchedEntry env stageSite stagedLFNs)
                ((siteName, siteData) :: rest)
                (fst (let '(rest', out) :=
                        updateSites env vo stageSite stagedLFNs lfnData rest cache in
                      ((siteName, r) :: rest', out)))).
    { intros cache r Hr. specialize (IH cache).
      destruct (updateSites env vo stageSite stagedLFNs lfnData rest cache)
        as [rest' out].
      constructor; [split; [reflexivity | exact Hr] | exact IH]. }
    destruct (String.eqb_spec siteName stageSite) as [Heq | Hne].
    + apply Hcont. reflexivity.
    + destruct (getSEsForSite env siteName) as [closeSEs|msg] eqn:Hses.
      * destruct (closeDiskSEs env vo closeSEs seStatus []) as [diskSEs cache].
        destruct lfnData as [lfnData|]; [|apply Hrefl].
        apply Hcont. intros [Hs | Hout]; [contradiction|].
        rewrite Hses in Hout. apply promoteSE_out_of_reach, Hout.
      * apply Hcont. reflexivity.
Qed.

Lemma untouched_get env stageSite stagedLFNs
  (old new : dict SiteReplicaRecord) :
  Forall2 (untouchedEntry env stageSite stagedLFNs) old new ->
  forall site, outOfReach env stageSite stagedLFNs site ->
               Dict.get new site = Dict.get old site.
Proof.
  induction 1 as [|[k v] [k' v'] old new [Hk Hv] _ IH]; intros site Hsite;
    [reflexivity|].
  cbn [fst snd] in Hk, Hv. subst k'. cbn [Dict.get].
  destruct (String.eqb_spec site k) as [-> | _]; [|apply IH, Hsite].
  rewrite (Hv Hsite). reflexivity.
Qed.

(** X21.  The shared-SE update keeps the sites of the optimizer record, in
    their order, and leaves alone the record of the stage site, the record
    of every site whose SEs cannot be told and the record of every site none
    of whose SEs is an SE of the stage request; when the manifest cannot be
    read it changes nothing and answers with the failure. *)
Theorem updateSharedSESites_untouched
  (env : Env) (manifestReply : Result Manifest) (stageSite : string)
  (stagedLFNs : StageRequest) (opData : OpData)
  (siteCandidates : dict SiteReplicaRecord) :
  SiteCandidates opData = Some siteCandidates ->
  let run := updateSharedSESites env manifestReply stageSite stagedLFNs opData in
  (exists updated,
     SiteCandidates (fst run) = Some updated
     /\ Forall2 (untouchedEntry env stageSite stagedLFNs) siteCandidates updated
     /\ forall site, outOfReach env stageSite stagedLFNs site ->
                     Dict.get updated site = Dict.get siteCandidates site)
  /\ Successful (fst run) = Successful opData
  /\ (forall msg, manifestReply = S_ERROR msg ->
                  run = (opData, Done (S_ERROR msg))).
Proof.
  intros Hsc. cbv zeta. unfold updateSharedSESites. rewrite Hsc.
  destruct manifestReply as [manifest|msg].
  - pose proof (updateSites_untouched env (VirtualOrganization manifest) stageSite
                  stagedLFNs (Successful opData) siteCandidates []) as Hu.
    destruct (updateSites env (VirtualOrganization manifest) stageSite
                stagedLFNs (Successful opData) siteCandidates [])
      as [updated out].
    cbn [fst] in *. split; [|split; [reflexivity | discriminate]].
    exists updated. split; [reflexivity|]. split; [exact Hu|].
    apply (untouched_get _ _ _ _ _ Hu).
  - cbn [fst]. split; [|split; [reflexivity|]].
    + exists siteCandidates. split; [exact Hsc|]. split; [|reflexivity].
      clear Hsc. induction siteCandidates; constructor;
        [split; reflexivity | assumption].
    + intros msg' H. injection H as <-. reflexivity.
Qed.

Lemma updateSharedSESites_untouched_witness :
  fst (updateSharedSESites envThreeSites (S_OK manifestVO) "X" [("T1", ["L"])]
         opDataThreeSites)
  = mkOpData (Some [("X", mkRec 1 0); ("Y", mkRec 1 0); ("Z", mkRec 0 1)])
             (Some [("L", ["T1"; "T3"])])
  /\ exists updated,
       SiteCandidates
         (fst (updateSharedSESites envThreeSites (S_OK manifestVO) "X"
                 [("T1", ["L"])] opDataThreeSites)) = Some updated
       /\ Forall2 (untouchedEntry envThreeSites "X" [("T1", ["L"])])
                  [("X", mkRec 1 0); ("Y", mkRec 0 1); ("Z", mkRec 0 1)] updated.
Proof.
  split; [reflexivity|].
  destruct (updateSharedSESites_untouched envThreeSites (S_OK manifestVO) "X"
              [("T1", ["L"])] opDataThreeSites _ eq_refl)
    as ((updated & Hup & Hu & _) & _).
  exists updated. split; assumption.
Defined.

(** ** Storing the optimizer record *)




(** ** A site with all the input on disk *)

Lemma writesOnly_bind_with {A B} (P : Event -> bool) (V : A -> Prop)
  (c : M A) (k : A -> M B) :
  writesOnly P c ->
  (forall st a, fst (c st) = Done a -> V a) ->
  (forall a, V a -> writesOnly P (k a)) ->
  writesOnly P (bind c k).
Proof.
  intros Hc Hv Hk st. unfold bind. destruct (Hc st) as (new & Htr & Hnew).
  specialize (Hv st).
  destruct (c st) as [[a|e] st1]; cbn [fst snd] in *.
  - destruct (Hk a (Hv a eq_refl) st1) as (new' & Htr' & Hnew').
    exists (new ++ new')%list. split.
    + rewrite Htr', Htr. symmetry. apply app_assoc.
    + apply Forall_app. split; assumption.
  - exists new. split; assumption.
Qed.

Lemma resolveStaging_disk_site (inputData : list string)
  (idSites : dict SiteReplicaRecord) (st : State) :
  inputData <> [] ->
  allOnDisk (Py.len inputData) idSites <> [] ->
  resolveStaging inputData idSites st
  = (Done (false, allOnDisk (Py.len inputData) idSites), st).
Proof.
  intros Hdata Hdisk.
  assert (Hn : 0 < Py.len inputData)
    by (destruct inputData; [congruence | unfold Py.len; simpl; lia]).
  pose proof (resolveStep_fold_disk (Py.len inputData) idSites ([], 0, []) Hn)
    as Hfold.
  unfold resolveStaging.
  destruct (fold_left (resolveStep (Py.len inputData)) idSites ([], 0, []))
    as [[diskSites maxOnDisk] bestSites].
  cbn [fst app] in Hfold. subst diskSites.
  apply isNil_false in Hdisk. rewrite Hdisk. reflexivity.
Qed.

Lemma completeSites_In (opSites : dict SiteReplicaRecord) (sites : list string)
  (idSites : dict SiteReplicaRecord) (numData : Z) (site : string)
  (r : SiteReplicaRecord) :
  copyRecords opSites sites [] = Done idSites ->
  In site sites -> Dict.get opSites site = Some r -> disk r + tape r = numData ->
  In (site, r) (completeSites numData idSites).
Proof.
  intros Hcopy Hsite Hget Hsum.
  destruct (copyRecords_get opSites sites [] idSites (NoDup_nil _) Hcopy)
    as [Hnd Hall].
  unfold completeSites, errorSitesOf. rewrite (pop_all_filter _ idSites Hnd).
  apply filter_In. split.
  - apply (dict_In_get idSites site r Hnd). rewrite Hall.
    apply in_list_In in Hsite. rewrite Hsite. exact Hget.
  - cbn [snd]. rewrite negb_involutive. apply Z.eqb_eq. symmetry. exact Hsum.
Qed.

(** X23.  A user job is not staged when a site of the intersection holds
    all its input files on disk: if the optimizer record gives such a site
    as many disk replicas as the job has input files, and no tape replica,
    the call writes no job status, sends no stage request, sets no job
    parameter and stores no optimizer record. *)
Theorem userJob_disk_site_no_staging
  (env : Env) (inputData userSites banned wmsBanned : list string) (st : State)
  (opData : OpData) (opSites : dict SiteReplicaRecord) (site : string)
  (r : SiteReplicaRecord) :
  inputData <> [] ->
  retrieveOptimizerParam env (ex_getOption (InputDataAgent (config env)) "InputData")
  = S_OK opData ->
  SiteCandidates opData = Some opSites ->
  In site (intersectSites opSites userSites banned) ->
  Dict.get opSites site = Some r ->
  disk r = Py.len inputData -> tape r = 0 ->
  forall e,
    In e (eventsSince st
            (snd (userJob env inputData userSites banned wmsBanned st))) ->
    isStagingWrite e = false.
Proof.
  intros Hdata Hop Hsc Hsite Hget Hdisk Htape e He.
  assert (Hw : writesOnly (fun e => negb (isStagingWrite e))
                 (userJob env inputData userSites banned wmsBanned)).
  { unfold userJob. rewrite Hop, Hsc.
    destruct (isNil (intersectSites opSites userSites banned)); [writes|].
    apply (writesOnly_bind_with _
             (fun idSites =>
                copyRecords opSites (intersectSites opSites userSites banned) []
                = Done idSites)).
    - apply writesOnly_pure. reflexivity.
    - intros s a H. exact H.
    - intros idSites Hcopy. cbv zeta.
      fold (completeSites (Py.len inputData) idSites).
      assert (Hin : In (site, r) (completeSites (Py.len inputData) idSites))
        by (apply (completeSites_In opSites _ idSites _ site r Hcopy Hsite Hget);
            lia).
      assert (Hall : allOnDisk (Py.len inputData)
                       (completeSites (Py.len inputData) idSites) <> []).
      { unfold allOnDisk, Dict.keys. intros Hnil.
        assert (Hmem : In site
                  (map fst (filter (fun e => disk (snd e) =? Py.len inputData)
                                   (completeSites (Py.len inputData) idSites)))).
        { apply in_map_iff. exists (site, r). split; [reflexivity|].
          apply filter_In. split; [exact Hin|]. cbn [snd].
          apply Z.eqb_eq, Hdisk. }
        rewrite Hnil in Hmem. destruct Hmem. }
      destruct (isNil (completeSites (Py.len inputData) idSites)); [writes|].
      apply (writesOnly_bind_with _ (fun res => fst res = false)).
      + apply writesOnly_resolveStaging.
      + intros s a. rewrite (resolveStaging_disk_site _ _ s Hdata Hall).
        cbn [fst]. intros H. injection H as <-. reflexivity.
      + intros [stageRequired siteCandidates] Hreq. cbn [fst] in Hreq.
        subst stageRequired. writes.
        * apply writesOnly_holdJob. exact not_staging_hold.
        * apply writesOnly_sendToTQ. exact not_staging_forward. }
  apply negb_true_iff. exact (writesOnly_events _ _ st Hw e He).
Qed.

Lemma userJob_disk_site_no_staging_witness :
  optimizeJob envOnDisk (initialState ["X"; "Y"])
  = (Done (S_OK tt),
     mkState [SetAttribute "Site" "X"; SetNextOptimizer]
             (mkManifest [("Site", ["X"; "Y"])] (Some "vo")
                         [("JobRequirements", [("Sites", "X")])])
             [])
  /\ forall e,
       In e (eventsSince (initialState ["X"; "Y"])
               (snd (userJob envOnDisk ["A"; "B"] ["X"; "Y"] [] []
                       (initialState ["X"; "Y"])))) ->
       isStagingWrite e = false.
Proof.
  split; [reflexivity|].
  apply (userJob_disk_site_no_staging envOnDisk ["A"; "B"] ["X"; "Y"] [] []
           (initialState ["X"; "Y"]) opDataOnDisk
           [("X", mkRec 2 0); ("Y", mkRec 0 2)] "X" (mkRec 2 0));
    try reflexivity; try discriminate.
  left. reflexivity.
Defined.

(** ** Staged or forwarded, never both *)

Lemma either_of_noStaging {A} (c : M A) :
  writesOnly (fun e => negb (isStagingWrite e)) c -> writesEither c.
Proof.
  intros Hc st. destruct (Hc st) as (new & Htr & Hnew). exists new.
  split; [exact Htr|]. left. eapply Forall_impl; [|exact Hnew].
  intros e He. apply negb_true_iff, He.
Qed.

Lemma either_of_noForward {A} (c : M A) :
  writesOnly (fun e => negb (isForward e)) c -> writesEither c.
Proof.
  intros Hc st. destruct (Hc st) as (new & Htr & Hnew). exists new.
  split; [exact Htr|]. right. eapply Forall_impl; [|exact Hnew].
  intros e He. apply negb_true_iff, He.
Qed.

Lemma either_bind_pure {A B} (c : M A) (k : A -> M B) :
  (forall st, trace (snd (c st)) = trace st) ->
  (forall a, writesEither (k a)) -> writesEither (bind c k).
Proof.
  intros Hc Hk st. unfold bind. specialize (Hc st).
  destruct (c st) as [[a|e] st1]; cbn [snd] in *.
  - destruct (Hk a st1) as (new & Htr & Hnew). exists new.
    split; [congruence | exact Hnew].
  - exists []. split; [rewrite Hc; symmetry; apply app_nil_r | left; constructor].
Qed.

Lemma getSitesRequired_trace (env : Env) (st : State) :
  trace (snd (getSitesRequired env st)) = trace st.
Proof.
  unfold getSitesRequired, bind, readManifest, failWith, ret.
  destruct (getManifest env st); cbn [snd]; [|reflexivity].
  destruct (negb (isNil _)); [destruct (isNil _)|]; reflexivity.
Qed.

Lemma resolveStaging_trace (inputData : list string)
  (idSites : dict SiteReplicaRecord) (st : State) :
  trace (snd (resolveStaging inputData idSites st)) = trace st.
Proof.
  unfold resolveStaging.
  destruct (fold_left _ idSites _) as [[diskSites maxOnDisk] bestSites].
  destruct (negb (isNil diskSites)); [reflexivity|].
  destruct (Py.len bestSites >? 1); [|reflexivity].
  unfold bind, shuffle. destruct (shuffleWith _ _ _). reflexivity.
Qed.

Lemma not_forward_staging (e : Event) :
  isStagingWrite e = true -> negb (isForward e) = true.
Proof. destruct e; simpl; congruence. Qed.

Lemma stageAt_noForward (env : Env) (idAgent : string) (opData : OpData)
  (idSites : dict SiteReplicaRecord) (stageSites : list string) :
  writesOnly (fun e => negb (isForward e))
             (stageAt env idAgent opData idSites stageSites).
Proof.
  unfold stageAt.
  destruct (Py.index stageSites 0) as [stageSite|]; [|writes].
  destruct (Dict.get idSites stageSite), (SiteCandidates opData); writes.
  - apply (writesOnly_weaken isStagingWrite);
      [exact not_forward_staging | apply writesOnly_requestStaging].
  - unfold setJobSite. writes.
Qed.

Ltac either_step :=
  lazymatch goal with
  | |- writesEither (bind (getSitesRequired _) _) =>
      apply either_bind_pure; [apply getSitesRequired_trace | intros ?]
  | |- writesEither (bind (liftOutcome _) _) =>
      apply either_bind_pure; [reflexivity | intros ?]
  | |- writesEither (bind (resolveStaging _ _) _) =>
      apply either_bind_pure; [apply resolveStaging_trace | intros ?]
  | |- writesEither (bind (requestStaging _ _) _) =>
      apply either_of_noForward, writesOnly_bind;
      [apply (writesOnly_weaken isStagingWrite);
       [exact not_forward_staging | apply writesOnly_requestStaging]
      | intros ?; apply writesOnly_ret]
  | |- writesEither (holdJob _ _ _) =>
      apply either_of_noStaging, writesOnly_holdJob, not_staging_hold
  | |- writesEither (sendToTQ _ _ _) =>
      apply either_of_noStaging, writesOnly_sendToTQ, not_staging_forward
  | |- writesEither (stageAt _ _ _ _ _) =>
      apply either_of_noForward, stageAt_noForward
  | |- writesEither (failWith _) => apply either_of_noStaging, writesOnly_ret
  | |- writesEither (ret _) => apply either_of_noStaging, writesOnly_ret
  | |- writesEither (raise _) => apply either_of_noStaging, writesOnly_raise
  | |- writesEither (scheduleJob _) => unfold scheduleJob
  | |- writesEither (userJob _ _ _ _ _) => unfold userJob
  | |- writesEither (productionJob _ _ _ _) => unfold productionJob
  | |- writesEither (let _ := _ in _) => cbv zeta
  | |- writesEither (match ?x with _ => _ end) =>
      first [progress cbn [negb andb orb] | destruct x]
  end.

Lemma optimizeJob_either (env : Env) : writesEither (optimizeJob env).
Proof. unfold optimizeJob. repeat either_step. Qed.

(** X24.  A call of [optimizeJob] never both stages a job and forwards it:
    when the job is handed to the next optimizer, the call has written no
    job status, sent no stage request, set no job parameter and stored no
    optimizer record. *)
Theorem optimizeJob_staged_or_forwarded (env : Env) (st : State) :
  In SetNextOptimizer (eventsSince st (snd (optimizeJob env st))) ->
  forall e, In e (eventsSince st (snd (optimizeJob env st))) ->
            isStagingWrite e = false.
Proof.
  destruct (optimizeJob_either env st) as (new & Htr & Hnew).
  unfold eventsSince. rewrite Htr, skipn_app, skipn_all, Nat.sub_diag.
  cbn [skipn app]. intros Hfwd e He.
  destruct Hnew as [Hnew | Hnew]; rewrite Forall_forall in Hnew.
  - apply Hnew, He.
  - specialize (Hnew SetNextOptimizer Hfwd). discriminate Hnew.
Qed.

Lemma optimizeJob_staged_or_forwarded_witness :
  In SetNextOptimizer
     (eventsSince (initialState ["X"; "Y"])
        (snd (optimizeJob envOnDisk (initialState ["X"; "Y"]))))
  /\ forall e,
       In e (eventsSince (initialState ["X"; "Y"])
               (snd (optimizeJob envOnDisk (initialState ["X"; "Y"])))) ->
       isStagingWrite e = false.
Proof.
  assert (Hfwd : In SetNextOptimizer
                   (eventsSince (initialState ["X"; "Y"])
                      (snd (optimizeJob envOnDisk (initialState ["X"; "Y"])))))
    by (vm_compute; right; left; reflexivity).
  split; [exact Hfwd|].
  apply (optimizeJob_staged_or_forwarded envOnDisk (initialState ["X"; "Y"]) Hfwd).
Defined.
